(** * ydb-go-sdk: the typed value model, the discovery client and the
      balancer's distribution table

    A shallow embedding of
      - [internal/value/value.go]  (values, wire encoding and decoding, casts,
                                    zero values),
      - [discovery.go]             (the ListEndpoints client),
      - the balancer test table    (the expected traffic distributions),
    followed by the properties established for them. *)

From Stdlib Require Import ZArith List String Ascii Bool Lia.
From Stdlib Require Import Permutation Sorted QArith SpecFloat DecimalString.
From Stdlib.Strings Require Import Byte.
Import ListNotations.

Set Warnings "-register-all".

Open Scope string_scope.
Open Scope Z_scope.

(* ================================================================= *)
(** ** Go primitives *)

Module Go.

(** Conversion to an unsigned integer type of [w] bits. *)
Definition to_uint (w : Z) (z : Z) : Z := z mod 2 ^ w.

(** Conversion to a signed integer type of [w] bits (two's complement). *)
Definition to_int (w : Z) (z : Z) : Z :=
  (z + 2 ^ (w - 1)) mod 2 ^ w - 2 ^ (w - 1).

Definition in_uint (w z : Z) : Prop := 0 <= z < 2 ^ w.
Definition in_int (w z : Z) : Prop := - 2 ^ (w - 1) <= z < 2 ^ (w - 1).

(** [strconv.FormatInt(z, 10)], [strconv.FormatUint(z, 10)] and
    [String()] of a [big.Int]: the decimal digits, with a leading minus sign for
    a negative number. *)
Definition FormatInt (z : Z) : string := NilZero.string_of_int (Z.to_int z).

(** [strconv.FormatBool]. *)
Definition FormatBool (b : bool) : string := if b then "true" else "false".

(** [len(s)] of a string, as an [int]. *)
Definition len (s : string) : Z := Z.of_nat (String.length s).

(** The slice expressions [s[:i]] and [s[i:]] on a string.  An index below
    zero or above [len(s)] is a run-time panic, here [None]. *)
Definition slice_to (s : string) (i : Z) : option string :=
  if (0 <=? i) && (i <=? len s)
  then Some (String.substring 0 (Z.to_nat i) s) else None.

Definition slice_from (s : string) (i : Z) : option string :=
  if (0 <=? i) && (i <=? len s)
  then Some (String.substring (Z.to_nat i) (String.length s - Z.to_nat i) s)
  else None.

(** [[]byte(s)] and [string(b)]. *)
Definition bytes_of_string (s : string) : list byte := list_byte_of_string s.
Definition string_of_bytes (b : list byte) : string := string_of_list_byte b.

(** [binary.BigEndian.PutUint64] into 8 bytes, and [binary.BigEndian.Uint64]
    of 8 bytes. *)
Definition byte_of_Z (z : Z) : byte :=
  match Byte.of_N (Z.to_N (z mod 256)) with
  | Some b => b
  | None => "000"%byte
  end.

Definition Z_of_byte (b : byte) : Z := Z.of_N (Byte.to_N b).

Definition PutUint64 (v : Z) : list byte :=
  map (fun k => byte_of_Z (Z.shiftr v (8 * k))) [7; 6; 5; 4; 3; 2; 1; 0].

Definition Uint64 (b : list byte) : Z :=
  fold_left (fun acc x => Z.lor (Z.shiftl acc 8) (Z_of_byte x)) (firstn 8 b) 0.

(** A value of type [[16]byte]: the zero array. *)
Definition zero16 : list byte := repeat "000"%byte 16.

(** Numeric conversions to [float64] and [float32] (round to nearest even). *)
Definition float64_of_Z (z : Z) : spec_float := binary_normalize 53 1024 z 0 false.
Definition float32_of_Z (z : Z) : spec_float := binary_normalize 24 128 z 0 false.

Definition float64_of_float32 (f : spec_float) : spec_float :=
  match f with
  | S754_finite s m e =>
      binary_normalize 53 1024 (if s then Z.neg m else Z.pos m) e s
  | _ => f
  end.

(** An untyped constant [n/d] converted to [float64] or [float32]. *)
Definition float64_const (n d : Z) : spec_float :=
  SFdiv 53 1024 (float64_of_Z n) (float64_of_Z d).
Definition float32_const (n d : Z) : spec_float :=
  SFdiv 24 128 (float32_of_Z n) (float32_of_Z d).

(** [int(f)] of a [float64]: truncation towards zero. *)
Definition int_of_float (f : spec_float) : Z :=
  match f with
  | S754_finite s m e =>
      let a := if 0 <=? e then Z.pos m * 2 ^ e else Z.pos m / 2 ^ (- e) in
      if s then - a else a
  | _ => 0
  end.

(** A [time.Time]: the instant in nanoseconds since the Unix epoch and
    whether its location is UTC. *)
Record Time := { unixNano : Z; isUTC : bool }.

Definition UTC (t : Time) : Time := {| unixNano := unixNano t; isUTC := true |}.

(** [time.Duration] is an [int64] of nanoseconds. *)
Definition Microsecond : Z := 1000.
Definition Second : Z := 1000000000.
Definition Minute : Z := 60 * Second.
Definition Hour : Z := 60 * Minute.

End Go.

(** What a Go function call produces: a returned value, a returned [error],
    or a run-time panic that aborts the call.  [NoFuel] is not a behaviour of
    the program: a function that is defined here by recursion on a step count
    gives it when the count runs out. *)
Inductive outcome (A : Type) : Type :=
| Ret (a : A)
| Fail (e : string)
| Panic (msg : string)
| NoFuel.
Arguments Ret {A} a.
Arguments Fail {A} e.
Arguments Panic {A} msg.
Arguments NoFuel {A}.

Definition bind {A B} (x : outcome A) (f : A -> outcome B) : outcome B :=
  match x with
  | Ret a => f a
  | Fail e => Fail e
  | Panic m => Panic m
  | NoFuel => NoFuel
  end.

Declare Scope outcome_scope.
Delimit Scope outcome_scope with outcome.
Notation "x <- c ;; k" := (bind c (fun x => k))
  (at level 61, c at next level, right associativity) : outcome_scope.

(* ================================================================= *)
(** ** Type descriptors *)

(** Modelled from the spec: the primitive type tags of the type registry
    ([internal/value/type.go] is not among the sources; spec section 3).
    [TypeUnknown] is the zero of the tag's integer type, the case that the
    [default] arms of [primitiveValueFromYDB] and [zeroPrimitiveValue] catch. *)
Inductive PrimitiveType : Type :=
| TypeUnknown
| TypeBool
| TypeInt8 | TypeUint8 | TypeInt16 | TypeUint16
| TypeInt32 | TypeUint32 | TypeInt64 | TypeUint64
| TypeFloat | TypeDouble
| TypeDate | TypeDatetime | TypeTimestamp | TypeInterval
| TypeTzDate | TypeTzDatetime | TypeTzTimestamp
| TypeBytes | TypeText | TypeYSON | TypeJSON | TypeUUID
| TypeJSONDocument | TypeDyNumber.

(** Modelled from the spec: the kind of a variant, over a tuple or over a
    struct.  [variantTypeUnknown] is any other value of the kind's integer
    type, reported by the [default] arm of [fromYDB]. *)
Inductive variantKind : Type :=
| variantTypeTuple
| variantTypeStruct
| variantTypeUnknown.

(** Modelled from the spec: the type descriptors (spec section 3, "Type").
    A struct field [StructField{Name, T}] is the pair of its name and type. *)
Inductive Type_ : Type :=
| Primitive (p : PrimitiveType)
| optionalType (innerType : Type_)
| listType (itemType : Type_)
| emptyListType
| TupleType (items : list Type_)
| StructType (fields : list (string * Type_))
| dictType (keyType valueType : Type_)
| emptyDictType
| DecimalType (Precision Scale : Z)
| variantType (innerType : Type_) (kind : variantKind)
| voidType
| nullType.

Definition StructField : Type := (string * Type_)%type.

(** Modelled from the spec: the constructors of the type registry. *)
Definition Optional (t : Type_) : Type_ := optionalType t.
Definition List_ (t : Type_) : Type_ := listType t.
Definition EmptyList : Type_ := emptyListType.
Definition Tuple (items : list Type_) : Type_ := TupleType items.
Definition Struct (fields : list StructField) : Type_ := StructType fields.
Definition Dict (k v : Type_) : Type_ := dictType k v.
Definition Void : Type_ := voidType.

(** Modelled from the spec: [Variant(t)] builds the variant over a tuple or a
    struct type ("Variant(inner: Tuple|Struct, kind)"); any other inner type is
    a construction error, which aborts. *)
Definition Variant (t : Type_) : outcome Type_ :=
  match t with
  | TupleType _ => Ret (variantType t variantTypeTuple)
  | StructType _ => Ret (variantType t variantTypeStruct)
  | _ => Panic "unsupported inner type for variant"
  end.

Definition PrimitiveType_eqb (a b : PrimitiveType) : bool :=
  match a, b with
  | TypeUnknown, TypeUnknown | TypeBool, TypeBool
  | TypeInt8, TypeInt8 | TypeUint8, TypeUint8
  | TypeInt16, TypeInt16 | TypeUint16, TypeUint16
  | TypeInt32, TypeInt32 | TypeUint32, TypeUint32
  | TypeInt64, TypeInt64 | TypeUint64, TypeUint64
  | TypeFloat, TypeFloat | TypeDouble, TypeDouble
  | TypeDate, TypeDate | TypeDatetime, TypeDatetime
  | TypeTimestamp, TypeTimestamp | TypeInterval, TypeInterval
  | TypeTzDate, TypeTzDate | TypeTzDatetime, TypeTzDatetime
  | TypeTzTimestamp, TypeTzTimestamp
  | TypeBytes, TypeBytes | TypeText, TypeText | TypeYSON, TypeYSON
  | TypeJSON, TypeJSON | TypeUUID, TypeUUID
  | TypeJSONDocument, TypeJSONDocument | TypeDyNumber, TypeDyNumber => true
  | _, _ => false
  end.

Definition variantKind_eqb (a b : variantKind) : bool :=
  match a, b with
  | variantTypeTuple, variantTypeTuple
  | variantTypeStruct, variantTypeStruct
  | variantTypeUnknown, variantTypeUnknown => true
  | _, _ => false
  end.

(** Modelled from the spec: [equalsTo], the structural equality of two type
    descriptors ("two Types compare equal iff structurally identical; Decimal
    equality includes (precision, scale); Struct equality includes ordered
    (name, type) pairs; Optional nesting depth is significant"). *)
Fixpoint equalsTo (a b : Type_) {struct a} : bool :=
  match a, b with
  | Primitive p, Primitive q => PrimitiveType_eqb p q
  | optionalType x, optionalType y => equalsTo x y
  | listType x, listType y => equalsTo x y
  | emptyListType, emptyListType => true
  | TupleType xs, TupleType ys =>
      (fix go (xs ys : list Type_) {struct xs} : bool :=
         match xs, ys with
         | [], [] => true
         | x :: xs', y :: ys' => equalsTo x y && go xs' ys'
         | _, _ => false
         end) xs ys
  | StructType xs, StructType ys =>
      (fix go (xs ys : list (string * Type_)) {struct xs} : bool :=
         match xs, ys with
         | [], [] => true
         | (n, x) :: xs', (m, y) :: ys' =>
             String.eqb n m && equalsTo x y && go xs' ys'
         | _, _ => false
         end) xs ys
  | dictType k v, dictType k' v' => equalsTo k k' && equalsTo v v'
  | emptyDictType, emptyDictType => true
  | DecimalType p s, DecimalType p' s' => (p =? p') && (s =? s')
  | variantType x k, variantType y k' => equalsTo x y && variantKind_eqb k k'
  | voidType, voidType => true
  | nullType, nullType => true
  | _, _ => false
  end.

(* ================================================================= *)
(** ** Wire payloads *)

(** Modelled from the spec: the wire description of a type (spec section 6).
    The in-memory descriptors [EmptyList], [EmptyDict] and [Null] have a node
    of their own, so that the conversion of section 4.2 has an inverse. *)
Inductive Ydb_Type : Type :=
| Type_TypeId (p : PrimitiveType)
| Type_OptionalType (Item : Ydb_Type)
| Type_ListType (Item : Ydb_Type)
| Type_TupleType (Elements : list Ydb_Type)
| Type_StructType (Members : list (string * Ydb_Type))
| Type_DictType (Key Payload : Ydb_Type)
| Type_DecimalType (Precision Scale : Z)
| Type_VariantType (inner : Ydb_Type)
| Type_VoidType
| Type_NullType
| Type_EmptyListType
| Type_EmptyDictType.

(** Modelled from the spec: [toYDB] of a type descriptor, "the tree-shaped
    wire description" (section 4.2). *)
Fixpoint Type_toYDB (t : Type_) : Ydb_Type :=
  match t with
  | Primitive p => Type_TypeId p
  | optionalType x => Type_OptionalType (Type_toYDB x)
  | listType x => Type_ListType (Type_toYDB x)
  | emptyListType => Type_EmptyListType
  | TupleType xs => Type_TupleType (map Type_toYDB xs)
  | StructType fs => Type_StructType (map (fun f => (fst f, Type_toYDB (snd f))) fs)
  | dictType k v => Type_DictType (Type_toYDB k) (Type_toYDB v)
  | emptyDictType => Type_EmptyDictType
  | DecimalType p s => Type_DecimalType p s
  | variantType x _ => Type_VariantType (Type_toYDB x)
  | voidType => Type_VoidType
  | nullType => Type_NullType
  end.

(** Modelled from the spec: [TypeFromYDB], the inverse of [toYDB] (section
    4.2).  The kind of a variant is read off its inner node. *)
Fixpoint TypeFromYDB (t : Ydb_Type) : Type_ :=
  match t with
  | Type_TypeId p => Primitive p
  | Type_OptionalType x => optionalType (TypeFromYDB x)
  | Type_ListType x => listType (TypeFromYDB x)
  | Type_TupleType xs => TupleType (map TypeFromYDB xs)
  | Type_StructType fs => StructType (map (fun f => (fst f, TypeFromYDB (snd f))) fs)
  | Type_DictType k v => dictType (TypeFromYDB k) (TypeFromYDB v)
  | Type_DecimalType p s => DecimalType p s
  | Type_VariantType x =>
      variantType (TypeFromYDB x)
        match x with
        | Type_TupleType _ => variantTypeTuple
        | Type_StructType _ => variantTypeStruct
        | _ => variantTypeUnknown
        end
  | Type_VoidType => voidType
  | Type_NullType => nullType
  | Type_EmptyListType => emptyListType
  | Type_EmptyDictType => emptyDictType
  end.

(** The wire value node [Ydb.Value]: the [oneof] leaf field [Value], the
    repeated [Items] and [Pairs], [VariantIndex] and [High_128]. *)
Inductive Ydb_Value : Type :=
| mkValue (Value_ : isValue_Value) (Items : list Ydb_Value)
    (Pairs : list (Ydb_Value * Ydb_Value)) (VariantIndex : Z) (High_128 : Z)
with isValue_Value : Type :=
| Value_unset
| Value_BoolValue (BoolValue : bool)
| Value_Int32Value (Int32Value : Z)
| Value_Uint32Value (Uint32Value : Z)
| Value_Int64Value (Int64Value : Z)
| Value_Uint64Value (Uint64Value : Z)
| Value_FloatValue (FloatValue : spec_float)
| Value_DoubleValue (DoubleValue : spec_float)
| Value_BytesValue (BytesValue : list byte)
| Value_TextValue (TextValue : string)
| Value_NullFlagValue
| Value_NestedValue (NestedValue : Ydb_Value)
| Value_Low_128 (Low_128 : Z).

Definition Value_of (v : Ydb_Value) : isValue_Value :=
  match v with mkValue x _ _ _ _ => x end.
Definition Items (v : Ydb_Value) : list Ydb_Value :=
  match v with mkValue _ x _ _ _ => x end.
Definition Pairs (v : Ydb_Value) : list (Ydb_Value * Ydb_Value) :=
  match v with mkValue _ _ x _ _ => x end.
Definition VariantIndex (v : Ydb_Value) : Z :=
  match v with mkValue _ _ _ x _ => x end.
Definition High_128 (v : Ydb_Value) : Z :=
  match v with mkValue _ _ _ _ x => x end.

(** [a.Value()]: a zeroed node from the arena. *)
Definition a_Value : Ydb_Value := mkValue Value_unset [] [] 0 0.

(** A node with only its leaf field set. *)
Definition leaf (x : isValue_Value) : Ydb_Value := mkValue x [] [] 0 0.

(** The generated getters: the field when the [oneof] holds that case, the
    zero value otherwise. *)
Definition GetBoolValue (v : Ydb_Value) : bool :=
  match Value_of v with Value_BoolValue x => x | _ => false end.
Definition GetInt32Value (v : Ydb_Value) : Z :=
  match Value_of v with Value_Int32Value x => x | _ => 0 end.
Definition GetUint32Value (v : Ydb_Value) : Z :=
  match Value_of v with Value_Uint32Value x => x | _ => 0 end.
Definition GetInt64Value (v : Ydb_Value) : Z :=
  match Value_of v with Value_Int64Value x => x | _ => 0 end.
Definition GetUint64Value (v : Ydb_Value) : Z :=
  match Value_of v with Value_Uint64Value x => x | _ => 0 end.
Definition GetFloatValue (v : Ydb_Value) : spec_float :=
  match Value_of v with Value_FloatValue x => x | _ => S754_zero false end.
Definition GetDoubleValue (v : Ydb_Value) : spec_float :=
  match Value_of v with Value_DoubleValue x => x | _ => S754_zero false end.
Definition GetTextValue (v : Ydb_Value) : string :=
  match Value_of v with Value_TextValue x => x | _ => "" end.
Definition GetBytesValue (v : Ydb_Value) : list byte :=
  match Value_of v with Value_BytesValue x => x | _ => [] end.
Definition GetLow_128 (v : Ydb_Value) : Z :=
  match Value_of v with Value_Low_128 x => x | _ => 0 end.

(** A typed value on the wire. *)
Record Ydb_TypedValue : Type := { tv_Type : Ydb_Type; tv_Value : Ydb_Value }.

(* ================================================================= *)
(** ** What the value model takes as given *)

(** A comparison function that [sort.Slice] can sort by. *)
Record StrictWeakOrder {A : Type} (less : A -> A -> bool) : Prop := {
  less_irrefl : forall x, less x x = false;
  less_trans : forall x y z, less x y = true -> less y z = true -> less x z = true;
  less_neg_trans :
    forall x y z, less x y = false -> less y z = false -> less x z = false
}.

(** The functions of the Go library and of third-party packages that the value
    model calls, and the parts of the repository that are not among the
    sources.

    [sort.Slice] reorders a slice so that no element is [less] than one before
    it; the order of equal elements is not specified (the sort is not stable),
    so only this contract is assumed. *)
Class Externals : Type := {
  sort_Slice : forall {A : Type}, (A -> A -> bool) -> list A -> list A;
  sort_Slice_Permutation :
    forall (A : Type) (less : A -> A -> bool) (l : list A),
      Permutation l (sort_Slice less l);
  sort_Slice_Sorted :
    forall (A : Type) (less : A -> A -> bool) (l : list A),
      StrictWeakOrder less ->
      StronglySorted (fun x y => less y x = false) (sort_Slice less l);
  (** [strconv.FormatFloat(f, fmt, prec, bitSize)] *)
  strconv_FormatFloat : spec_float -> ascii -> Z -> Z -> string;
  (** [strconv.Quote(s)], the verb [%q] of [fmt] *)
  strconv_Quote : string -> string;
  (** [t.Format(layout)] of a [time.Time] *)
  time_Format : Go.Time -> string -> string;
  (** [uuid.UUID(b).String()] *)
  uuid_String : list byte -> string;
  (** [String()] and [Name()] of a type descriptor (type.go) *)
  Type_String : Type_ -> string;
  Type_Name : Type_ -> string;
  (** the layouts of time.go *)
  LayoutDate : string;
  LayoutDatetime : string;
  LayoutTimestamp : string
}.

(** Modelled from the spec: the conversions of time.go, which is not among the
    sources.  "Date = days since 1970-01-01 (u32), Datetime = seconds since
    epoch (u32), Timestamp = microseconds since epoch (u64), Interval = signed
    microseconds (i64)". *)
Definition DateToTime (n : Z) : Go.Time :=
  {| Go.unixNano := n * 24 * Go.Hour; Go.isUTC := false |}.
Definition DatetimeToTime (n : Z) : Go.Time :=
  {| Go.unixNano := n * Go.Second; Go.isUTC := false |}.
Definition TimestampToTime (n : Z) : Go.Time :=
  {| Go.unixNano := n * Go.Microsecond; Go.isUTC := false |}.
Definition IntervalToDuration (n : Z) : Z := Go.to_int 64 (n * Go.Microsecond).

(* ================================================================= *)
(** ** Values *)

(** The implementations of the [Value] interface.  A [StructValueField{Name, V}]
    and a [DictValueField{K, V}] are pairs; the payload of an optional value is
    [None] when its [value] field is [nil]. *)
Inductive Value : Type :=
| boolValue (v : bool)
| dateValue (v : Z)
| datetimeValue (v : Z)
| decimalValue (value : list byte) (Precision Scale : Z)
| dictValue (t : Type_) (values : list (Value * Value))
| doubleValue (value : spec_float)
| dyNumberValue (v : string)
| floatValue (value : spec_float)
| int8Value (v : Z)
| int16Value (v : Z)
| int32Value (v : Z)
| int64Value (v : Z)
| intervalValue (v : Z)
| jsonValue (v : string)
| jsonDocumentValue (v : string)
| listValue (t : Type_) (items : list Value)
| optionalValue (innerType : Type_) (value : option Value)
| structValue (t : Type_) (fields : list (string * Value))
| timestampValue (v : Z)
| tupleValue (t : Type_) (items : list Value)
| tzDateValue (v : string)
| tzDatetimeValue (v : string)
| tzTimestampValue (v : string)
| uint8Value (v : Z)
| uint16Value (v : Z)
| uint32Value (v : Z)
| uint64Value (v : Z)
| textValue (v : string)
| uuidValue (value : list byte)
| variantValue (innerType : Type_) (value : Value) (idx : Z)
| voidValue
| ysonValue (v : list byte)
| bytesValue (v : list byte).

Definition StructValueField : Type := (string * Value)%type.
Definition DictValueField : Type := (Value * Value)%type.

(** The method [Type()]. *)
Definition Value_Type (v : Value) : Type_ :=
  match v with
  | boolValue _ => Primitive TypeBool
  | dateValue _ => Primitive TypeDate
  | datetimeValue _ => Primitive TypeDatetime
  | decimalValue _ p s => DecimalType p s
  | dictValue t _ => t
  | doubleValue _ => Primitive TypeDouble
  | dyNumberValue _ => Primitive TypeDyNumber
  | floatValue _ => Primitive TypeFloat
  | int8Value _ => Primitive TypeInt8
  | int16Value _ => Primitive TypeInt16
  | int32Value _ => Primitive TypeInt32
  | int64Value _ => Primitive TypeInt64
  | intervalValue _ => Primitive TypeInterval
  | jsonValue _ => Primitive TypeJSON
  | jsonDocumentValue _ => Primitive TypeJSONDocument
  | listValue t _ => t
  | optionalValue t _ => t
  | structValue t _ => t
  | timestampValue _ => Primitive TypeTimestamp
  | tupleValue t _ => t
  | tzDateValue _ => Primitive TypeTzDate
  | tzDatetimeValue _ => Primitive TypeTzDatetime
  | tzTimestampValue _ => Primitive TypeTzTimestamp
  | uint8Value _ => Primitive TypeUint8
  | uint16Value _ => Primitive TypeUint16
  | uint32Value _ => Primitive TypeUint32
  | uint64Value _ => Primitive TypeUint64
  | textValue _ => Primitive TypeText
  | uuidValue _ => Primitive TypeUUID
  | variantValue t _ _ => t
  | voidValue => voidType
  | ysonValue _ => Primitive TypeYSON
  | bytesValue _ => Primitive TypeBytes
  end.

(** The node of a 16-byte big-endian buffer: [Low_128] holds bytes 8..15 and
    [High_128] bytes 0..7. *)
Definition toYDB_128 (bytes : list byte) : Ydb_Value :=
  mkValue (Value_Low_128 (Go.Uint64 (skipn 8 bytes))) [] [] 0
          (Go.Uint64 (firstn 8 bytes)).

(** The method [toYDB].  The arena only hands out zeroed nodes, so it does not
    appear. *)
Fixpoint toYDB (v : Value) : Ydb_Value :=
  match v with
  | boolValue b => leaf (Value_BoolValue b)
  | dateValue n => leaf (Value_Uint32Value (Go.to_uint 32 n))
  | datetimeValue n => leaf (Value_Uint32Value (Go.to_uint 32 n))
  | decimalValue bytes _ _ => toYDB_128 bytes
  | dictValue _ values =>
      mkValue Value_unset []
        (map (fun vv => (toYDB (fst vv), toYDB (snd vv))) values) 0 0
  | doubleValue f => leaf (Value_DoubleValue f)
  | dyNumberValue s => leaf (Value_TextValue s)
  | floatValue f => leaf (Value_FloatValue f)
  | int8Value n => leaf (Value_Int32Value (Go.to_int 32 n))
  | int16Value n => leaf (Value_Int32Value (Go.to_int 32 n))
  | int32Value n => leaf (Value_Int32Value (Go.to_int 32 n))
  | int64Value n => leaf (Value_Int64Value (Go.to_int 64 n))
  | intervalValue n => leaf (Value_Int64Value (Go.to_int 64 n))
  | jsonValue s => leaf (Value_TextValue s)
  | jsonDocumentValue s => leaf (Value_TextValue s)
  | listValue _ items => mkValue Value_unset (map toYDB items) [] 0 0
  | optionalValue _ value =>
      match value with
      | Some inner =>
          match inner with
          | optionalValue _ _ => leaf (Value_NestedValue (toYDB inner))
          | _ => leaf (Value_of (toYDB inner))
          end
      | None => leaf Value_NullFlagValue
      end
  | structValue _ fields =>
      mkValue Value_unset (map (fun field => toYDB (snd field)) fields) [] 0 0
  | timestampValue n => leaf (Value_Uint64Value (Go.to_uint 64 n))
  | tupleValue _ items => mkValue Value_unset (map toYDB items) [] 0 0
  | tzDateValue s => leaf (Value_TextValue s)
  | tzDatetimeValue s => leaf (Value_TextValue s)
  | tzTimestampValue s => leaf (Value_TextValue s)
  | uint8Value n => leaf (Value_Uint32Value (Go.to_uint 32 n))
  | uint16Value n => leaf (Value_Uint32Value (Go.to_uint 32 n))
  | uint32Value n => leaf (Value_Uint32Value (Go.to_uint 32 n))
  | uint64Value n => leaf (Value_Uint64Value (Go.to_uint 64 n))
  | textValue s => leaf (Value_TextValue s)
  | uuidValue bytes => toYDB_128 bytes
  | variantValue _ value idx =>
      mkValue (Value_NestedValue (toYDB value)) [] [] idx 0
  | voidValue => leaf Value_NullFlagValue
  | ysonValue b => leaf (Value_BytesValue b)
  | bytesValue b => leaf (Value_BytesValue b)
  end.

(** [ToYDB]: the type and the value, both encoded. *)
Definition ToYDB (v : Value) : Ydb_TypedValue :=
  {| tv_Type := Type_toYDB (Value_Type v); tv_Value := toYDB v |}.

(* ================================================================= *)
(** ** Rendering *)

(** Modelled from the spec: [decimal.FromBytes] ([internal/decimal] is not
    among the sources), the inverse of the "two's-complement big-endian
    128-bit encoding of n" (section 4.4). *)
Definition decimal_FromBytes (bts : list byte) (precision scale : Z) : Z :=
  let u := fold_left (fun acc x => acc * 256 + Go.Z_of_byte x) bts 0 in
  match bts with
  | [] => 0
  | b :: _ => if 128 <=? Go.Z_of_byte b then u - 2 ^ (8 * Z.of_nat (List.length bts)) else u
  end.

(** [decimalValue.toString]: the digits of the number with a point put
    [Scale] characters from the right.  Each of the two slice expressions
    panics when its index is out of range. *)
Definition decimalValue_toString (value : list byte) (Precision Scale : Z)
  : outcome string :=
  let s := Go.FormatInt (decimal_FromBytes value Precision Scale) in
  match Go.slice_to s (Go.len s - Scale), Go.slice_from s (Go.len s - Scale) with
  | Some l, Some r => Ret (l ++ "." ++ r)%string
  | _, _ => Panic "slice bounds out of range"
  end.

(** Elements joined by commas, as the loops over a buffer do. *)
Fixpoint join_comma (l : list string) : string :=
  match l with
  | [] => ""
  | [x] => x
  | x :: r => (x ++ "," ++ join_comma r)%string
  end.

(** Apply [f] to every element, left to right, stopping at the first element
    that does not return. *)
Definition mapM {A B : Type} (f : A -> outcome B) : list A -> outcome (list B) :=
  fix go (l : list A) : outcome (list B) :=
    match l with
    | [] => Ret []
    | x :: r =>
        match f x with
        | Ret y =>
            match go r with
            | Ret ys => Ret (y :: ys)
            | Fail e => Fail e
            | Panic m => Panic m
            | NoFuel => NoFuel
            end
        | Fail e => Fail e
        | Panic m => Panic m
        | NoFuel => NoFuel
        end
    end.

(** The same with the index of the element, as [for i, x := range l]. *)
Definition mapM_i {A B : Type} (f : nat -> A -> outcome B)
  : nat -> list A -> outcome (list B) :=
  fix go (i : nat) (l : list A) : outcome (list B) :=
    match l with
    | [] => Ret []
    | x :: r =>
        match f i x with
        | Ret y =>
            match go (S i) r with
            | Ret ys => Ret (y :: ys)
            | Fail e => Fail e
            | Panic m => Panic m
            | NoFuel => NoFuel
            end
        | Fail e => Fail e
        | Panic m => Panic m
        | NoFuel => NoFuel
        end
    end.

Section Rendering.
Context {ext : Externals}.
Local Open Scope outcome_scope.

Definition quote (s : string) : string := strconv_Quote s.

(** [intervalValue.toString] *)
Definition intervalValue_toString (v : Z) : string :=
  let d0 := IntervalToDuration (Go.to_int 64 v) in
  let '(b1, d1) :=
    if d0 <? 0 then ("-", Go.to_int 64 (- d0)) else ("", d0) in
  let b2 := (b1 ++ "P")%string in
  let days := Z.quot (Z.quot d1 Go.Hour) 24 in
  let '(b3, d3) :=
    if 0 <? days
    then ((b2 ++ Go.FormatInt days ++ "D")%string,
          Go.to_int 64 (d1 - Go.to_int 64 (Go.to_int 64 (days * Go.Hour) * 24)))
    else (b2, d1) in
  let b4 := if 0 <? d3 then (b3 ++ "T")%string else b3 in
  let hours := Z.quot d3 Go.Hour in
  let '(b5, d5) :=
    if 0 <? hours
    then ((b4 ++ Go.FormatInt hours ++ "H")%string,
          Go.to_int 64 (d3 - Go.to_int 64 (hours * Go.Hour)))
    else (b4, d3) in
  let minutes := Z.quot d5 Go.Minute in
  let '(b6, d6) :=
    if 0 <? minutes
    then ((b5 ++ Go.FormatInt minutes ++ "M")%string,
          Go.to_int 64 (d5 - Go.to_int 64 (minutes * Go.Minute)))
    else (b5, d5) in
  if 0 <? d6
  then
    let seconds := SFdiv 53 1024 (Go.float64_of_Z d6) (Go.float64_of_Z Go.Second) in
    (b6 ++ strconv_FormatFloat seconds "f" 6 64 ++ "S")%string
  else b6.

(** The method [String()], given the result [s] of [toString()] on the same
    value. *)
Definition String_with (v : Value) (s : string) : string :=
  match v with
  | decimalValue _ p sc =>
      (Type_Name (DecimalType p sc) ++ "(" ++ quote s ++ ","
         ++ Go.FormatInt p ++ "," ++ Go.FormatInt sc ++ ")")%string
  | dictValue _ _ => ("AsDict(" ++ s ++ ")")%string
  | jsonValue _ | jsonDocumentValue _ =>
      (Type_String (Value_Type v) ++ "(@@" ++ s ++ "@@)")%string
  | listValue _ _ => ("AsList(" ++ s ++ ")")%string
  | optionalValue t _ =>
      ("CAST(" ++ quote s ++ " AS " ++ Type_String t ++ ")")%string
  | structValue _ _ => ("AsStruct(" ++ s ++ ")")%string
  | tupleValue _ _ => ("AsTuple(" ++ s ++ ")")%string
  | variantValue _ _ _ => ("AsVariant(" ++ s ++ ")")%string
  | voidValue => s
  | _ => (Type_String (Value_Type v) ++ "(" ++ quote s ++ ")")%string
  end.

(** The method [toString()]. *)
Fixpoint toString (v : Value) : outcome string :=
  match v with
  | boolValue b => Ret (Go.FormatBool b)
  | dateValue n => Ret (time_Format (DateToTime n) LayoutDate)
  | datetimeValue n => Ret (time_Format (Go.UTC (DatetimeToTime n)) LayoutDatetime)
  | decimalValue value p s => decimalValue_toString value p s
  | dictValue _ values =>
      l <- mapM (fun value =>
                    k <- toString (fst value) ;;
                    p <- toString (snd value) ;;
                    Ret ("AsTuple(" ++ String_with (fst value) k ++ ","
                           ++ String_with (snd value) p ++ ")")%string) values ;;
      Ret (join_comma l)
  | doubleValue f => Ret (strconv_FormatFloat f "g" (-1) 64)
  | dyNumberValue s => Ret s
  | floatValue f => Ret (strconv_FormatFloat (Go.float64_of_float32 f) "g" (-1) 32)
  | int8Value n | int16Value n | int32Value n | int64Value n => Ret (Go.FormatInt n)
  | intervalValue n => Ret (intervalValue_toString n)
  | jsonValue s => Ret s
  | jsonDocumentValue s => Ret s
  | listValue _ items =>
      l <- mapM toString items ;; Ret (join_comma l)
  | optionalValue _ value =>
      match value with
      | None => Ret "NULL"
      | Some inner => toString inner
      end
  | structValue _ fields =>
      l <- mapM (fun field =>
                    s <- toString (snd field) ;;
                    Ret (String_with (snd field) s ++ " AS `" ++ fst field ++ "`")%string)
                 fields ;;
      Ret (join_comma l)
  | timestampValue n => Ret (time_Format (Go.UTC (TimestampToTime n)) LayoutTimestamp)
  | tupleValue _ items =>
      l <- mapM (fun item => s <- toString item ;; Ret (String_with item s)) items ;;
      Ret (join_comma l)
  | tzDateValue s | tzDatetimeValue s | tzTimestampValue s => Ret s
  | uint8Value n | uint16Value n | uint32Value n | uint64Value n => Ret (Go.FormatInt n)
  | textValue s => Ret s
  | uuidValue value => Ret (uuid_String value)
  | variantValue _ value idx =>
      s <- toString value ;;
      Ret (quote s ++ "," ++ Go.FormatInt idx)%string
  | voidValue => Ret "VOID"
  | ysonValue b => Ret (Go.string_of_bytes b)
  | bytesValue b => Ret (Go.string_of_bytes b)
  end.

(** The method [String()]. *)
Definition String_ (v : Value) : outcome string :=
  s <- toString v ;; Ret (String_with v s).

End Rendering.

(* ================================================================= *)
(** ** Casts *)

(** The destination [dst interface{}] of [castTo]: a pointer of one of the
    types that some [castTo] switches on, with the content of the variable it
    points to, or a value of any other type. *)
Inductive dst : Type :=
| ptr_bool (x : bool)
| ptr_string (x : string)
| ptr_bytes (x : list byte)
| ptr_int8 (x : Z)
| ptr_int16 (x : Z)
| ptr_int32 (x : Z)
| ptr_int64 (x : Z)
| ptr_uint8 (x : Z)
| ptr_uint16 (x : Z)
| ptr_uint32 (x : Z)
| ptr_uint64 (x : Z)
| ptr_float32 (x : spec_float)
| ptr_float64 (x : spec_float)
| ptr_Time (x : Go.Time)
| ptr_Duration (x : Z)
| ptr_array16 (x : list byte)
| ptr_other (T : string).

(** The errors of [castTo]: "cannot cast ... to ... destination" (the spec's
    CastError) and [errOptionalNilValue] (the spec's OptionalNilError). *)
Inductive error : Type :=
| errCannotCast
| errOptionalNilValue.

(** A call of [castTo] leaves the destination as it returns it, with the
    error it returns ([None] for [nil]). *)
Definition cast_result : Type := (dst * option error)%type.

Definition stored (d : dst) : cast_result := (d, None).
Definition cannot_cast (d : dst) : cast_result := (d, Some errCannotCast).

Section Casts.
Context {ext : Externals}.

Definition FormatFloat_f (f : spec_float) (bitSize : Z) : string :=
  strconv_FormatFloat f "f" (-1) bitSize.

(** The method [castTo]. *)
Fixpoint castTo (v : Value) (d : dst) : cast_result :=
  match v with
  | boolValue b =>
      match d with
      | ptr_bool _ => stored (ptr_bool b)
      | ptr_string _ => stored (ptr_string (Go.FormatBool b))
      | _ => cannot_cast d
      end
  | dateValue n =>
      match d with
      | ptr_Time _ => stored (ptr_Time (Go.UTC (DateToTime n)))
      | ptr_uint64 _ => stored (ptr_uint64 (Go.to_uint 64 n))
      | ptr_int64 _ => stored (ptr_int64 (Go.to_int 64 n))
      | ptr_int32 _ => stored (ptr_int32 (Go.to_int 32 n))
      | _ => cannot_cast d
      end
  | datetimeValue n =>
      match d with
      | ptr_Time _ => stored (ptr_Time (Go.UTC (DatetimeToTime n)))
      | ptr_uint64 _ => stored (ptr_uint64 (Go.to_uint 64 n))
      | ptr_int64 _ => stored (ptr_int64 (Go.to_int 64 n))
      | ptr_uint32 _ => stored (ptr_uint32 (Go.to_uint 32 n))
      | _ => cannot_cast d
      end
  | decimalValue _ _ _ => cannot_cast d
  | dictValue _ _ => cannot_cast d
  | doubleValue f =>
      match d with
      | ptr_string _ => stored (ptr_string (FormatFloat_f f 64))
      | ptr_bytes _ => stored (ptr_bytes (Go.bytes_of_string (FormatFloat_f f 64)))
      | ptr_float64 _ => stored (ptr_float64 f)
      | _ => cannot_cast d
      end
  | dyNumberValue s | jsonValue s | jsonDocumentValue s
  | tzDateValue s | tzDatetimeValue s | tzTimestampValue s | textValue s =>
      match d with
      | ptr_string _ => stored (ptr_string s)
      | ptr_bytes _ => stored (ptr_bytes (Go.bytes_of_string s))
      | _ => cannot_cast d
      end
  | floatValue f =>
      match d with
      | ptr_string _ =>
          stored (ptr_string (FormatFloat_f (Go.float64_of_float32 f) 32))
      | ptr_bytes _ =>
          stored (ptr_bytes
                    (Go.bytes_of_string (FormatFloat_f (Go.float64_of_float32 f) 32)))
      | ptr_float64 _ => stored (ptr_float64 (Go.float64_of_float32 f))
      | ptr_float32 _ => stored (ptr_float32 f)
      | _ => cannot_cast d
      end
  | int8Value n =>
      match d with
      | ptr_string _ => stored (ptr_string (Go.FormatInt (Go.to_int 64 n)))
      | ptr_bytes _ =>
          stored (ptr_bytes (Go.bytes_of_string (Go.FormatInt (Go.to_int 64 n))))
      | ptr_int64 _ => stored (ptr_int64 (Go.to_int 64 n))
      | ptr_int32 _ => stored (ptr_int32 (Go.to_int 32 n))
      | ptr_int16 _ => stored (ptr_int16 (Go.to_int 16 n))
      | ptr_int8 _ => stored (ptr_int8 (Go.to_int 8 n))
      | ptr_float64 _ => stored (ptr_float64 (Go.float64_of_Z n))
      | ptr_float32 _ => stored (ptr_float32 (Go.float32_of_Z n))
      | _ => cannot_cast d
      end
  | int16Value n =>
      match d with
      | ptr_string _ => stored (ptr_string (Go.FormatInt (Go.to_int 64 n)))
      | ptr_bytes _ =>
          stored (ptr_bytes (Go.bytes_of_string (Go.FormatInt (Go.to_int 64 n))))
      | ptr_int64 _ => stored (ptr_int64 (Go.to_int 64 n))
      | ptr_int32 _ => stored (ptr_int32 (Go.to_int 32 n))
      | ptr_int16 _ => stored (ptr_int16 (Go.to_int 16 n))
      | ptr_float64 _ => stored (ptr_float64 (Go.float64_of_Z n))
      | ptr_float32 _ => stored (ptr_float32 (Go.float32_of_Z n))
      | _ => cannot_cast d
      end
  | int32Value n =>
      match d with
      | ptr_string _ => stored (ptr_string (Go.FormatInt (Go.to_int 64 n)))
      | ptr_bytes _ =>
          stored (ptr_bytes (Go.bytes_of_string (Go.FormatInt (Go.to_int 64 n))))
      | ptr_int64 _ => stored (ptr_int64 (Go.to_int 64 n))
      | ptr_int32 _ => stored (ptr_int32 (Go.to_int 32 n))
      | ptr_float64 _ => stored (ptr_float64 (Go.float64_of_Z n))
      | ptr_float32 _ => stored (ptr_float32 (Go.float32_of_Z n))
      | _ => cannot_cast d
      end
  | int64Value n =>
      match d with
      | ptr_string _ => stored (ptr_string (Go.FormatInt (Go.to_int 64 n)))
      | ptr_bytes _ =>
          stored (ptr_bytes (Go.bytes_of_string (Go.FormatInt (Go.to_int 64 n))))
      | ptr_int64 _ => stored (ptr_int64 (Go.to_int 64 n))
      | ptr_float64 _ => stored (ptr_float64 (Go.float64_of_Z n))
      | _ => cannot_cast d
      end
  | intervalValue n =>
      match d with
      | ptr_Duration _ => stored (ptr_Duration (IntervalToDuration (Go.to_int 64 n)))
      | ptr_int64 _ => stored (ptr_int64 (Go.to_int 64 n))
      | _ => cannot_cast d
      end
  | listValue _ _ => cannot_cast d
  | optionalValue _ value =>
      match value with
      | None => (d, Some errOptionalNilValue)
      | Some inner => castTo inner d
      end
  | structValue _ _ => cannot_cast d
  | timestampValue n =>
      match d with
      | ptr_Time _ => stored (ptr_Time (Go.UTC (TimestampToTime n)))
      | ptr_uint64 _ => stored (ptr_uint64 (Go.to_uint 64 n))
      | _ => cannot_cast d
      end
  | tupleValue _ items =>
      match items with
      | [item] => castTo item d
      | _ => cannot_cast d
      end
  | uint8Value n =>
      match d with
      | ptr_string _ => stored (ptr_string (Go.FormatInt (Go.to_int 64 n)))
      | ptr_bytes _ =>
          stored (ptr_bytes (Go.bytes_of_string (Go.FormatInt (Go.to_int 64 n))))
      | ptr_uint64 _ => stored (ptr_uint64 (Go.to_uint 64 n))
      | ptr_int64 _ => stored (ptr_int64 (Go.to_int 64 n))
      | ptr_uint32 _ => stored (ptr_uint32 (Go.to_uint 32 n))
      | ptr_int32 _ => stored (ptr_int32 (Go.to_int 32 n))
      | ptr_uint16 _ => stored (ptr_uint16 (Go.to_uint 16 n))
      | ptr_int16 _ => stored (ptr_int16 (Go.to_int 16 n))
      | ptr_uint8 _ => stored (ptr_uint8 (Go.to_uint 8 n))
      | ptr_float64 _ => stored (ptr_float64 (Go.float64_of_Z n))
      | ptr_float32 _ => stored (ptr_float32 (Go.float32_of_Z n))
      | _ => cannot_cast d
      end
  | uint16Value n =>
      match d with
      | ptr_string _ => stored (ptr_string (Go.FormatInt (Go.to_int 64 n)))
      | ptr_bytes _ =>
          stored (ptr_bytes (Go.bytes_of_string (Go.FormatInt (Go.to_int 64 n))))
      | ptr_uint64 _ => stored (ptr_uint64 (Go.to_uint 64 n))
      | ptr_int64 _ => stored (ptr_int64 (Go.to_int 64 n))
      | ptr_uint32 _ => stored (ptr_uint32 (Go.to_uint 32 n))
      | ptr_int32 _ => stored (ptr_int32 (Go.to_int 32 n))
      | ptr_uint16 _ => stored (ptr_uint16 (Go.to_uint 16 n))
      | ptr_float32 _ => stored (ptr_float32 (Go.float32_of_Z n))
      | ptr_float64 _ => stored (ptr_float64 (Go.float64_of_Z n))
      | _ => cannot_cast d
      end
  | uint32Value n =>
      match d with
      | ptr_string _ => stored (ptr_string (Go.FormatInt (Go.to_int 64 n)))
      | ptr_bytes _ =>
          stored (ptr_bytes (Go.bytes_of_string (Go.FormatInt (Go.to_int 64 n))))
      | ptr_uint64 _ => stored (ptr_uint64 (Go.to_uint 64 n))
      | ptr_int64 _ => stored (ptr_int64 (Go.to_int 64 n))
      | ptr_uint32 _ => stored (ptr_uint32 (Go.to_uint 32 n))
      | ptr_float64 _ => stored (ptr_float64 (Go.float64_of_Z n))
      | _ => cannot_cast d
      end
  | uint64Value n =>
      match d with
      | ptr_string _ => stored (ptr_string (Go.FormatInt (Go.to_int 64 n)))
      | ptr_bytes _ =>
          stored (ptr_bytes (Go.bytes_of_string (Go.FormatInt (Go.to_int 64 n))))
      | ptr_uint64 _ => stored (ptr_uint64 (Go.to_uint 64 n))
      | _ => cannot_cast d
      end
  | uuidValue value =>
      match d with
      | ptr_string _ => stored (ptr_string (Go.string_of_bytes value))
      | ptr_bytes _ => stored (ptr_bytes value)
      | ptr_array16 _ => stored (ptr_array16 value)
      | _ => cannot_cast d
      end
  | variantValue _ value _ => castTo value d
  | voidValue => cannot_cast d
  | ysonValue b | bytesValue b =>
      match d with
      | ptr_string _ => stored (ptr_string (Go.string_of_bytes b))
      | ptr_bytes _ => stored (ptr_bytes b)
      | _ => cannot_cast d
      end
  end.

End Casts.

(* ================================================================= *)
(** ** Constructors *)

(** [BigEndianUint128] builds a big-endian uint128 value. *)
Definition BigEndianUint128 (hi lo : Z) : list byte :=
  Go.PutUint64 hi ++ Go.PutUint64 lo.

Definition BoolValue (v : bool) : Value := boolValue v.
Definition DateValue (v : Z) : Value := dateValue v.
Definition DatetimeValue (v : Z) : Value := datetimeValue v.
Definition DecimalValue (v : list byte) (precision scale : Z) : Value :=
  decimalValue v precision scale.
Definition DoubleValue (v : spec_float) : Value := doubleValue v.
Definition DyNumberValue (v : string) : Value := dyNumberValue v.
Definition FloatValue (v : spec_float) : Value := floatValue v.
Definition Int8Value (v : Z) : Value := int8Value v.
Definition Int16Value (v : Z) : Value := int16Value v.
Definition Int32Value (v : Z) : Value := int32Value v.
Definition Int64Value (v : Z) : Value := int64Value v.
Definition IntervalValue (v : Z) : Value := intervalValue v.
Definition JSONValue (v : string) : Value := jsonValue v.
Definition JSONDocumentValue (v : string) : Value := jsonDocumentValue v.
Definition TimestampValue (v : Z) : Value := timestampValue v.
Definition TzDateValue (v : string) : Value := tzDateValue v.
Definition TzDatetimeValue (v : string) : Value := tzDatetimeValue v.
Definition TzTimestampValue (v : string) : Value := tzTimestampValue v.
Definition Uint8Value (v : Z) : Value := uint8Value v.
Definition Uint16Value (v : Z) : Value := uint16Value v.
Definition Uint32Value (v : Z) : Value := uint32Value v.
Definition Uint64Value (v : Z) : Value := uint64Value v.
Definition TextValue (v : string) : Value := textValue v.
Definition UUIDValue (v : list byte) : Value := uuidValue v.
Definition VoidValue : Value := voidValue.
Definition YSONValue (v : list byte) : Value := ysonValue v.
Definition BytesValue (v : list byte) : Value := bytesValue v.

Definition NullValue (t : Type_) : Value := optionalValue (Optional t) None.

Definition OptionalValue (v : Value) : Value :=
  optionalValue (Optional (Value_Type v)) (Some v).

(** [ListValue]: the type comes from the first item; the loop compares the
    type of every item with itself. *)
Definition ListValue (items : list Value) : outcome Value :=
  let t := match items with
           | v :: _ => List_ (Value_Type v)
           | [] => EmptyList
           end in
  if forallb (fun v => equalsTo (Value_Type v) (Value_Type v)) items
  then Ret (listValue t items)
  else Panic "different types of items".

Definition TupleValue (values : list Value) : Value :=
  tupleValue (Tuple (map Value_Type values)) values.

Definition VariantValue (v : Value) (idx : Z) (t : Type_) : outcome Value :=
  bind (Variant t) (fun vt => Ret (variantValue vt v idx)).

Definition VariantValueStruct (v : Value) (idx : Z) : outcome Value :=
  match v with
  | structValue _ _ => Ret (variantValue (variantType (Value_Type v) variantTypeStruct) v idx)
  | _ => Panic "value must be a struct type"
  end.

Definition VariantValueTuple (v : Value) (idx : Z) : outcome Value :=
  match v with
  | tupleValue _ _ => Ret (variantValue (variantType (Value_Type v) variantTypeTuple) v idx)
  | _ => Panic "value must be a tuple type"
  end.

Section Constructors.
Context {ext : Externals}.
Local Open Scope outcome_scope.

(** The comparison that [StructValue] sorts by: [fields[i].Name < fields[j].Name]. *)
Definition less_Name (a b : StructValueField) : bool := String.ltb (fst a) (fst b).

(** [StructValue]: the fields sorted by name, and the struct type of the
    sorted fields. *)
Definition StructValue (fields : list StructValueField) : Value :=
  let fields := sort_Slice less_Name fields in
  let structFields := map (fun field => (fst field, Value_Type (snd field))) fields in
  structValue (Struct structFields) fields.

(** The key that [DictValue] sorts by, [K.toString()]. *)
Definition dict_key (f : DictValueField) : string :=
  match toString (fst f) with
  | Ret s => s
  | _ => ""
  end.

Definition less_K (a b : DictValueField) : bool := String.ltb (dict_key a) (dict_key b).

(** [DictValue]: the pairs sorted by the string of their key; the type is
    taken from the first pair, so that no pair at all is an index out of
    range.  Sorting two pairs or more renders every key, and a key that
    cannot be rendered aborts the sort. *)
Definition DictValue (values : list DictValueField) : outcome Value :=
  _ <- (match values with
        | _ :: _ :: _ => mapM (fun f => toString (fst f)) values
        | _ => Ret []
        end) ;;
  match sort_Slice less_K values with
  | [] => Panic "index out of range [0] with length 0"
  | (v0 :: _) as values =>
      Ret (dictValue (Dict (Value_Type (fst v0)) (Value_Type (snd v0))) values)
  end.

End Constructors.

(* ================================================================= *)
(** ** Decoding *)

(** [nullValueFromYDB]: follows nested nodes down to a leaf; at a null flag the
    answer depends on the type [t] the caller passed, which the loop never
    changes. *)
Fixpoint nullValueFromYDB (x : Ydb_Value) (t : Type_) {struct x} : option Value :=
  match x with
  | mkValue xx _ _ _ _ =>
      match xx with
      | Value_NestedValue nested => nullValueFromYDB nested t
      | Value_NullFlagValue =>
          match t with
          | optionalType innerType => Some (NullValue innerType)
          | voidType => Some VoidValue
          | _ => None
          end
      | _ => None
      end
  end.

Definition primitiveValueFromYDB (t : PrimitiveType) (v : Ydb_Value) : outcome Value :=
  match t with
  | TypeBool => Ret (BoolValue (GetBoolValue v))
  | TypeInt8 => Ret (Int8Value (Go.to_int 8 (GetInt32Value v)))
  | TypeInt16 => Ret (Int16Value (Go.to_int 16 (GetInt32Value v)))
  | TypeInt32 => Ret (Int32Value (GetInt32Value v))
  | TypeInt64 => Ret (Int64Value (GetInt64Value v))
  | TypeUint8 => Ret (Uint8Value (Go.to_uint 8 (GetUint32Value v)))
  | TypeUint16 => Ret (Uint16Value (Go.to_uint 16 (GetUint32Value v)))
  | TypeUint32 => Ret (Uint32Value (GetUint32Value v))
  | TypeUint64 => Ret (Uint64Value (GetUint64Value v))
  | TypeDate => Ret (DateValue (GetUint32Value v))
  | TypeDatetime => Ret (DatetimeValue (GetUint32Value v))
  | TypeInterval => Ret (IntervalValue (GetInt64Value v))
  | TypeTimestamp => Ret (TimestampValue (GetUint64Value v))
  | TypeFloat => Ret (FloatValue (GetFloatValue v))
  | TypeDouble => Ret (DoubleValue (GetDoubleValue v))
  | TypeText => Ret (TextValue (GetTextValue v))
  | TypeYSON =>
      match Value_of v with
      | Value_TextValue s => Ret (YSONValue (Go.bytes_of_string s))
      | Value_BytesValue b => Ret (YSONValue b)
      | _ => Fail "uncovered YSON internal type"
      end
  | TypeJSON => Ret (JSONValue (GetTextValue v))
  | TypeJSONDocument => Ret (JSONDocumentValue (GetTextValue v))
  | TypeDyNumber => Ret (DyNumberValue (GetTextValue v))
  | TypeTzDate => Ret (TzDateValue (GetTextValue v))
  | TypeTzDatetime => Ret (TzDatetimeValue (GetTextValue v))
  | TypeTzTimestamp => Ret (TzTimestampValue (GetTextValue v))
  | TypeBytes => Ret (BytesValue (GetBytesValue v))
  | TypeUUID => Ret (UUIDValue (BigEndianUint128 (High_128 v) (GetLow_128 v)))
  | TypeUnknown => Fail "uncovered primitive type"
  end.

(** [FromYDB] turns the error of [fromYDB] into a panic. *)
Definition must (r : outcome Value) : outcome Value :=
  match r with
  | Fail e => Panic e
  | _ => r
  end.

(** The type assertion of [v.Value] to a nested value, and its [NestedValue]. *)
Definition assert_NestedValue (v : Ydb_Value) : outcome Ydb_Value :=
  match Value_of v with
  | Value_NestedValue nested => Ret nested
  | _ => Panic "interface conversion: not *Ydb.Value_NestedValue"
  end.

(** The index expression [l[i]]. *)
Definition index {A : Type} (l : list A) (i : nat) : outcome A :=
  match nth_error l i with
  | Some x => Ret x
  | None => Panic "index out of range"
  end.

Section Decoding.
Context {ext : Externals}.
Local Open Scope outcome_scope.

(** The body of [fromYDB], with the function [FromYDB] that it calls on the
    parts of the value. *)
Definition fromYDB_body (FromYDB : Ydb_Type -> Ydb_Value -> outcome Value)
           (t : Ydb_Type) (v : Ydb_Value) : outcome Value :=
  let tt := TypeFromYDB t in
  match nullValueFromYDB v tt with
  | Some vv => Ret vv
  | None =>
      match tt with
      | Primitive ttt => primitiveValueFromYDB ttt v
      | voidType => Ret VoidValue
      | nullType => Ret (NullValue tt)
      | DecimalType Precision Scale =>
          Ret (DecimalValue (BigEndianUint128 (High_128 v) (GetLow_128 v))
                 Precision Scale)
      | optionalType _ =>
          match t with
          | Type_OptionalType Item =>
              match Value_of v with
              | Value_NestedValue nestedValue =>
                  x <- FromYDB Item nestedValue ;; Ret (OptionalValue x)
              | _ =>
                  x <- FromYDB Item v ;; Ret (OptionalValue x)
              end
          | _ => Panic "interface conversion: not *Ydb.Type_OptionalType"
          end
      | listType itemType =>
          vv <- mapM (fun vvv => FromYDB (Type_toYDB itemType) vvv) (Items v) ;;
          ListValue vv
      | TupleType items =>
          vv <- mapM_i (fun i vvv =>
                          ti <- index items i ;;
                          FromYDB (Type_toYDB ti) vvv) 0%nat (Items v) ;;
          Ret (TupleValue vv)
      | StructType fields =>
          vv <- mapM_i (fun i vvv =>
                          fi <- index fields i ;;
                          x <- FromYDB (Type_toYDB (snd fi)) vvv ;;
                          Ret (fst fi, x)) 0%nat (Items v) ;;
          Ret (StructValue vv)
      | dictType keyType valueType =>
          vv <- mapM (fun vvv =>
                        k <- FromYDB (Type_toYDB keyType) (fst vvv) ;;
                        p <- FromYDB (Type_toYDB valueType) (snd vvv) ;;
                        Ret (k, p)) (Pairs v) ;;
          DictValue vv
      | variantType innerType kind =>
          match kind with
          | variantTypeTuple =>
              match innerType with
              | TupleType _ =>
                  nested <- assert_NestedValue v ;;
                  x <- FromYDB (Type_toYDB innerType) nested ;;
                  VariantValueTuple x (VariantIndex v)
              | _ => Panic "interface conversion: not *TupleType"
              end
          | variantTypeStruct =>
              match innerType with
              | StructType _ =>
                  nested <- assert_NestedValue v ;;
                  x <- FromYDB (Type_toYDB innerType) nested ;;
                  VariantValueStruct x (VariantIndex v)
              | _ => Panic "interface conversion: not *StructType"
              end
          | variantTypeUnknown => Fail "unknown variant type"
          end
      | emptyListType | emptyDictType => Fail "uncovered type"
      end
  end.

(** [fromYDB].  Its calls of [FromYDB] on the items re-encode the item's type
    before decoding, so the recursion is not structural; [fuel] bounds its
    depth. *)
Fixpoint fromYDB (fuel : nat) (t : Ydb_Type) (v : Ydb_Value) {struct fuel}
  : outcome Value :=
  match fuel with
  | O => NoFuel
  | S fuel => fromYDB_body (fun t v => must (fromYDB fuel t v)) t v
  end.

(** The nesting depth of a wire type. *)
Fixpoint depth (t : Ydb_Type) : nat :=
  match t with
  | Type_OptionalType x | Type_ListType x | Type_VariantType x => S (depth x)
  | Type_TupleType xs => S (fold_right (fun x n => Nat.max (depth x) n) 0%nat xs)
  | Type_StructType fs =>
      S (fold_right (fun f n => Nat.max (depth (snd f)) n) 0%nat fs)
  | Type_DictType k p => S (Nat.max (depth k) (depth p))
  | _ => 0%nat
  end.

(** [FromYDB]: [fromYDB], with a panic for an error.  The step count is one
    more than the depth of the type, which is enough (see
    [fromYDB_enough_fuel]) and gives what any larger count gives (see
    [fromYDB_fuel_irrelevant]). *)
Definition FromYDB (t : Ydb_Type) (v : Ydb_Value) : outcome Value :=
  must (fromYDB (S (depth t)) t v).

End Decoding.

(* ================================================================= *)
(** ** Zero values *)

Definition zeroPrimitiveValue (t : PrimitiveType) : outcome Value :=
  match t with
  | TypeBool => Ret (BoolValue false)
  | TypeInt8 => Ret (Int8Value 0)
  | TypeUint8 => Ret (Uint8Value 0)
  | TypeInt16 => Ret (Int16Value 0)
  | TypeUint16 => Ret (Uint16Value 0)
  | TypeInt32 => Ret (Int32Value 0)
  | TypeUint32 => Ret (Uint32Value 0)
  | TypeInt64 => Ret (Int64Value 0)
  | TypeUint64 => Ret (Uint64Value 0)
  | TypeFloat => Ret (FloatValue (S754_zero false))
  | TypeDouble => Ret (DoubleValue (S754_zero false))
  | TypeDate => Ret (DateValue 0)
  | TypeDatetime => Ret (DatetimeValue 0)
  | TypeTimestamp => Ret (TimestampValue 0)
  | TypeInterval => Ret (IntervalValue 0)
  | TypeText => Ret (TextValue "")
  | TypeYSON => Ret (YSONValue [])
  | TypeJSON => Ret (JSONValue "")
  | TypeJSONDocument => Ret (JSONDocumentValue "")
  | TypeDyNumber => Ret (DyNumberValue "")
  | TypeTzDate => Ret (TzDateValue "")
  | TypeTzDatetime => Ret (TzDatetimeValue "")
  | TypeTzTimestamp => Ret (TzTimestampValue "")
  | TypeBytes => Ret (BytesValue [])
  | TypeUUID => Ret (UUIDValue Go.zero16)
  | TypeUnknown => Panic "uncovered primitive type"
  end.

Section Zero.
Context {ext : Externals}.
Local Open Scope outcome_scope.

(** [ZeroValue].  The arm for Void is written for the pointer type
    [*voidType], while the descriptor of Void is the value [voidType{}]
    ([_voidValueType], and the arms [case voidType] of [nullValueFromYDB] and
    [fromYDB]): the type switch does not take that arm for it, and Void
    falls to [default] like the descriptors that have no arm. *)
Fixpoint ZeroValue (t : Type_) : outcome Value :=
  match t with
  | Primitive p => zeroPrimitiveValue p
  | optionalType innerType => Ret (NullValue innerType)
  | listType _ => Ret (listValue t [])
  | TupleType items =>
      vs <- mapM ZeroValue items ;;
      Ret (tupleValue t vs)
  | StructType fields =>
      fs <- mapM (fun tt => v <- ZeroValue (snd tt) ;; Ret (fst tt, v)) fields ;;
      Ret (StructValue fs)
  | dictType _ _ => Ret (dictValue t [])
  | DecimalType _ _ => Ret (DecimalValue Go.zero16 22 9)
  | variantType innerType _ =>
      z <- ZeroValue innerType ;;
      VariantValue z 0 innerType
  | voidType | emptyListType | emptyDictType | nullType =>
      Panic "uncovered type"
  end.

End Zero.

(* ================================================================= *)
(** ** The discovery client (discovery.go) *)

Module Discovery.

Record Endpoint : Type := {
  Addr : string;
  Port : Z;
  LoadFactor : spec_float;
  Local : bool
}.

(** An entry of the ListEndpoints result, [Ydb_Discovery.EndpointInfo]. *)
Record EndpointInfo : Type := {
  Address : string;
  ei_Port : Z;
  ei_LoadFactor : spec_float;
  Ssl : bool;
  Location : string
}.

Record ListEndpointsResult : Type := {
  Endpoints : list EndpointInfo;
  SelfLocation : string
}.

(** The client; its [discoveryService] is the RPC stub, whose answer is an
    argument of [Discover] below. *)
Record discoveryClient : Type := {
  database : string;
  ssl : bool
}.

(** What the two calls that leave the function give: [ListEndpoints] returns
    an error or a response, and [proto.Unmarshal] of the response's result
    returns an error or the decoded message. *)
Inductive rpc : Type :=
| ListEndpoints_error (err : string)
| Unmarshal_error (err : string)
| Unmarshal_ok (listEndpointsResult : ListEndpointsResult).

(** The loop of [Discover]: the literal it appends sets [Addr], [Port] and
    [Local]; [LoadFactor] keeps the zero of [float32]. *)
Fixpoint collect (d : discoveryClient) (selfLocation : string)
         (es : list EndpointInfo) (endpoints : list Endpoint) : list Endpoint :=
  match es with
  | [] => endpoints
  | e :: es' =>
      if Bool.eqb (Ssl e) (ssl d)
      then collect d selfLocation es'
             (endpoints ++
                [ {| Addr := Address e;
                     Port := Go.to_int 64 (ei_Port e);
                     LoadFactor := S754_zero false;
                     Local := String.eqb (Location e) selfLocation |} ])
      else collect d selfLocation es' endpoints
  end.

Definition Discover (d : discoveryClient) (r : rpc) : outcome (list Endpoint) :=
  match r with
  | ListEndpoints_error err => Fail err
  | Unmarshal_error err => Fail err
  | Unmarshal_ok res => Ret (collect d (SelfLocation res) (Endpoints res) [])
  end.

(** What the specification asks of one reported endpoint. *)
Definition reported (selfLocation : string) (e : EndpointInfo) : Endpoint :=
  {| Addr := Address e;
     Port := ei_Port e;
     LoadFactor := ei_LoadFactor e;
     Local := String.eqb (Location e) selfLocation |}.

End Discovery.

(* ================================================================= *)
(** ** The balancer's distribution table (balancer test file) *)

Module Balancer.

(** [endpoint.Endpoint], with the two fields the table sets. *)
Record Endpoint : Type := { Addr : string; LoadFactor : spec_float }.

Record test : Type := {
  add : list Endpoint;
  del : list Endpoint;
  banned : list string;
  repeat : Z;
  exp : list (string * Z);
  err : bool
}.

Definition ep (a : string) (n d : Z) : Endpoint :=
  {| Addr := a; LoadFactor := Go.float32_const n d |}.

(** An endpoint literal that names only [Addr]. *)
Definition ep0 (a : string) : Endpoint :=
  {| Addr := a; LoadFactor := S754_zero false |}.

Definition testData : list test :=
  [ {| add := [ep0 "foo"; ep0 "bar"];
       del := []; banned := []; repeat := 1000;
       exp := [("foo", 500); ("bar", 500)]; err := false |};
    {| add := [ep "foo" 2 10; ep "bar" 1 1; ep "baz" 1 1];
       del := []; banned := []; repeat := 1000;
       exp := [("foo", 600); ("bar", 200); ("baz", 200)]; err := false |};
    {| add := [ep "foo" 1 1; ep "bar" 1 10; ep "baz" 9 10];
       del := []; banned := []; repeat := 1000;
       exp := [("foo", 200); ("bar", 600); ("baz", 200)]; err := false |};
    {| add := [ep "foo" 25 100; ep "bar" 1 1; ep "baz" 1 1];
       del := [ep0 "foo"]; banned := []; repeat := 1000;
       exp := [("bar", 500); ("baz", 500)]; err := false |};
    {| add := [ep "foo" 1 1; ep "bar" 25 100; ep "baz" 25 100];
       del := [ep0 "foo"]; banned := []; repeat := 1000;
       exp := [("bar", 500); ("baz", 500)]; err := false |};
    {| add := [ep "foo" 1 1; ep "bar" 75 100; ep "baz" 25 100];
       del := [ep0 "bar"]; banned := []; repeat := 1200;
       exp := [("foo", 400); ("baz", 800)]; err := false |};
    {| add := [ep "foo" 0 1; ep "bar" 0 1; ep "baz" 0 1];
       del := [ep0 "baz"]; banned := []; repeat := 1000;
       exp := [("foo", 500); ("bar", 500)]; err := false |};
    {| add := [ep "foo" 0 1; ep "bar" 0 1; ep "baz" 0 1];
       del := [ep0 "foo"; ep0 "bar"; ep0 "baz"]; banned := []; repeat := 1;
       exp := []; err := true |};
    {| add := [ep "foo" 0 1; ep "bar" 0 1; ep "baz" 0 1];
       del := []; banned := ["foo"; "bar"]; repeat := 100;
       exp := [("baz", 100)]; err := true |};
    {| add := [ep "foo" 0 1; ep "bar" 0 1; ep "baz" 0 1];
       del := []; banned := ["foo"]; repeat := 100;
       exp := [("bar", 50); ("baz", 50)]; err := true |};
    {| add := [ep "foo" 0 1; ep "bar" 0 1; ep "baz" 0 1];
       del := []; banned := ["foo"; "bar"; "baz"]; repeat := 150;
       exp := [("foo", 50); ("bar", 50); ("baz", 50)]; err := true |};
    {| add := [ep "foo" 10 1; ep "bar" 20 1; ep "baz" 30 1];
       del := []; banned := ["foo"; "bar"; "baz"]; repeat := 150;
       exp := [("foo", 75); ("bar", 50); ("baz", 25)]; err := true |};
    {| add := [ep "foo" 10 1; ep "bar" 20 1; ep "baz" 30 1];
       del := []; banned := ["foo"]; repeat := 150;
       exp := [("foo", 0); ("bar", 100); ("baz", 50)]; err := true |} ].

(** The empty row, for an index outside the table. *)
Definition no_test : test :=
  {| add := []; del := []; banned := []; repeat := 0; exp := []; err := false |}.

Definition row (i : nat) : test := nth i testData no_test.

(** [mdist]: how many times [Next] returned the connection of an address.
    An address that was never returned has no entry and reads as 0. *)
Definition mdist : Type := list (string * Z).

Definition get (m : mdist) (addr : string) : Z :=
  match find (fun p => String.eqb (fst p) addr) m with
  | Some p => snd p
  | None => 0
  end.

(** [mdist[addr]++] *)
Fixpoint incr (m : mdist) (addr : string) : mdist :=
  match m with
  | [] => [(addr, 1)]
  | (a, n) :: r => if String.eqb a addr then (a, n + 1) :: r else (a, n) :: incr r addr
  end.

(** The loop over the results of [repeat] calls of [Next]: a [nil] is fatal
    when more endpoints were added than deleted, any other result is
    counted.  [None] is the fatal exit. *)
Fixpoint observe (t : test) (results : list (option string)) (m : mdist)
  : option mdist :=
  match results with
  | [] => Some m
  | None :: r =>
      if (Z.of_nat (List.length (del t)) <? Z.of_nat (List.length (add t)))
      then None
      else observe t r m
  | Some addr :: r => observe t r (incr m addr)
  end.

(** After the loop over [test.exp] has deleted its addresses, any address
    left in [mdist] is fatal. *)
Definition no_other_addr (t : test) (m : mdist) : bool :=
  forallb (fun p => existsb (String.eqb (fst p)) (map fst (exp t))) m.

(** The check of [TestRoundRobinBalancer]: every expected count is met
    exactly. *)
Definition rr_accepts (t : test) (m : mdist) : bool :=
  forallb (fun p => get m (fst p) =? snd p) (exp t) && no_other_addr t m.

(** [int(float64(exp)*0.9)] and [int(float64(exp)*1.1)] *)
Definition lower (e : Z) : Z :=
  Go.int_of_float (SFmul 53 1024 (Go.float64_of_Z e) (Go.float64_const 9 10)).
Definition upper (e : Z) : Z :=
  Go.int_of_float (SFmul 53 1024 (Go.float64_of_Z e) (Go.float64_const 11 10)).

(** The check of [TestRandomChoiceBalancer]: every count is within a tenth
    of the expected one. *)
Definition rc_accepts (t : test) (m : mdist) : bool :=
  forallb (fun p =>
             let act := get m (fst p) in
             negb ((act <? lower (snd p)) || (upper (snd p) <? act)))
          (exp t)
  && no_other_addr t m.

(** The exact value of a [float32]. *)
Definition Q_of_float (f : spec_float) : Q :=
  match f with
  | S754_finite s m e =>
      let a := (inject_Z (Z.pos m) * Qpower (2 # 1) e)%Q in
      if s then Qopp a else a
  | _ => 0%Q
  end.

Definition Qsum (l : list Q) : Q := fold_right Qplus 0%Q l.

(** Modelled from the spec: the balancer's selector is not among the
    sources.  "When load_factors differ, the expected share of element i
    approaches (1/L_i) / sum_j (1/L_j) with L=0 treated as L=eps"
    (section 4.6). *)
Definition effective_load (eps L : Q) : Q :=
  if Qeq_bool L 0 then eps else L.

Definition weight (eps L : Q) : Q := Qinv (effective_load eps L).

Definition share (eps : Q) (loads : list Q) (i : nat) : Q :=
  (weight eps (nth i loads 0%Q) / Qsum (map (weight eps) loads))%Q.

Definition expected_count (eps : Q) (loads : list Q) (n : Z) (i : nat) : Q :=
  (inject_Z n * share eps loads i)%Q.

Definition loads_of (t : test) : list Q :=
  map (fun e => Q_of_float (LoadFactor e)) (add t).

(** The state of an element of the balancer: [Insert] adds it Online,
    [Pessimize] makes it Banned. *)
Inductive State : Type := Online | Banned.

Record element : Type := { conn : string; load_factor : Q; state : State }.

Definition is_online (e : element) : bool :=
  match state e with Online => true | Banned => false end.
Definition is_banned (e : element) : bool := negb (is_online e).

(** Modelled from the spec: "Next() selects one Online element ...; if all
    elements are Banned the selector falls back to ... choice over Banned
    elements ...; nil is returned only when the set is empty" (section 4.6).
    The random draw is the function [draw], which picks a position among the
    candidates it is shown. *)
Definition candidates (els : list element) : list element :=
  match filter is_online els with
  | [] => filter is_banned els
  | online => online
  end.

Definition Next (draw : list element -> nat) (els : list element) : option string :=
  let c := candidates els in
  option_map conn (nth_error c (draw c mod List.length c)%nat).

(** A uniform distribution of [n] selections over the addresses. *)
Definition uniform (n : Z) (addrs : list string) : mdist :=
  map (fun a => (a, n / Z.of_nat (List.length addrs))) addrs.

End Balancer.

(* ================================================================= *)
(** ** An instance of what is taken as given *)

(** The insertion sort that [sort.Slice] runs on a short slice. *)
Module InsertionSort.
Section Sort.
Context {A : Type} (less : A -> A -> bool).

Fixpoint insert (x : A) (l : list A) : list A :=
  match l with
  | [] => [x]
  | y :: r => if less x y then x :: y :: r else y :: insert x r
  end.

Definition sort (l : list A) : list A := fold_right insert [] l.
End Sort.
End InsertionSort.

Module Sample.

Definition dquote : string := String (ascii_of_nat 34) EmptyString.

Definition hex_digit (n : Z) : string :=
  String.substring (Z.to_nat n) 1 "0123456789abcdef".

Definition hex_byte (b : byte) : string :=
  (hex_digit (Go.Z_of_byte b / 16) ++ hex_digit (Go.Z_of_byte b mod 16))%string.

Definition hex (l : list byte) : string := String.concat "" (map hex_byte l).

(** The canonical form of a UUID: 8-4-4-4-12 hexadecimal digits. *)
Definition uuid_String (b : list byte) : string :=
  (hex (firstn 4 b) ++ "-" ++ hex (firstn 2 (skipn 4 b)) ++ "-"
     ++ hex (firstn 2 (skipn 6 b)) ++ "-" ++ hex (firstn 2 (skipn 8 b)) ++ "-"
     ++ hex (skipn 10 b))%string.

Definition primitive_name (p : PrimitiveType) : string :=
  match p with
  | TypeUnknown => "<unknown>"
  | TypeBool => "Bool"
  | TypeInt8 => "Int8" | TypeUint8 => "Uint8"
  | TypeInt16 => "Int16" | TypeUint16 => "Uint16"
  | TypeInt32 => "Int32" | TypeUint32 => "Uint32"
  | TypeInt64 => "Int64" | TypeUint64 => "Uint64"
  | TypeFloat => "Float" | TypeDouble => "Double"
  | TypeDate => "Date" | TypeDatetime => "Datetime"
  | TypeTimestamp => "Timestamp" | TypeInterval => "Interval"
  | TypeTzDate => "TzDate" | TypeTzDatetime => "TzDatetime"
  | TypeTzTimestamp => "TzTimestamp"
  | TypeBytes => "Bytes" | TypeText => "Text" | TypeYSON => "Yson"
  | TypeJSON => "Json" | TypeUUID => "Uuid"
  | TypeJSONDocument => "JsonDocument" | TypeDyNumber => "DyNumber"
  end.

(** The textual form of a type, after the examples of the specification
    ([List<Int32>], [Struct<a:Int32,b:Text>]). *)
Fixpoint Type_String (t : Type_) : string :=
  match t with
  | Primitive p => primitive_name p
  | optionalType x => ("Optional<" ++ Type_String x ++ ">")%string
  | listType x => ("List<" ++ Type_String x ++ ">")%string
  | emptyListType => "EmptyList"
  | TupleType xs => ("Tuple<" ++ join_comma (map Type_String xs) ++ ">")%string
  | StructType fs =>
      ("Struct<"
         ++ join_comma (map (fun f => (fst f ++ ":" ++ Type_String (snd f))%string) fs)
         ++ ">")%string
  | dictType k v => ("Dict<" ++ Type_String k ++ "," ++ Type_String v ++ ">")%string
  | emptyDictType => "EmptyDict"
  | DecimalType p s =>
      ("Decimal(" ++ Go.FormatInt p ++ "," ++ Go.FormatInt s ++ ")")%string
  | variantType x _ => ("Variant<" ++ Type_String x ++ ">")%string
  | voidType => "Void"
  | nullType => "Null"
  end.

Definition Type_Name (t : Type_) : string :=
  match t with
  | DecimalType _ _ => "Decimal"
  | _ => Type_String t
  end.

End Sample.

(* ================================================================= *)
(** * Properties *)

(** ** The order of strings *)

Lemma ascii_compare_refl (a : ascii) : Ascii.compare a a = Eq.
Proof. unfold Ascii.compare. apply N.compare_refl. Qed.

Lemma string_compare_refl (s : string) : String.compare s s = Eq.
Proof.
  induction s as [|a s IH]; simpl; [reflexivity|].
  now rewrite ascii_compare_refl.
Qed.

Lemma ascii_compare_Lt_trans (a b c : ascii) :
  Ascii.compare a b = Lt -> Ascii.compare b c = Lt -> Ascii.compare a c = Lt.
Proof.
  unfold Ascii.compare. rewrite !N.compare_lt_iff. lia.
Qed.

Lemma string_compare_Lt_trans :
  forall x y z : string,
    String.compare x y = Lt -> String.compare y z = Lt -> String.compare x z = Lt.
Proof.
  induction x as [|a x IH]; intros [|b y] [|c z]; simpl; try discriminate; auto.
  destruct (Ascii.compare a b) eqn:Hab; try discriminate;
    destruct (Ascii.compare b c) eqn:Hbc; try discriminate; intros Hxy Hyz.
  - apply Ascii.compare_eq_iff in Hab, Hbc. subst.
    rewrite ascii_compare_refl. eauto.
  - apply Ascii.compare_eq_iff in Hab. subst. now rewrite Hbc.
  - apply Ascii.compare_eq_iff in Hbc. subst. now rewrite Hab.
  - now rewrite (ascii_compare_Lt_trans a b c).
Qed.

Lemma string_ltb_irrefl (s : string) : String.ltb s s = false.
Proof. unfold String.ltb. now rewrite string_compare_refl. Qed.

Lemma string_ltb_trans (x y z : string) :
  String.ltb x y = true -> String.ltb y z = true -> String.ltb x z = true.
Proof.
  unfold String.ltb.
  destruct (String.compare x y) eqn:Hxy; try discriminate.
  destruct (String.compare y z) eqn:Hyz; try discriminate.
  now rewrite (string_compare_Lt_trans x y z).
Qed.

(** Two strings of which neither is below the other are the same string. *)
Lemma string_ltb_total (x y : string) :
  String.ltb x y = false -> String.ltb y x = false -> x = y.
Proof.
  unfold String.ltb. rewrite (String.compare_antisym y x).
  destruct (String.compare x y) eqn:Hxy; simpl; try discriminate.
  intros _ _. now apply String.compare_eq_iff.
Qed.

Lemma string_ltb_neg_trans (x y z : string) :
  String.ltb x y = false -> String.ltb y z = false -> String.ltb x z = false.
Proof.
  intros Hxy Hyz.
  destruct (String.ltb x z) eqn:Hxz; [|reflexivity].
  destruct (String.ltb y x) eqn:Hyx.
  - now rewrite (string_ltb_trans y x z Hyx Hxz) in Hyz.
  - assert (x = y) by now apply string_ltb_total.
    subst. congruence.
Qed.

(** ** Sorting *)

Section SortFacts.
Context {A : Type} (less : A -> A -> bool).
Hypothesis swo : StrictWeakOrder less.

(** [x] may stand before [y] in a sorted slice. *)
Definition not_after (x y : A) : Prop := less y x = false.

Lemma less_asym (x y : A) : less x y = true -> less y x = false.
Proof.
  intros Hxy. destruct (less y x) eqn:Hyx; [|reflexivity].
  pose proof (less_trans less swo x y x Hxy Hyx) as H.
  now rewrite (less_irrefl less swo) in H.
Qed.

Lemma insert_Permutation (x : A) (l : list A) :
  Permutation (x :: l) (InsertionSort.insert less x l).
Proof.
  induction l as [|y r IH]; simpl; [apply Permutation_refl|].
  destruct (less x y); [apply Permutation_refl|].
  eapply perm_trans; [apply perm_swap|]. now apply perm_skip.
Qed.

Lemma sort_Permutation (l : list A) : Permutation l (InsertionSort.sort less l).
Proof.
  induction l as [|x l IH]; simpl; [constructor|].
  eapply perm_trans; [|apply insert_Permutation]. now apply perm_skip.
Qed.

Lemma insert_Forall (P : A -> Prop) (x : A) (l : list A) :
  P x -> Forall P l -> Forall P (InsertionSort.insert less x l).
Proof.
  intros Hx Hl.
  eapply Permutation_Forall; [apply insert_Permutation|]. now constructor.
Qed.

Lemma insert_Sorted (x : A) (l : list A) :
  StronglySorted not_after l ->
  StronglySorted not_after (InsertionSort.insert less x l).
Proof.
  induction 1 as [|y r Hr IH Hy]; simpl.
  - repeat constructor.
  - destruct (less x y) eqn:Hxy.
    + constructor; [now constructor|].
      constructor; [exact (less_asym x y Hxy)|].
      eapply Forall_impl; [|exact Hy].
      intros z Hz. unfold not_after in *.
      destruct (less z x) eqn:Hzx; [|reflexivity].
      now rewrite (less_trans less swo z x y Hzx Hxy) in Hz.
    + constructor; [exact IH|].
      apply insert_Forall; [exact Hxy|exact Hy].
Qed.

Lemma sort_Sorted (l : list A) : StronglySorted not_after (InsertionSort.sort less l).
Proof.
  induction l as [|x l IH]; simpl; [constructor|]. now apply insert_Sorted.
Qed.

End SortFacts.

(** The assumptions hold of the insertion sort; the formatting functions of
    this instance are simple renderings, on which no result below depends. *)
#[global, refine] Instance sample_externals : Externals := {|
  sort_Slice := fun A less l => InsertionSort.sort less l;
  strconv_FormatFloat := fun f fmt prec bitSize =>
    match f with
    | S754_finite s m e =>
        ((if s then "-" else "") ++ Go.FormatInt (Z.pos m) ++ "p" ++ Go.FormatInt e)%string
    | S754_zero s => if s then "-0" else "0"
    | S754_infinity s => if s then "-Inf" else "+Inf"
    | S754_nan => "NaN"
    end;
  strconv_Quote := fun s => (Sample.dquote ++ s ++ Sample.dquote)%string;
  time_Format := fun t layout => Go.FormatInt (Go.unixNano t);
  uuid_String := Sample.uuid_String;
  Type_String := Sample.Type_String;
  Type_Name := Sample.Type_Name;
  LayoutDate := "2006-01-02";
  LayoutDatetime := "2006-01-02T15:04:05Z";
  LayoutTimestamp := "2006-01-02T15:04:05.000000Z"
|}.
Proof.
  - intros A less l. apply sort_Permutation.
  - intros A less l Hswo. now apply sort_Sorted.
Defined.


(** ** Struct values: the canonical order of fields (C6) *)

Lemma less_Name_swo : StrictWeakOrder less_Name.
Proof.
  split; unfold less_Name.
  - intros x. apply string_ltb_irrefl.
  - intros x y z. apply string_ltb_trans.
  - intros x y z. apply string_ltb_neg_trans.
Qed.

(** In a list without two fields of one name, a field is known by its name. *)
Lemma NoDup_names_inj (l : list StructValueField) (a b : StructValueField) :
  NoDup (map fst l) -> In a l -> In b l -> fst a = fst b -> a = b.
Proof.
  induction l as [|c l IH]; simpl; [tauto|].
  intros Hnd Ha Hb Hab. inversion Hnd as [|? ? Hc Hl]; subst.
  destruct Ha as [Ha|Ha], Hb as [Hb|Hb]; subst; auto.
  - exfalso. apply Hc. rewrite Hab. now apply in_map.
  - exfalso. apply Hc. rewrite <- Hab. now apply in_map.
Qed.

(** Two orderings of the same fields, both sorted by name, are the same list
    when no two fields share a name. *)
Lemma sorted_by_name_unique :
  forall l1 l2 : list StructValueField,
    NoDup (map fst l1) ->
    Permutation l1 l2 ->
    StronglySorted (not_after less_Name) l1 ->
    StronglySorted (not_after less_Name) l2 ->
    l1 = l2.
Proof.
  induction l1 as [|a l1 IH]; intros l2 Hnd Hp Hs1 Hs2.
  - now apply Permutation_nil in Hp.
  - destruct l2 as [|b l2].
    + apply Permutation_sym, Permutation_nil in Hp. discriminate.
    + assert (Hab : a = b).
      { assert (Ha : In a (b :: l2)) by (eapply Permutation_in; [exact Hp|now left]).
        assert (Hb : In b (a :: l1))
          by (eapply Permutation_in; [apply Permutation_sym; exact Hp|now left]).
        destruct Ha as [Ha|Ha]; [now symmetry|].
        destruct Hb as [Hb|Hb]; [exact Hb|].
        inversion Hs1 as [|? ? _ Hf1]; subst.
        inversion Hs2 as [|? ? _ Hf2]; subst.
        rewrite Forall_forall in Hf1, Hf2.
        apply (NoDup_names_inj (a :: l1)); [exact Hnd|now left|now right|].
        apply string_ltb_total.
        - exact (Hf2 a Ha).
        - exact (Hf1 b Hb). }
      subst b. f_equal.
      apply IH.
      * now inversion Hnd.
      * now apply Permutation_cons_inv in Hp.
      * now inversion Hs1.
      * now inversion Hs2.
Qed.

Section StructOrder.
Context {ext : Externals}.

(** Whatever [sort.Slice] does with equal elements, on fields of distinct
    names it returns what the insertion sort returns. *)
Lemma sort_Slice_by_name (fields : list StructValueField) :
  NoDup (map fst fields) ->
  sort_Slice less_Name fields = InsertionSort.sort less_Name fields.
Proof.
  intros Hnd.
  apply sorted_by_name_unique.
  - eapply Permutation_NoDup; [|exact Hnd].
    apply Permutation_map, sort_Slice_Permutation.
  - eapply perm_trans; [apply Permutation_sym, sort_Slice_Permutation|].
    apply sort_Permutation.
  - apply sort_Slice_Sorted, less_Name_swo.
  - apply sort_Sorted, less_Name_swo.
Qed.

(** The fields of a struct value and the items it encodes. *)
Definition struct_fields (v : Value) : list StructValueField :=
  match v with
  | structValue _ fields => fields
  | _ => []
  end.

(** The names go strictly up. *)
Definition names_ascending (fields : list StructValueField) : Prop :=
  StronglySorted (fun a b => String.ltb (fst a) (fst b) = true) fields.

Lemma StructValue_fields_sorted (fields : list StructValueField) :
  NoDup (map fst fields) -> names_ascending (struct_fields (StructValue fields)).
Proof.
  intros Hnd. unfold StructValue, names_ascending. simpl.
  assert (Hnd' : NoDup (map fst (sort_Slice less_Name fields))).
  { eapply Permutation_NoDup; [|exact Hnd].
    apply Permutation_map, sort_Slice_Permutation. }
  pose proof (sort_Slice_Sorted _ less_Name fields less_Name_swo) as Hs.
  induction Hs as [|a l Hl IH Ha]; [constructor|].
  simpl in Hnd'. inversion Hnd' as [|? ? Hna Hnl]; subst.
  constructor; [now apply IH|].
  rewrite Forall_forall in *. intros b Hb.
  destruct (String.ltb (fst a) (fst b)) eqn:Hab; [reflexivity|].
  exfalso. apply Hna.
  rewrite (string_ltb_total (fst a) (fst b) Hab (Ha b Hb)).
  now apply in_map.
Qed.

(** C6.  [StructValue] puts the fields in the order of their names: for fields
    of pairwise distinct names, every permutation of them gives the same
    struct value, with the names ascending, hence the same type and the same
    encoded items; and [StructValue({b: Text "y"}, {a: Int32 1})] has the type
    [Struct<a:Int32,b:Text>] and the items [{int32_value:1}, {text_value:"y"}]. *)
Theorem StructValue_canonical_order :
  forall fields fields' : list StructValueField,
    NoDup (map fst fields) ->
    Permutation fields fields' ->
    StructValue fields' = StructValue fields
    /\ names_ascending (struct_fields (StructValue fields))
    /\ Items (toYDB (StructValue fields')) = Items (toYDB (StructValue fields))
    /\ StructValue [("b", TextValue "y"); ("a", Int32Value 1)]
       = structValue
           (Struct [("a", Primitive TypeInt32); ("b", Primitive TypeText)])
           [("a", Int32Value 1); ("b", TextValue "y")]
    /\ Items (toYDB (StructValue [("b", TextValue "y"); ("a", Int32Value 1)]))
       = [leaf (Value_Int32Value 1); leaf (Value_TextValue "y")].
Proof.
  intros fields fields' Hnd Hp.
  assert (Hnd' : NoDup (map fst fields'))
    by (eapply Permutation_NoDup; [apply Permutation_map; exact Hp|exact Hnd]).
  assert (Heq : StructValue fields' = StructValue fields).
  { unfold StructValue.
    assert (Hs : sort_Slice less_Name fields' = sort_Slice less_Name fields).
    { apply sorted_by_name_unique.
      - eapply Permutation_NoDup; [|exact Hnd'].
        apply Permutation_map, sort_Slice_Permutation.
      - eapply perm_trans; [apply Permutation_sym, sort_Slice_Permutation|].
        eapply perm_trans; [apply Permutation_sym; exact Hp|].
        apply sort_Slice_Permutation.
      - apply sort_Slice_Sorted, less_Name_swo.
      - apply sort_Slice_Sorted, less_Name_swo. }
    now rewrite Hs. }
  assert (Hex : StructValue [("b", TextValue "y"); ("a", Int32Value 1)]
                = structValue
                    (Struct [("a", Primitive TypeInt32); ("b", Primitive TypeText)])
                    [("a", Int32Value 1); ("b", TextValue "y")]).
  { unfold StructValue. rewrite sort_Slice_by_name; [reflexivity|].
    repeat constructor; simpl; intuition discriminate. }
  split; [exact Heq|].
  split; [now apply StructValue_fields_sorted|].
  split; [now rewrite Heq|].
  split; [exact Hex|].
  rewrite Hex. reflexivity.
Qed.

End StructOrder.

(** C6: the theorem on the two orders of the fields [a] and [b]. *)
Lemma StructValue_canonical_order_witness :
  NoDup (map fst [("b", TextValue "y"); ("a", Int32Value 1)])
  /\ Permutation [("b", TextValue "y"); ("a", Int32Value 1)]
                 [("a", Int32Value 1); ("b", TextValue "y")]
  /\ @StructValue sample_externals [("a", Int32Value 1); ("b", TextValue "y")]
     = @StructValue sample_externals [("b", TextValue "y"); ("a", Int32Value 1)].
Proof.
  assert (Hnd : NoDup (map fst [("b", TextValue "y"); ("a", Int32Value 1)])).
  { repeat constructor; simpl; intuition discriminate. }
  assert (Hp : Permutation [("b", TextValue "y"); ("a", Int32Value 1)]
                           [("a", Int32Value 1); ("b", TextValue "y")]).
  { apply perm_swap. }
  split; [exact Hnd|]. split; [exact Hp|].
  exact (proj1 (@StructValue_canonical_order sample_externals _ _ Hnd Hp)).
Defined.

(** The textual form of the type of the example, with the rendering of types
    of the sample instance. *)
Lemma StructValue_example_type_string :
  Sample.Type_String
    (Value_Type (@StructValue sample_externals
                   [("b", TextValue "y"); ("a", Int32Value 1)]))
  = "Struct<a:Int32,b:Text>".
Proof. vm_compute. reflexivity. Qed.

(** With two fields of one name the order of the arguments shows in the
    result of the insertion sort: distinct names are needed above. *)
Lemma StructValue_same_name_keeps_argument_order :
  @StructValue sample_externals [("a", Int32Value 1); ("a", Int32Value 2)]
  <> @StructValue sample_externals [("a", Int32Value 2); ("a", Int32Value 1)].
Proof. vm_compute. discriminate. Qed.

(** ** Casts (C5, C8) *)

(** [castTo] returned [nil]. *)
Definition succeeds (r : cast_result) : bool :=
  match snd r with
  | None => true
  | Some _ => false
  end.

(** The destinations of an Int8 value: string, bytes, the signed integers of 8
    to 64 bits and the two floats. *)
Definition int8_destination (d : dst) : bool :=
  match d with
  | ptr_string _ | ptr_bytes _
  | ptr_int8 _ | ptr_int16 _ | ptr_int32 _ | ptr_int64 _
  | ptr_float32 _ | ptr_float64 _ => true
  | _ => false
  end.

(** The destinations that [dateValue.castTo] has an arm for. *)
Definition date_destination (d : dst) : bool :=
  match d with
  | ptr_Time _ | ptr_uint64 _ | ptr_int64 _ | ptr_int32 _ => true
  | _ => false
  end.

Definition datetime_destination (d : dst) : bool :=
  match d with
  | ptr_Time _ | ptr_uint64 _ | ptr_int64 _ | ptr_uint32 _ => true
  | _ => false
  end.

Section CastFacts.
Context {ext : Externals}.

(** A cast that fails leaves the destination as it was. *)
Lemma castTo_error_keeps_dst :
  forall (v : Value) (d : dst) (e : error),
    snd (castTo v d) = Some e -> fst (castTo v d) = d.
Proof.
  fix IH 1. intros v d e.
  destruct v; simpl;
    try (destruct d; simpl; intros H; (discriminate || reflexivity)).
  - destruct value as [inner|]; simpl; [apply IH|reflexivity].
  - destruct items as [|item [|? ?]]; simpl; try reflexivity. apply IH.
  - apply IH.
Qed.

Lemma int8_cast_matrix (n : Z) (d : dst) :
  succeeds (castTo (Int8Value n) d) = int8_destination d
  /\ (int8_destination d = false -> castTo (Int8Value n) d = cannot_cast d).
Proof. destruct d; simpl; split; (reflexivity || discriminate). Qed.

Lemma int16_refuses_int8 (n x : Z) :
  castTo (Int16Value n) (ptr_int8 x) = cannot_cast (ptr_int8 x).
Proof. reflexivity. Qed.

Lemma date_cast_matrix (n : Z) (d : dst) :
  succeeds (castTo (DateValue n) d) = date_destination d
  /\ (date_destination d = false -> castTo (DateValue n) d = cannot_cast d).
Proof. destruct d; simpl; split; (reflexivity || discriminate). Qed.

Lemma datetime_cast_matrix (n : Z) (d : dst) :
  succeeds (castTo (DatetimeValue n) d) = datetime_destination d
  /\ (datetime_destination d = false -> castTo (DatetimeValue n) d = cannot_cast d).
Proof. destruct d; simpl; split; (reflexivity || discriminate). Qed.

(** The other rows that the specification spells out: Bool accepts bool and
    string; Uint8 accepts what Int8 accepts, without [*int8], and the unsigned
    integers of 8 to 64 bits; Timestamp accepts the timestamp and [*uint64];
    Interval accepts the duration and [*int64]; UUID accepts string, bytes and
    the array of 16 bytes. *)
Lemma documented_cast_rows (b : bool) (n : Z) (u : list byte) (d : dst) :
  succeeds (castTo (BoolValue b) d)
  = match d with ptr_bool _ | ptr_string _ => true | _ => false end
  /\ succeeds (castTo (Uint8Value n) d)
     = match d with
       | ptr_string _ | ptr_bytes _
       | ptr_int16 _ | ptr_int32 _ | ptr_int64 _
       | ptr_uint8 _ | ptr_uint16 _ | ptr_uint32 _ | ptr_uint64 _
       | ptr_float32 _ | ptr_float64 _ => true
       | _ => false
       end
  /\ succeeds (castTo (TimestampValue n) d)
     = match d with ptr_Time _ | ptr_uint64 _ => true | _ => false end
  /\ succeeds (castTo (IntervalValue n) d)
     = match d with ptr_Duration _ | ptr_int64 _ => true | _ => false end
  /\ succeeds (castTo (UUIDValue u) d)
     = match d with
       | ptr_string _ | ptr_bytes _ | ptr_array16 _ => true
       | _ => false
       end.
Proof. destruct d; repeat split. Qed.

(** C5, at the destination where the code leaves the cast matrix.  A Date
    value is a [uint32], and the matrix gives it the destination [*uint32];
    [dateValue.castTo] has the arm [*int32] in its place, so the cast of a Date
    to [*uint32] is refused with the cast error and the destination is not
    written, while the same cast of a Datetime stores the number.  The UTC
    timestamp destination is accepted, and so is the Int8 row of the matrix. *)
Theorem date_castTo_uint32_is_refused :
  forall n x : Z,
    castTo (DateValue n) (ptr_uint32 x) = (ptr_uint32 x, Some errCannotCast)
    /\ castTo (DatetimeValue n) (ptr_uint32 x)
       = (ptr_uint32 (Go.to_uint 32 n), None)
    /\ castTo (DateValue n) (ptr_int32 x) = (ptr_int32 (Go.to_int 32 n), None)
    /\ (forall t, castTo (DateValue n) (ptr_Time t)
                  = (ptr_Time (Go.UTC (DateToTime n)), None))
    /\ (forall d, succeeds (castTo (Int8Value n) d) = int8_destination d).
Proof.
  intros n x. repeat split.
  intros d. apply int8_cast_matrix.
Qed.

(** C8.  The cast of an Optional value with a payload is the cast of the
    payload; the cast of an Optional value without one returns
    [errOptionalNilValue] and leaves the destination as it was. *)
Theorem optional_castTo :
  forall (t : Type_) (d : dst),
    (forall inner : Value,
        castTo (optionalValue t (Some inner)) d = castTo inner d)
    /\ castTo (optionalValue t None) d = (d, Some errOptionalNilValue)
    /\ (forall inner : Value, castTo (OptionalValue inner) d = castTo inner d)
    /\ castTo (NullValue t) d = (d, Some errOptionalNilValue).
Proof. intros t d. repeat split. Qed.

End CastFacts.

(** ** Encoding of Optional values (C2) *)

Definition is_optional (v : Value) : bool :=
  match v with
  | optionalValue _ _ => true
  | _ => false
  end.

Lemma optional_toYDB_plain_payload (t : Type_) (inner : Value) :
  is_optional inner = false ->
  toYDB (optionalValue t (Some inner)) = leaf (Value_of (toYDB inner)).
Proof. destruct inner; simpl; intros H; (reflexivity || discriminate). Qed.

(** The value nodes of NULL at the outer level do not tell the depth of the
    type: only the type that travels with them does. *)
Lemma outer_null_nodes_coincide :
  toYDB (NullValue (Optional (Primitive TypeInt32)))
  = toYDB (NullValue (Primitive TypeInt32))
  /\ ToYDB (NullValue (Optional (Primitive TypeInt32)))
     <> ToYDB (NullValue (Primitive TypeInt32)).
Proof. split; [reflexivity|discriminate]. Qed.

(** C2.  An Optional value whose payload is itself Optional is encoded as a
    nested node around the encoding of the payload; an Optional value without
    payload is encoded as a null flag; so the value of type
    Optional(Optional(Int32)) that holds the NULL of Optional(Int32) is
    encoded differently from the NULL of Optional(Int32). *)
Theorem optional_toYDB_preserves_nesting :
  (forall (t t' : Type_) (payload : option Value),
      toYDB (optionalValue t (Some (optionalValue t' payload)))
      = leaf (Value_NestedValue (toYDB (optionalValue t' payload))))
  /\ (forall t : Type_, toYDB (optionalValue t None) = leaf Value_NullFlagValue)
  /\ Value_Type (OptionalValue (NullValue (Primitive TypeInt32)))
     = Optional (Optional (Primitive TypeInt32))
  /\ toYDB (OptionalValue (NullValue (Primitive TypeInt32)))
     = leaf (Value_NestedValue (leaf Value_NullFlagValue))
  /\ toYDB (NullValue (Primitive TypeInt32)) = leaf Value_NullFlagValue
  /\ toYDB (OptionalValue (NullValue (Primitive TypeInt32)))
     <> toYDB (NullValue (Primitive TypeInt32)).
Proof. repeat split. discriminate. Qed.

(** ** The string of a Decimal value (C9) *)

(** When the digits, sign included, are at least [Scale] characters, the
    point stands [Scale] characters from the right. *)
Lemma decimalValue_toString_inserts_point (value : list byte) (Precision Scale : Z) :
  let s := Go.FormatInt (decimal_FromBytes value Precision Scale) in
  0 <= Scale <= Go.len s ->
  decimalValue_toString value Precision Scale
  = Ret (String.substring 0 (Z.to_nat (Go.len s - Scale)) s
           ++ "."
           ++ String.substring (Z.to_nat (Go.len s - Scale))
                (String.length s - Z.to_nat (Go.len s - Scale)) s)%string.
Proof.
  intros s Hs. unfold decimalValue_toString. fold s.
  unfold Go.slice_to, Go.slice_from.
  replace ((0 <=? Go.len s - Scale) && (Go.len s - Scale <=? Go.len s)) with true;
    [reflexivity|].
  symmetry. apply andb_true_iff. split; apply Z.leb_le; lia.
Qed.

(** With fewer characters than [Scale], the slice expression panics. *)
Lemma decimalValue_toString_short_digits (value : list byte) (Precision Scale : Z) :
  Go.len (Go.FormatInt (decimal_FromBytes value Precision Scale)) < Scale ->
  decimalValue_toString value Precision Scale = Panic "slice bounds out of range".
Proof.
  intros Hs. unfold decimalValue_toString, Go.slice_to, Go.slice_from.
  replace (0 <=? _ - Scale) with false; [reflexivity|].
  symmetry. apply Z.leb_gt. lia.
Qed.

(** Minus five as a 16-byte two's-complement big-endian buffer. *)
Definition minus_five : list byte := BigEndianUint128 (2 ^ 64 - 1) (2 ^ 64 - 5).

Section DecimalString.
Context {ext : Externals}.

(** C9, at the zero of Decimal(22,9).  Its digits are the one character "0";
    nine characters from the right is before the start of the string, and
    [toString] panics in the slice expression without giving "0.000000000".  A
    negative number shorter than the scale gets the point before its sign;
    a number longer than the scale gets the point [Scale] digits from the
    right, after a leading minus sign if it is negative. *)
Theorem decimal_zero_toString_panics :
  Go.FormatInt (decimal_FromBytes Go.zero16 22 9) = "0"
  /\ toString (DecimalValue Go.zero16 22 9) = Panic "slice bounds out of range"
  /\ toString (DecimalValue minus_five 22 2) = Ret ".-5"
  /\ toString (DecimalValue (BigEndianUint128 0 1234567890123) 22 9)
     = Ret "1234.567890123"
  /\ toString (DecimalValue
                 (BigEndianUint128 (2 ^ 64 - 1) (2 ^ 64 - 1234567890123)) 22 9)
     = Ret "-1234.567890123".
Proof. repeat split; vm_compute; reflexivity. Qed.

End DecimalString.

(** ** Zero values (C10) *)

Section ZeroFacts.
Context {ext : Externals}.

Lemma ZeroValue_primitive_type (p : PrimitiveType) :
  p <> TypeUnknown ->
  exists v, ZeroValue (Primitive p) = Ret v /\ Value_Type v = Primitive p.
Proof.
  intros Hp. destruct p; try congruence; simpl; eexists; split; reflexivity.
Qed.

Lemma ZeroValue_optional_type (t : Type_) :
  ZeroValue (Optional t) = Ret (NullValue t)
  /\ Value_Type (NullValue t) = Optional t.
Proof. split; reflexivity. Qed.

Lemma ZeroValue_list_dict_type (t k v : Type_) :
  (exists z, ZeroValue (List_ t) = Ret z /\ Value_Type z = List_ t)
  /\ (exists z, ZeroValue (Dict k v) = Ret z /\ Value_Type z = Dict k v).
Proof. split; eexists; split; reflexivity. Qed.

(** C10, where the code leaves it.  [ZeroValue] of a Decimal type builds the
    value with the constants 22 and 9 and not with the precision and scale of
    the type it was given: for Decimal(10,2) the value has the type
    Decimal(22,9).  [ZeroValue] of Void reaches the [default] arm and panics.
    Decimal(22,9) itself keeps its type. *)
Theorem ZeroValue_decimal_and_void :
  ZeroValue (DecimalType 10 2) = Ret (DecimalValue Go.zero16 22 9)
  /\ Value_Type (DecimalValue Go.zero16 22 9) = DecimalType 22 9
  /\ equalsTo (Value_Type (DecimalValue Go.zero16 22 9)) (DecimalType 10 2) = false
  /\ ZeroValue Void = Panic "uncovered type"
  /\ (forall p s, ZeroValue (DecimalType p s) = Ret (DecimalValue Go.zero16 22 9)).
Proof. repeat split. Qed.

End ZeroFacts.

(** ** Decoding what was encoded (C1) *)

(** A scalar value whose payload fits the Go type that holds it.  The values
    of 16 bytes are left out. *)
Definition scalar_in_range (v : Value) : Prop :=
  match v with
  | boolValue _ | doubleValue _ | floatValue _ | dyNumberValue _
  | jsonValue _ | jsonDocumentValue _
  | tzDateValue _ | tzDatetimeValue _ | tzTimestampValue _
  | textValue _ | bytesValue _ | ysonValue _ => True
  | int8Value n => Go.in_int 8 n
  | int16Value n => Go.in_int 16 n
  | int32Value n => Go.in_int 32 n
  | int64Value n | intervalValue n => Go.in_int 64 n
  | uint8Value n => Go.in_uint 8 n
  | uint16Value n => Go.in_uint 16 n
  | uint32Value n | dateValue n | datetimeValue n => Go.in_uint 32 n
  | uint64Value n | timestampValue n => Go.in_uint 64 n
  | _ => False
  end.

Lemma to_int_small (w n : Z) : 0 < w -> Go.in_int w n -> Go.to_int w n = n.
Proof.
  unfold Go.in_int, Go.to_int. intros Hw Hn.
  assert (H2 : 2 ^ w = 2 * 2 ^ (w - 1)).
  { rewrite <- Z.pow_succ_r by lia. f_equal. lia. }
  rewrite Z.mod_small; lia.
Qed.

Lemma to_uint_small (w n : Z) : Go.in_uint w n -> Go.to_uint w n = n.
Proof. unfold Go.in_uint, Go.to_uint. intros Hn. now apply Z.mod_small. Qed.

Lemma in_int_widen (w w' n : Z) : 0 < w <= w' -> Go.in_int w n -> Go.in_int w' n.
Proof.
  unfold Go.in_int. intros Hw Hn.
  assert (2 ^ (w - 1) <= 2 ^ (w' - 1)) by (apply Z.pow_le_mono_r; lia). lia.
Qed.

Lemma in_uint_widen (w w' n : Z) : 0 <= w <= w' -> Go.in_uint w n -> Go.in_uint w' n.
Proof.
  unfold Go.in_uint. intros Hw Hn.
  assert (2 ^ w <= 2 ^ w') by (apply Z.pow_le_mono_r; lia). lia.
Qed.

(** The kind that [TypeFromYDB] reads off the inner type of a variant. *)
Definition kind_of (inner : Type_) : variantKind :=
  match inner with
  | TupleType _ => variantTypeTuple
  | StructType _ => variantTypeStruct
  | _ => variantTypeUnknown
  end.

(** A type descriptor in which every variant has the kind of its inner type. *)
Fixpoint Type_wf (t : Type_) : Prop :=
  match t with
  | optionalType x | listType x => Type_wf x
  | TupleType xs =>
      (fix go (l : list Type_) : Prop :=
         match l with
         | [] => True
         | x :: r => Type_wf x /\ go r
         end) xs
  | StructType fs =>
      (fix go (l : list (string * Type_)) : Prop :=
         match l with
         | [] => True
         | f :: r => Type_wf (snd f) /\ go r
         end) fs
  | dictType k v => Type_wf k /\ Type_wf v
  | variantType x k => Type_wf x /\ k = kind_of x
  | _ => True
  end.

(** On such descriptors the two conversions of types are inverse. *)
Lemma TypeFromYDB_Type_toYDB : forall t : Type_,
  Type_wf t -> TypeFromYDB (Type_toYDB t) = t.
Proof.
  fix IH 1. intros t. destruct t; cbn [Type_wf Type_toYDB TypeFromYDB]; intros Hwf;
    try reflexivity.
  - now rewrite IH.
  - now rewrite IH.
  - f_equal. revert items Hwf. fix IHl 1. intros [|x r]; [reflexivity|].
    intros [Hx Hr]. cbn [map]. rewrite (IH x Hx). f_equal. now apply IHl.
  - f_equal. revert fields Hwf. fix IHl 1. intros [|[n x] r]; [reflexivity|].
    intros [Hx Hr]. cbn [map fst snd]. rewrite (IH x Hx). f_equal. now apply IHl.
  - destruct Hwf as [Hk Hv]. now rewrite !IH.
  - destruct Hwf as [Hx ->]. rewrite (IH t Hx). f_equal.
    destruct t; reflexivity.
Qed.

Section RoundTrip.
Context {ext : Externals}.

(** Decoding the encoding of [v]. *)
Definition round_trip (v : Value) : outcome Value :=
  FromYDB (tv_Type (ToYDB v)) (tv_Value (ToYDB v)).

(** The scalar values of at most 64 bits come back as they were. *)
Lemma round_trip_scalar (v : Value) :
  scalar_in_range v -> round_trip v = Ret v.
Proof.
  destruct v; cbn [scalar_in_range]; try tauto; intros Hr;
    unfold round_trip, FromYDB, ToYDB; cbn -[Go.to_int Go.to_uint];
    try reflexivity.
  all: try (rewrite (to_int_small 32 v);
            [|lia|eapply in_int_widen; [|exact Hr]; lia]).
  all: try (rewrite (to_uint_small 32 v);
            [|eapply in_uint_widen; [|exact Hr]; lia]).
  all: rewrite ?to_int_small, ?to_uint_small by (try lia; exact Hr);
    reflexivity.
Qed.

(** The NULL of every type comes back as it was. *)
Lemma round_trip_NullValue (t : Type_) :
  Type_wf t -> round_trip (NullValue t) = Ret (NullValue t).
Proof.
  intros Hwf. unfold round_trip, FromYDB, ToYDB, NullValue, Optional.
  cbn [tv_Type tv_Value Value_Type Type_toYDB toYDB depth fromYDB].
  unfold fromYDB_body. cbn [TypeFromYDB].
  rewrite (TypeFromYDB_Type_toYDB t Hwf). reflexivity.
Qed.

(** Values that come back as they were. *)
Lemma round_trip_examples :
  round_trip (Int32Value (-1)) = Ret (Int32Value (-1))
  /\ round_trip (OptionalValue (Int32Value (-1))) = Ret (OptionalValue (Int32Value (-1)))
  /\ round_trip (NullValue (Primitive TypeInt32)) = Ret (NullValue (Primitive TypeInt32))
  /\ round_trip (NullValue (Optional (Primitive TypeInt32)))
     = Ret (NullValue (Optional (Primitive TypeInt32)))
  /\ round_trip (OptionalValue (OptionalValue (Int32Value 7)))
     = Ret (OptionalValue (OptionalValue (Int32Value 7)))
  /\ round_trip (TupleValue [Int32Value 1; TextValue "y"])
     = Ret (TupleValue [Int32Value 1; TextValue "y"])
  /\ round_trip (DecimalValue (BigEndianUint128 1 2) 22 9)
     = Ret (DecimalValue (BigEndianUint128 1 2) 22 9).
Proof. repeat split; vm_compute; reflexivity. Qed.

(** An Optional value around a value of 16 bytes loses the upper 8 bytes:
    [optionalValue.toYDB] copies the leaf field of the payload's node and not
    its [High_128]. *)
Lemma round_trip_optional_decimal :
  round_trip (OptionalValue (DecimalValue (BigEndianUint128 1 2) 22 9))
  = Ret (OptionalValue (DecimalValue (BigEndianUint128 0 2) 22 9)).
Proof. vm_compute. reflexivity. Qed.

(** C1, where the code leaves it.  The value of type Optional(Optional(Int32))
    that holds the NULL of Optional(Int32) is encoded as a null flag inside a
    nested node; [nullValueFromYDB] walks through the nested node and answers
    with the NULL of the outer type, so the decoded value is
    [NullValue(Optional(Int32))], which has no payload, and not the value that
    was encoded. *)
Theorem round_trip_flattens_nested_null :
  let v := OptionalValue (NullValue (Primitive TypeInt32)) in
  Value_Type v = Optional (Optional (Primitive TypeInt32))
  /\ tv_Value (ToYDB v) = leaf (Value_NestedValue (leaf Value_NullFlagValue))
  /\ FromYDB (tv_Type (ToYDB v)) (tv_Value (ToYDB v))
     = Ret (NullValue (Optional (Primitive TypeInt32)))
  /\ NullValue (Optional (Primitive TypeInt32)) <> v.
Proof. repeat split. discriminate. Qed.

End RoundTrip.

(** ** The step count of [FromYDB] is enough *)

Section Ydb_Type_induction.
Variable P : Ydb_Type -> Prop.
Hypothesis H_id : forall p, P (Type_TypeId p).
Hypothesis H_optional : forall x, P x -> P (Type_OptionalType x).
Hypothesis H_list : forall x, P x -> P (Type_ListType x).
Hypothesis H_tuple : forall xs, Forall P xs -> P (Type_TupleType xs).
Hypothesis H_struct : forall fs, Forall (fun f => P (snd f)) fs -> P (Type_StructType fs).
Hypothesis H_dict : forall k v, P k -> P v -> P (Type_DictType k v).
Hypothesis H_decimal : forall p s, P (Type_DecimalType p s).
Hypothesis H_variant : forall x, P x -> P (Type_VariantType x).
Hypothesis H_void : P Type_VoidType.
Hypothesis H_null : P Type_NullType.
Hypothesis H_empty_list : P Type_EmptyListType.
Hypothesis H_empty_dict : P Type_EmptyDictType.

Fixpoint Ydb_Type_nested_ind (t : Ydb_Type) : P t :=
  match t with
  | Type_TypeId p => H_id p
  | Type_OptionalType x => H_optional x (Ydb_Type_nested_ind x)
  | Type_ListType x => H_list x (Ydb_Type_nested_ind x)
  | Type_TupleType xs =>
      H_tuple xs
        ((fix go (l : list Ydb_Type) : Forall P l :=
            match l with
            | [] => Forall_nil P
            | x :: r => Forall_cons x (Ydb_Type_nested_ind x) (go r)
            end) xs)
  | Type_StructType fs =>
      H_struct fs
        ((fix go (l : list (string * Ydb_Type)) : Forall (fun f => P (snd f)) l :=
            match l with
            | [] => Forall_nil _
            | f :: r => Forall_cons f (Ydb_Type_nested_ind (snd f)) (go r)
            end) fs)
  | Type_DictType k v => H_dict k v (Ydb_Type_nested_ind k) (Ydb_Type_nested_ind v)
  | Type_DecimalType p s => H_decimal p s
  | Type_VariantType x => H_variant x (Ydb_Type_nested_ind x)
  | Type_VoidType => H_void
  | Type_NullType => H_null
  | Type_EmptyListType => H_empty_list
  | Type_EmptyDictType => H_empty_dict
  end.

End Ydb_Type_induction.

(** Decoding a wire type and encoding it again keeps its depth. *)
Lemma depth_Type_toYDB_TypeFromYDB (t : Ydb_Type) :
  depth (Type_toYDB (TypeFromYDB t)) = depth t.
Proof.
  induction t using Ydb_Type_nested_ind; simpl; auto.
  - f_equal. induction H as [|x xs Hx _ IH]; simpl; [reflexivity|].
    now rewrite Hx, IH.
  - f_equal. induction H as [|f fs Hf _ IH]; simpl; [reflexivity|].
    now rewrite Hf, IH.
Qed.

Lemma depth_tuple_item (xs : list Ydb_Type) (i : nat) (x : Ydb_Type) :
  nth_error xs i = Some x ->
  (depth x <= fold_right (fun x n => Nat.max (depth x) n) 0 xs)%nat.
Proof.
  revert i. induction xs as [|y xs IH]; intros [|i]; simpl; try discriminate.
  - intros [= ->]. lia.
  - intros H. specialize (IH i H). lia.
Qed.

Lemma depth_struct_member (fs : list (string * Ydb_Type)) (i : nat)
      (f : string * Ydb_Type) :
  nth_error fs i = Some f ->
  (depth (snd f) <= fold_right (fun f n => Nat.max (depth (snd f)) n) 0 fs)%nat.
Proof.
  revert i. induction fs as [|g fs IH]; intros [|i]; simpl; try discriminate.
  - intros [= ->]. lia.
  - intros H. specialize (IH i H). lia.
Qed.

Lemma bind_fuel {A B : Type} (x : outcome A) (f : A -> outcome B) :
  x <> NoFuel -> (forall a, f a <> NoFuel) -> bind x f <> NoFuel.
Proof. destruct x; simpl; auto; congruence. Qed.

Lemma must_fuel (r : outcome Value) : r <> NoFuel -> must r <> NoFuel.
Proof. destruct r; simpl; congruence. Qed.

Lemma mapM_fuel {A B : Type} (f : A -> outcome B) (l : list A) :
  (forall a, f a <> NoFuel) -> mapM f l <> NoFuel.
Proof.
  intros Hf. induction l as [|x l IH]; simpl; [discriminate|].
  specialize (Hf x). destruct (f x); try congruence.
  destruct (mapM f l); congruence.
Qed.

Lemma mapM_fuel_Forall {A B : Type} (f : A -> outcome B) (l : list A) :
  Forall (fun a => f a <> NoFuel) l -> mapM f l <> NoFuel.
Proof.
  induction 1 as [|x l Hx _ IH]; simpl; [discriminate|].
  destruct (f x); try congruence. destruct (mapM f l); congruence.
Qed.

(** The values directly inside a value. *)
Definition children (v : Value) : list Value :=
  match v with
  | dictValue _ values => flat_map (fun kv => [fst kv; snd kv]) values
  | listValue _ items => items
  | optionalValue _ (Some inner) => [inner]
  | structValue _ fields => map snd fields
  | tupleValue _ items => items
  | variantValue _ value _ => [value]
  | _ => []
  end.

(** Induction on a value, with the property known of the values inside it. *)
Lemma Value_children_ind (P : Value -> Prop) :
  (forall v, Forall P (children v) -> P v) -> forall v, P v.
Proof.
  intros H. fix IH 1. intros v. apply H.
  destruct v; simpl; try constructor.
  - revert values. fix IHl 1. intros [|[k p] r]; simpl; [constructor|].
    constructor; [apply IH|]. constructor; [apply IH|]. apply IHl.
  - revert items. fix IHl 1. intros [|x r]; [constructor|].
    constructor; [apply IH|apply IHl].
  - destruct value as [inner|]; constructor; [apply IH|constructor].
  - revert fields. fix IHl 1. intros [|[n x] r]; simpl; [constructor|].
    constructor; [apply IH|apply IHl].
  - revert items. fix IHl 1. intros [|x r]; [constructor|].
    constructor; [apply IH|apply IHl].
  - apply IH.
  - constructor.
Qed.

Lemma mapM_i_fuel {A B : Type} (f : nat -> A -> outcome B) (l : list A) (i : nat) :
  (forall i a, f i a <> NoFuel) -> mapM_i f i l <> NoFuel.
Proof.
  intros Hf. revert i. induction l as [|x l IH]; intros i; simpl; [discriminate|].
  pose proof (Hf i x). destruct (f i x); try congruence.
  specialize (IH (S i)). destruct (mapM_i f (S i) l); congruence.
Qed.

Lemma bind_stable {A B : Type} (x x' : outcome A) (f f' : A -> outcome B) :
  (x <> NoFuel -> x' = x) ->
  (forall a, f a <> NoFuel -> f' a = f a) ->
  bind x f <> NoFuel -> bind x' f' = bind x f.
Proof.
  intros Hx Hf H. destruct x; simpl in *; try congruence;
    rewrite Hx by discriminate; simpl; auto.
Qed.

Lemma must_stable (r r' : outcome Value) :
  (r <> NoFuel -> r' = r) -> must r <> NoFuel -> must r' = must r.
Proof.
  intros Hr H. destruct r; simpl in *; try congruence;
    rewrite Hr by discriminate; reflexivity.
Qed.

Lemma mapM_stable {A B : Type} (f f' : A -> outcome B) (l : list A) :
  (forall a, f a <> NoFuel -> f' a = f a) ->
  mapM f l <> NoFuel -> mapM f' l = mapM f l.
Proof.
  intros Hf. induction l as [|x l IH]; simpl; [reflexivity|].
  intros H. specialize (Hf x).
  destruct (f x) eqn:Hfx; try congruence; rewrite Hf by discriminate;
    try reflexivity.
  destruct (mapM f l); try congruence; rewrite IH by discriminate; reflexivity.
Qed.

Lemma mapM_i_stable {A B : Type} (f f' : nat -> A -> outcome B)
      (l : list A) (i : nat) :
  (forall i a, f i a <> NoFuel -> f' i a = f i a) ->
  mapM_i f i l <> NoFuel -> mapM_i f' i l = mapM_i f i l.
Proof.
  intros Hf. revert i. induction l as [|x l IH]; intros i; simpl; [reflexivity|].
  intros H. specialize (Hf i x).
  destruct (f i x) eqn:Hfx; try congruence; rewrite Hf by discriminate;
    try reflexivity.
  specialize (IH (S i)).
  destruct (mapM_i f (S i) l); try congruence; rewrite IH by discriminate;
    reflexivity.
Qed.

Section Fuel.
Context {ext : Externals}.

Lemma toString_fuel : forall v : Value, toString v <> NoFuel.
Proof.
  induction v as [v IH] using Value_children_ind.
  destruct v; simpl in *; try discriminate.
  - unfold decimalValue_toString. cbv zeta.
    repeat match goal with
           | |- context [match ?x with Some _ => _ | None => _ end] => destruct x
           end; discriminate.
  - apply bind_fuel; [|discriminate].
    apply mapM_fuel_Forall.
    induction values as [|[k p] r IHr]; simpl in *; [constructor|].
    inversion IH as [|? ? Hk IH']; subst. inversion IH' as [|? ? Hp IH'']; subst.
    constructor; [|now apply IHr].
    simpl. apply bind_fuel; [exact Hk|]. intros s.
    apply bind_fuel; [exact Hp|discriminate].
  - apply bind_fuel; [|discriminate]. now apply mapM_fuel_Forall.
  - destruct value; [now inversion IH|discriminate].
  - apply bind_fuel; [|discriminate].
    apply mapM_fuel_Forall.
    induction fields as [|[n x] r IHr]; simpl in *; [constructor|].
    inversion IH as [|? ? Hx IH']; subst.
    constructor; [|now apply IHr].
    simpl. apply bind_fuel; [exact Hx|discriminate].
  - apply bind_fuel; [|discriminate].
    apply mapM_fuel_Forall.
    eapply Forall_impl; [|exact IH]. intros x Hx.
    apply bind_fuel; [exact Hx|discriminate].
  - apply bind_fuel; [now inversion IH|discriminate].
Qed.

Lemma DictValue_fuel (values : list DictValueField) : DictValue values <> NoFuel.
Proof.
  unfold DictValue. apply bind_fuel.
  - destruct values as [|? [|? ?]]; try discriminate.
    apply mapM_fuel. intros f. apply toString_fuel.
  - intros _. destruct (sort_Slice less_K values); discriminate.
Qed.

Lemma ListValue_fuel (items : list Value) : ListValue items <> NoFuel.
Proof. unfold ListValue. destruct (forallb _ items); discriminate. Qed.

Lemma primitiveValueFromYDB_fuel (p : PrimitiveType) (v : Ydb_Value) :
  primitiveValueFromYDB p v <> NoFuel.
Proof.
  destruct p; simpl; try discriminate. destruct (Value_of v); discriminate.
Qed.

(** With more steps than the depth of the type, [fromYDB] does not run out
    of them. *)
Lemma fromYDB_enough_fuel :
  forall (fuel : nat) (t : Ydb_Type) (v : Ydb_Value),
    (depth t < fuel)%nat -> fromYDB fuel t v <> NoFuel.
Proof.
  induction fuel as [|fuel IH]; intros t v Hd; [lia|].
  cbn [fromYDB]. unfold fromYDB_body. cbv zeta.
  destruct (nullValueFromYDB v (TypeFromYDB t)); [discriminate|].
  destruct t; cbn [TypeFromYDB depth] in *; try discriminate.
  - apply primitiveValueFromYDB_fuel.
  - destruct (Value_of v); (apply bind_fuel; [|discriminate]);
      apply must_fuel, IH; lia.
  - apply bind_fuel; [|intros; apply ListValue_fuel].
    apply mapM_fuel. intros vvv. apply must_fuel, IH.
    rewrite depth_Type_toYDB_TypeFromYDB. lia.
  - apply bind_fuel; [|discriminate].
    apply mapM_i_fuel. intros i vvv. unfold index.
    destruct (nth_error (map TypeFromYDB Elements) i) as [ti|] eqn:Hi;
      simpl; [|discriminate].
    apply must_fuel, IH.
    rewrite nth_error_map in Hi.
    destruct (nth_error Elements i) as [x|] eqn:Hx; [|discriminate].
    injection Hi as <-. rewrite depth_Type_toYDB_TypeFromYDB.
    pose proof (depth_tuple_item _ _ _ Hx). lia.
  - apply bind_fuel; [|discriminate].
    apply mapM_i_fuel. intros i vvv. unfold index.
    destruct (nth_error (map _ Members) i) as [fi|] eqn:Hi; simpl; [|discriminate].
    apply bind_fuel; [|discriminate].
    apply must_fuel, IH.
    rewrite nth_error_map in Hi.
    destruct (nth_error Members i) as [x|] eqn:Hx; [|discriminate].
    injection Hi as <-. simpl. rewrite depth_Type_toYDB_TypeFromYDB.
    pose proof (depth_struct_member _ _ _ Hx). lia.
  - apply bind_fuel; [|intros; apply DictValue_fuel].
    apply mapM_fuel. intros vvv.
    apply bind_fuel; [apply must_fuel, IH;
                      rewrite depth_Type_toYDB_TypeFromYDB; lia|].
    intros k. apply bind_fuel; [|discriminate].
    apply must_fuel, IH. rewrite depth_Type_toYDB_TypeFromYDB. lia.
  - assert (Hrec : forall nested,
               must (fromYDB fuel (Type_toYDB (TypeFromYDB t)) nested) <> NoFuel).
    { intros nested. apply must_fuel, IH.
      rewrite depth_Type_toYDB_TypeFromYDB. lia. }
    destruct t; cbn [TypeFromYDB]; try discriminate.
    + apply bind_fuel; [unfold assert_NestedValue; destruct (Value_of v); discriminate|].
      intros nested. apply bind_fuel; [apply Hrec|].
      intros x. unfold VariantValueTuple. destruct x; discriminate.
    + apply bind_fuel; [unfold assert_NestedValue; destruct (Value_of v); discriminate|].
      intros nested. apply bind_fuel; [apply Hrec|].
      intros x. unfold VariantValueStruct. destruct x; discriminate.
Qed.

(** The body of [fromYDB] gives the same with any two functions for the
    recursive calls that agree where the first does not run out of steps. *)
Lemma fromYDB_body_stable (F F' : Ydb_Type -> Ydb_Value -> outcome Value)
      (t : Ydb_Type) (v : Ydb_Value) :
  (forall t v, F t v <> NoFuel -> F' t v = F t v) ->
  fromYDB_body F t v <> NoFuel -> fromYDB_body F' t v = fromYDB_body F t v.
Proof.
  intros HF. unfold fromYDB_body. cbv zeta.
  destruct (nullValueFromYDB v (TypeFromYDB t)); [reflexivity|].
  destruct (TypeFromYDB t) as [| | | | | | | | |innerType kind| |];
    try (intros _; reflexivity).
  - destruct t; try (intros _; reflexivity).
    destruct (Value_of v); apply bind_stable; auto.
  - apply bind_stable; [|auto]. intros Hx. apply mapM_stable; auto.
  - apply bind_stable; [|auto]. intros Hx. apply mapM_i_stable; [|exact Hx].
    intros i a. apply bind_stable; auto.
  - apply bind_stable; [|auto]. intros Hx. apply mapM_i_stable; [|exact Hx].
    intros i a. apply bind_stable; [auto|].
    intros fi. apply bind_stable; auto.
  - apply bind_stable; [|auto]. intros Hx. apply mapM_stable; [|exact Hx].
    intros a. apply bind_stable; [auto|].
    intros k. apply bind_stable; auto.
  - destruct kind; try (intros _; reflexivity);
      destruct innerType; try (intros _; reflexivity);
      (apply bind_stable; [auto|]); intros nested;
      apply bind_stable; auto.
Qed.

(** One more step does not change a result. *)
Lemma fromYDB_more_fuel :
  forall (fuel : nat) (t : Ydb_Type) (v : Ydb_Value),
    fromYDB fuel t v <> NoFuel -> fromYDB (S fuel) t v = fromYDB fuel t v.
Proof.
  induction fuel as [|fuel IH]; intros t v H; [now contradiction H|].
  change (fromYDB_body (fun t v => must (fromYDB (S fuel) t v)) t v
          = fromYDB_body (fun t v => must (fromYDB fuel t v)) t v).
  apply fromYDB_body_stable; [|exact H].
  intros t' v'. apply must_stable. apply IH.
Qed.

(** Every step count above the depth of the type gives the result of
    [FromYDB]'s count. *)
Lemma fromYDB_fuel_irrelevant (fuel : nat) (t : Ydb_Type) (v : Ydb_Value) :
  (depth t < fuel)%nat -> fromYDB fuel t v = fromYDB (S (depth t)) t v.
Proof.
  induction fuel as [|fuel IH]; intros Hd; [lia|].
  destruct (Nat.eq_dec fuel (depth t)) as [->|Hne]; [reflexivity|].
  rewrite <- IH by lia.
  apply fromYDB_more_fuel, fromYDB_enough_fuel. lia.
Qed.

(** [FromYDB] is defined on every input: it returns a value or panics. *)
Lemma FromYDB_total (t : Ydb_Type) (v : Ydb_Value) :
  (exists x, FromYDB t v = Ret x) \/ (exists msg, FromYDB t v = Panic msg).
Proof.
  unfold FromYDB.
  pose proof (fromYDB_enough_fuel (S (depth t)) t v (Nat.lt_succ_diag_r _)) as H.
  destruct (fromYDB (S (depth t)) t v); simpl; eauto. congruence.
Qed.

End Fuel.

(** ** The discovery client (C3) *)

Module DiscoveryFacts.
Import Discovery.

(** What [Discover] makes of one endpoint of the response. *)
Definition returned (selfLocation : string) (e : EndpointInfo) : Endpoint :=
  {| Addr := Address e;
     Port := Go.to_int 64 (ei_Port e);
     LoadFactor := S754_zero false;
     Local := String.eqb (Location e) selfLocation |}.

Definition ssl_matches (d : discoveryClient) (e : EndpointInfo) : bool :=
  Bool.eqb (Ssl e) (ssl d).

Lemma collect_filter_map (d : discoveryClient) (self : string)
      (es : list EndpointInfo) (acc : list Endpoint) :
  collect d self es acc
  = (acc ++ map (returned self) (filter (ssl_matches d) es))%list.
Proof.
  revert acc. induction es as [|e es IH]; intros acc; simpl.
  - now rewrite app_nil_r.
  - unfold ssl_matches at 1. destruct (Bool.eqb (Ssl e) (ssl d)); simpl.
    + rewrite IH, <- app_assoc. reflexivity.
    + apply IH.
Qed.

(** [Discover] returns, in the order of the response, the endpoints whose ssl
    flag is the client's, each with the reported address and port and with
    [Local] set when its location is the response's own location; the load
    factor of each is zero. *)
Lemma Discover_returns (d : discoveryClient) (res : ListEndpointsResult) :
  Discover d (Unmarshal_ok res)
  = Ret (map (returned (SelfLocation res)) (filter (ssl_matches d) (Endpoints res))).
Proof. unfold Discover. now rewrite collect_filter_map. Qed.

Lemma returned_agrees_but_for_load (self : string) (e : EndpointInfo) :
  0 <= ei_Port e < 2 ^ 32 ->
  Addr (returned self e) = Addr (reported self e)
  /\ Port (returned self e) = Port (reported self e)
  /\ Local (returned self e) = Local (reported self e)
  /\ LoadFactor (returned self e) = S754_zero false.
Proof.
  intros Hp. repeat split. simpl. unfold Go.to_int.
  rewrite Z.mod_small; lia.
Qed.

(** A response with one endpoint, of load factor 0.5. *)
Definition one_endpoint : ListEndpointsResult :=
  {| Endpoints := [ {| Address := "node-1"; ei_Port := 2135;
                       ei_LoadFactor := Go.float32_const 1 2;
                       Ssl := false; Location := "dc-1" |} ];
     SelfLocation := "dc-1" |}.

(** C3, where the code leaves it.  For a response with one endpoint of load
    factor 0.5, [Discover] returns the endpoint with its address, its port and
    [Local], and with the load factor 0: the literal that [Discover] builds does
    not set [LoadFactor]. *)
Theorem Discover_drops_load_factor :
  Discover {| database := "/local"; ssl := false |} (Unmarshal_ok one_endpoint)
  = Ret [ {| Addr := "node-1"; Port := 2135;
             LoadFactor := S754_zero false; Local := true |} ]
  /\ map (reported (SelfLocation one_endpoint)) (Endpoints one_endpoint)
     = [ {| Addr := "node-1"; Port := 2135;
            LoadFactor := S754_finite false 8388608 (-24); Local := true |} ]
  /\ (forall d res,
         Discover d (Unmarshal_ok res)
         = Ret (map (returned (SelfLocation res))
                  (filter (ssl_matches d) (Endpoints res))))
  /\ (forall self e, LoadFactor (returned self e) = S754_zero false).
Proof.
  split; [reflexivity|]. split; [reflexivity|].
  split; [apply Discover_returns|reflexivity].
Qed.

End DiscoveryFacts.

(** ** The balancer's distribution table (C4, C7) *)

Module BalancerFacts.
Import Balancer.

(** The distribution that the inverse-load shares give over 1000 selections
    for the load factors 0.2, 1, 1, in whole selections. *)
Definition inverse_load_1000 : mdist := [("foo", 714); ("bar", 143); ("baz", 143)].

Definition table_600_200_200 : mdist := [("foo", 600); ("bar", 200); ("baz", 200)].

(** C4 fails as it is written: for the load factors [0.2, 1.0, 1.0] no value
    of eps makes the inverse-load share of the first element give 600
    selections of 1000. *)
Lemma inverse_load_share_is_not_600 :
  ~ (exists eps : Q,
        Qeq (expected_count eps (loads_of (row 1)) 1000 0) (inject_Z 600)).
Proof.
  intros [eps H]. vm_compute in H. discriminate.
Qed.

(** C4, as the table has it.  The row of the load factors [0.2, 1.0, 1.0]
    expects 600, 200 and 200 of 1000 selections, which is accepted by the
    exact check of the round-robin test and by the check within a tenth of
    the random-choice test.  The inverse-load shares (1/L_i) / sum_j (1/L_j)
    are not that distribution: they give between 714 and 715 selections to the
    first element and between 142 and 143 to each of the others, above the
    660 and below the 180 that the random-choice check allows, and both checks
    refuse them. *)
Theorem table_expects_600_200_200 :
  add (row 1) = [ep "foo" 2 10; ep "bar" 1 1; ep "baz" 1 1]
  /\ repeat (row 1) = 1000
  /\ exp (row 1) = table_600_200_200
  /\ rr_accepts (row 1) table_600_200_200 = true
  /\ rc_accepts (row 1) table_600_200_200 = true
  /\ (forall eps : Q,
        (inject_Z 714 < expected_count eps (loads_of (row 1)) 1000 0)%Q
        /\ (expected_count eps (loads_of (row 1)) 1000 0 < inject_Z 715)%Q
        /\ (inject_Z 142 < expected_count eps (loads_of (row 1)) 1000 1)%Q
        /\ (expected_count eps (loads_of (row 1)) 1000 1 < inject_Z 143)%Q
        /\ (inject_Z 142 < expected_count eps (loads_of (row 1)) 1000 2)%Q
        /\ (expected_count eps (loads_of (row 1)) 1000 2 < inject_Z 143)%Q)
  /\ upper 600 = 660
  /\ lower 200 = 180
  /\ rr_accepts (row 1) inverse_load_1000 = false
  /\ rc_accepts (row 1) inverse_load_1000 = false.
Proof.
  repeat split; try (vm_compute; reflexivity).
Qed.

(** Every element Banned. *)
Definition ban (e : element) : element :=
  {| conn := conn e; load_factor := load_factor e; state := Banned |}.

Lemma candidates_nonempty (e : element) (els : list element) :
  candidates (e :: els) <> [].
Proof.
  unfold candidates.
  destruct (filter is_online (e :: els)) eqn:Hon; [|discriminate].
  simpl in *. unfold is_banned.
  destruct (is_online e); simpl; [discriminate Hon|discriminate].
Qed.

Lemma candidates_incl (els : list element) (x : element) :
  In x (candidates els) -> In x els.
Proof.
  unfold candidates.
  destruct (filter is_online els) eqn:Hon.
  - intros H. now apply filter_In in H.
  - rewrite <- Hon. intros H. now apply filter_In in H.
Qed.

Lemma candidates_all_banned (els : list element) :
  candidates (map ban els) = map ban els.
Proof.
  unfold candidates.
  assert (Hon : filter is_online (map ban els) = []).
  { induction els as [|e els IH]; simpl; [reflexivity|exact IH]. }
  rewrite Hon.
  induction els as [|e els IH]; simpl; [reflexivity|].
  f_equal. apply IH. simpl in Hon. exact Hon.
Qed.

Lemma Next_some (draw : list element -> nat) (e : element) (els : list element) :
  exists x, In x (e :: els) /\ Next draw (e :: els) = Some (conn x).
Proof.
  unfold Next.
  pose proof (candidates_nonempty e els) as Hne.
  pose proof (candidates_incl (e :: els)) as Hin.
  destruct (candidates (e :: els)) as [|c cs] eqn:Hc; [congruence|].
  set (i := (draw (c :: cs) mod List.length (c :: cs))%nat).
  assert (Hi : (i < List.length (c :: cs))%nat)
    by (apply Nat.mod_upper_bound; discriminate).
  destruct (nth_error (c :: cs) i) as [x|] eqn:Hx.
  - exists x. split; [|reflexivity]. apply Hin. eapply nth_error_In; exact Hx.
  - apply nth_error_None in Hx. lia.
Qed.

(** C7 fails as it is written: with every element Banned the table expects a
    uniform distribution only when the load factors are equal: for the load factors 10, 20, 30 it expects
    75, 50 and 25 of 150 selections, and both test checks refuse the uniform
    50, 50, 50. *)
Lemma all_banned_is_not_uniform :
  add (row 11) = [ep "foo" 10 1; ep "bar" 20 1; ep "baz" 30 1]
  /\ banned (row 11) = ["foo"; "bar"; "baz"]
  /\ exp (row 11) = [("foo", 75); ("bar", 50); ("baz", 25)]
  /\ uniform (repeat (row 11)) (banned (row 11))
     = [("foo", 50); ("bar", 50); ("baz", 50)]
  /\ rr_accepts (row 11) (uniform (repeat (row 11)) (banned (row 11))) = false
  /\ rc_accepts (row 11) (uniform (repeat (row 11)) (banned (row 11))) = false.
Proof. repeat split; vm_compute; reflexivity. Qed.

(** C7, as the table has it.  [Next] returns nil exactly when there is no
    element; with every element Banned the candidates are all the elements and
    one of them is returned.  The choice among Banned elements follows their
    load factors: the table expects 50, 50, 50 of 150 selections for three
    Banned elements of load factor 0, and 75, 50, 25 for load factors 10, 20,
    30; a [nil] from [Next] is fatal in the tests whenever more endpoints were
    added than deleted. *)
Theorem Next_nil_only_when_empty :
  (forall (draw : list element -> nat) (els : list element),
      Next draw els = None <-> els = [])
  /\ (forall els : list element, candidates (map ban els) = map ban els)
  /\ (forall (draw : list element -> nat) (e : element) (els : list element),
         exists x, In x (e :: els)
                   /\ Next draw (map ban (e :: els)) = Some (conn x))
  /\ exp (row 10) = uniform (repeat (row 10)) (banned (row 10))
  /\ rr_accepts (row 10) (uniform 150 ["foo"; "bar"; "baz"]) = true
  /\ exp (row 11) = [("foo", 75); ("bar", 50); ("baz", 25)]
  /\ rr_accepts (row 11) [("foo", 75); ("bar", 50); ("baz", 25)] = true
  /\ rc_accepts (row 11) [("foo", 75); ("bar", 50); ("baz", 25)] = true
  /\ (forall (t : test) (results : list (option string)) (m : mdist),
         observe t (None :: results) m
         = if (Z.of_nat (List.length (del t)) <? Z.of_nat (List.length (add t)))
           then None else observe t results m).
Proof.
  split.
  { intros draw els. split.
    - destruct els as [|e els]; [reflexivity|].
      destruct (Next_some draw e els) as [x [_ Hx]]. rewrite Hx. discriminate.
    - intros ->. unfold Next. cbn [candidates filter].
      now rewrite (proj2 (nth_error_None (@nil element) _)) by (simpl; lia). }
  split; [apply candidates_all_banned|].
  split.
  { intros draw e els.
    destruct (Next_some draw (ban e) (map ban els)) as [x [Hin Hx]].
    change (ban e :: map ban els) with (map ban (e :: els)) in *.
    apply in_map_iff in Hin. destruct Hin as [y [<- Hy]].
    exists y. split; [exact Hy|exact Hx]. }
  repeat split; vm_compute; reflexivity.
Qed.

End BalancerFacts.

(* ================================================================= *)
(** * Further properties of the value model *)

(** ** Casts *)

(** The destinations are of the same pointer type. *)
Definition same_kind (a b : dst) : bool :=
  match a, b with
  | ptr_bool _, ptr_bool _ | ptr_string _, ptr_string _
  | ptr_bytes _, ptr_bytes _
  | ptr_int8 _, ptr_int8 _ | ptr_int16 _, ptr_int16 _
  | ptr_int32 _, ptr_int32 _ | ptr_int64 _, ptr_int64 _
  | ptr_uint8 _, ptr_uint8 _ | ptr_uint16 _, ptr_uint16 _
  | ptr_uint32 _, ptr_uint32 _ | ptr_uint64 _, ptr_uint64 _
  | ptr_float32 _, ptr_float32 _ | ptr_float64 _, ptr_float64 _
  | ptr_Time _, ptr_Time _ | ptr_Duration _, ptr_Duration _
  | ptr_array16 _, ptr_array16 _ => true
  | ptr_other s, ptr_other s' => String.eqb s s'
  | _, _ => false
  end.

(** What stands around a value that [castTo] looks through: an Optional
    value with a payload, a tuple of one item, a variant. *)
Inductive wrapper : Type :=
| in_optional (t : Type_)
| in_tuple (t : Type_)
| in_variant (t : Type_) (idx : Z).

Definition wrap_one (w : wrapper) (v : Value) : Value :=
  match w with
  | in_optional t => optionalValue t (Some v)
  | in_tuple t => tupleValue t [v]
  | in_variant t idx => variantValue t v idx
  end.

Definition wrap (ws : list wrapper) (v : Value) : Value := fold_right wrap_one v ws.

(** The number that an integer or temporal value holds. *)
Definition int_payload (v : Value) : option Z :=
  match v with
  | int8Value n | int16Value n | int32Value n | int64Value n
  | uint8Value n | uint16Value n | uint32Value n | uint64Value n
  | dateValue n | datetimeValue n | timestampValue n | intervalValue n => Some n
  | _ => None
  end.

(** The number in an integer destination. *)
Definition dst_int (d : dst) : option Z :=
  match d with
  | ptr_int8 x | ptr_int16 x | ptr_int32 x | ptr_int64 x
  | ptr_uint8 x | ptr_uint16 x | ptr_uint32 x | ptr_uint64 x => Some x
  | _ => None
  end.

Definition is_date (v : Value) : bool :=
  match v with dateValue _ => true | _ => false end.

Definition is_ptr_int32 (d : dst) : bool :=
  match d with ptr_int32 _ => true | _ => false end.

Section MoreCastFacts.
Context {ext : Externals}.

(** [castTo] never changes the type of the destination, and a cast that
    returns an error has not written to it: this holds for every value,
    also through Optional values, tuples of one item and variants. *)
Theorem castTo_writes_only_on_success :
  forall (v : Value) (d : dst),
    same_kind (fst (castTo v d)) d = true
    /\ (succeeds (castTo v d) = true \/ fst (castTo v d) = d).
Proof.
  assert (Hrefl : forall d, same_kind d d = true).
  { intros d. destruct d; simpl; try reflexivity. apply String.eqb_refl. }
  fix IH 1. intros v d.
  destruct v; simpl;
    try (destruct d; simpl; split;
         solve [reflexivity | apply String.eqb_refl | now left | now right]).
  - destruct value as [inner|]; simpl; [apply IH|].
    split; [apply Hrefl|now right].
  - destruct items as [|item [|? ?]]; simpl;
      try (split; [apply Hrefl|now right]).
    apply IH.
  - apply IH.
Qed.

(** A cast looks through any stack of Optional values with a payload,
    tuples of one item and variants: it is the cast of the value inside. *)
Theorem castTo_looks_through_wrappers :
  forall (ws : list wrapper) (v : Value) (d : dst),
    castTo (wrap ws v) d = castTo v d.
Proof.
  induction ws as [|w ws IH]; intros v d; [reflexivity|].
  destruct w; simpl; apply IH.
Qed.

(** The integer destinations receive the number that the value holds: for
    a payload that fits its Go type no accepted integer destination changes
    it, but for a Date of 2^31 days or more cast to [*int32], which receives
    the number less 2^32. *)
Theorem integer_castTo_keeps_the_number :
  forall (v : Value) (d : dst) (n m : Z),
    scalar_in_range v ->
    int_payload v = Some n ->
    succeeds (castTo v d) = true ->
    dst_int (fst (castTo v d)) = Some m ->
    m = n
    \/ (is_date v = true /\ is_ptr_int32 d = true
        /\ 2 ^ 31 <= n /\ m = n - 2 ^ 32).
Proof.
  intros v d n m Hr Hn Hs Hm.
  destruct v; cbn [int_payload] in Hn; try discriminate; injection Hn as ->;
    cbn [scalar_in_range] in Hr;
    destruct d; cbn -[Go.to_int Go.to_uint] in Hs, Hm; try discriminate;
    injection Hm as <-;
    unfold Go.in_int, Go.in_uint in Hr;
    try (left; apply to_int_small; [lia|unfold Go.in_int; cbn; lia]);
    try (left; apply to_uint_small; unfold Go.in_uint; cbn; lia).
  (* Date to *int32 *)
  destruct (Z.ltb_spec n (2 ^ 31)) as [Hlt|Hge].
  - left. apply to_int_small; [lia|]. unfold Go.in_int. cbn in *. lia.
  - right. repeat split; try reflexivity; [exact Hge|].
    unfold Go.to_int. cbn in *.
    replace (n + 2147483648) with ((n - 2147483648) + 1 * 4294967296) by lia.
    rewrite Z.mod_add by lia. rewrite Z.mod_small by lia. lia.
Qed.

(** The string of a Uint64 from [castTo] is that of the number read as an
    [int64]: from 2^63 on it is the negative number 2^64 less, while
    [toString] renders the number itself. *)
Theorem uint64_castTo_string_is_signed :
  forall (n : Z) (s : string),
    2 ^ 63 <= n < 2 ^ 64 ->
    castTo (Uint64Value n) (ptr_string s)
    = (ptr_string (Go.FormatInt (n - 2 ^ 64)), None)
    /\ toString (Uint64Value n) = Ret (Go.FormatInt n).
Proof.
  intros n s Hn. split; [|reflexivity].
  cbn -[Go.to_int]. unfold stored. do 3 f_equal.
  unfold Go.to_int. cbn in *.
  replace (n + 9223372036854775808)
    with ((n - 9223372036854775808) + 1 * 18446744073709551616) by lia.
  rewrite Z.mod_add by lia. rewrite Z.mod_small by lia. lia.
Qed.

End MoreCastFacts.

Lemma integer_castTo_keeps_the_number_witness :
  @castTo sample_externals (DateValue (2 ^ 31)) (ptr_int32 0)
  = (ptr_int32 (- 2 ^ 31), None)
  /\ (- 2 ^ 31 = 2 ^ 31
      \/ (is_date (DateValue (2 ^ 31)) = true /\ is_ptr_int32 (ptr_int32 0) = true
          /\ 2 ^ 31 <= 2 ^ 31 /\ - 2 ^ 31 = 2 ^ 31 - 2 ^ 32)).
Proof.
  split; [reflexivity|].
  apply (@integer_castTo_keeps_the_number sample_externals
           (DateValue (2 ^ 31)) (ptr_int32 0) (2 ^ 31) (- 2 ^ 31)).
  - vm_compute. split; [discriminate|reflexivity].
  - reflexivity.
  - reflexivity.
  - reflexivity.
Defined.

Lemma uint64_castTo_string_is_signed_witness :
  @castTo sample_externals (Uint64Value (2 ^ 64 - 1)) (ptr_string "")
  = (ptr_string "-1", None)
  /\ @toString sample_externals (Uint64Value (2 ^ 64 - 1))
     = Ret "18446744073709551615".
Proof.
  apply (@uint64_castTo_string_is_signed sample_externals (2 ^ 64 - 1) "").
  vm_compute. split; [discriminate|reflexivity].
Defined.

(** ** Decoding *)

(** Encoding the descriptor of a wire type gives the wire type back. *)
Lemma Type_toYDB_TypeFromYDB (y : Ydb_Type) : Type_toYDB (TypeFromYDB y) = y.
Proof.
  induction y using Ydb_Type_nested_ind; cbn [TypeFromYDB Type_toYDB];
    try congruence.
  - f_equal. induction H as [|x xs Hx _ IH]; cbn [map]; [reflexivity|].
    now rewrite Hx, IH.
  - f_equal. induction H as [|[n x] fs Hf _ IH]; cbn [map fst snd] in *;
      [reflexivity|]. now rewrite Hf, IH.
Qed.

Lemma mapM_ext {A B : Type} (f g : A -> outcome B) (l : list A) :
  (forall a, f a = g a) -> mapM f l = mapM g l.
Proof.
  intros H. induction l as [|x l IH]; simpl; [reflexivity|].
  now rewrite H, IH.
Qed.

Lemma mapM_i_ext {A B : Type} (f g : nat -> A -> outcome B) (l : list A) (i : nat) :
  (forall i a, f i a = g i a) -> mapM_i f i l = mapM_i g i l.
Proof.
  intros H. revert i. induction l as [|x l IH]; intros i; simpl; [reflexivity|].
  now rewrite H, IH.
Qed.

Section DecodingFacts.
Context {ext : Externals}.

(** The body of [fromYDB] only calls [FromYDB] on types of smaller depth. *)
Lemma fromYDB_body_calls_smaller (F G : Ydb_Type -> Ydb_Value -> outcome Value)
      (t : Ydb_Type) (v : Ydb_Value) :
  (forall t' v', (depth t' < depth t)%nat -> F t' v' = G t' v') ->
  fromYDB_body F t v = fromYDB_body G t v.
Proof.
  intros H. unfold fromYDB_body. cbv zeta.
  destruct (nullValueFromYDB v (TypeFromYDB t)); [reflexivity|].
  destruct t; cbn [TypeFromYDB depth] in *; try reflexivity.
  - destruct (Value_of v); rewrite H by lia; reflexivity.
  - f_equal. apply mapM_ext. intros a. apply H.
    rewrite Type_toYDB_TypeFromYDB. lia.
  - f_equal. apply mapM_i_ext. intros i a. unfold index.
    rewrite nth_error_map.
    destruct (nth_error Elements i) as [x|] eqn:Hx; simpl; [|reflexivity].
    apply H. rewrite Type_toYDB_TypeFromYDB.
    pose proof (depth_tuple_item _ _ _ Hx). lia.
  - f_equal. apply mapM_i_ext. intros i a. unfold index.
    rewrite nth_error_map.
    destruct (nth_error Members i) as [x|] eqn:Hx; simpl; [|reflexivity].
    rewrite H; [reflexivity|]. rewrite Type_toYDB_TypeFromYDB.
    pose proof (depth_struct_member _ _ _ Hx). lia.
  - f_equal. apply mapM_ext. intros a.
    rewrite !Type_toYDB_TypeFromYDB. rewrite H by lia.
    destruct (G t1 (fst a)); simpl; try reflexivity.
    rewrite H by lia. reflexivity.
  - destruct t; cbn [TypeFromYDB]; try reflexivity.
    + pose proof (Type_toYDB_TypeFromYDB (Type_TupleType Elements)) as E.
      cbn [TypeFromYDB] in E. rewrite E.
      destruct (assert_NestedValue v); simpl; try reflexivity.
      rewrite H; [reflexivity|lia].
    + pose proof (Type_toYDB_TypeFromYDB (Type_StructType Members)) as E.
      cbn [TypeFromYDB] in E. rewrite E.
      destruct (assert_NestedValue v); simpl; try reflexivity.
      rewrite H; [reflexivity|lia].
Qed.

(** [FromYDB] is [fromYDB] with a panic for an error, where [fromYDB] calls
    [FromYDB] itself: the equation that the source is written by. *)
Lemma FromYDB_unfold (t : Ydb_Type) (v : Ydb_Value) :
  FromYDB t v = must (fromYDB_body FromYDB t v).
Proof.
  unfold FromYDB at 1. cbn [fromYDB]. f_equal.
  apply fromYDB_body_calls_smaller.
  intros t' v' Hd. unfold FromYDB. f_equal.
  apply fromYDB_fuel_irrelevant. exact Hd.
Qed.

End DecodingFacts.

(** A null flag inside [k] nested nodes. *)
Fixpoint nested_null (k : nat) : Ydb_Value :=
  match k with
  | O => leaf Value_NullFlagValue
  | S k => leaf (Value_NestedValue (nested_null k))
  end.

(** [k] Optional values around a value. *)
Fixpoint optionals (k : nat) (v : Value) : Value :=
  match k with
  | O => v
  | S k => OptionalValue (optionals k v)
  end.

Lemma nullValueFromYDB_nested_null (k : nat) (t : Type_) :
  nullValueFromYDB (nested_null k) t
  = match t with
    | optionalType innerType => Some (NullValue innerType)
    | voidType => Some VoidValue
    | _ => None
    end.
Proof. induction k as [|k IH]; [reflexivity|exact IH]. Qed.

Lemma nullValueFromYDB_void :
  forall v : Ydb_Value,
    nullValueFromYDB v voidType = Some VoidValue
    \/ nullValueFromYDB v voidType = None.
Proof.
  fix IH 1. intros [x items pairs idx hi].
  destruct x; simpl; auto.
Qed.

Lemma sort_Slice_nil {ext : Externals} {A : Type} (less : A -> A -> bool) :
  sort_Slice less [] = [].
Proof.
  apply Permutation_nil. apply sort_Slice_Permutation.
Qed.

Lemma sort_Slice_singleton {ext : Externals} {A : Type}
      (less : A -> A -> bool) (x : A) :
  sort_Slice less [x] = [x].
Proof.
  apply Permutation_length_1_inv. apply sort_Slice_Permutation.
Qed.

Section DecodingEdges.
Context {ext : Externals}.

(** The decoder does not count nested nodes: a null flag at any depth, read
    at an Optional type, is the NULL of that type - the Optional value without
    payload - whereas the encoder puts one nested node around the NULL for
    every Optional value with a payload around it. *)
Theorem null_at_any_depth_decodes_to_outer_null :
  forall (k : nat) (T : Ydb_Type) (t : Type_),
    FromYDB (Type_OptionalType T) (nested_null k) = Ret (NullValue (TypeFromYDB T))
    /\ toYDB (optionals k (NullValue t)) = nested_null k.
Proof.
  intros k T t. split.
  - rewrite FromYDB_unfold. unfold fromYDB_body. cbv zeta.
    cbn [TypeFromYDB]. now rewrite nullValueFromYDB_nested_null.
  - induction k as [|k IH]; [reflexivity|].
    cbn [optionals nested_null]. unfold OptionalValue.
    destruct k as [|k]; [reflexivity|].
    cbn [optionals] in *. unfold OptionalValue in *.
    cbn [toYDB]. cbn [toYDB] in IH. now rewrite IH.
Qed.

(** At the type Void every node decodes to the Void value. *)
Theorem FromYDB_Void_ignores_the_value :
  forall v : Ydb_Value, FromYDB Type_VoidType v = Ret VoidValue.
Proof.
  intros v. rewrite FromYDB_unfold. unfold fromYDB_body. cbv zeta.
  cbn [TypeFromYDB].
  destruct (nullValueFromYDB_void v) as [H|H]; rewrite H; reflexivity.
Qed.

(** A node without items decodes, at a List type, to a list of the type
    EmptyList, at a Tuple type to the tuple of no items and at a Struct type to
    the struct of no fields, whatever item type, element types or members the
    wire type declares: the decoded containers take their type from the
    decoded items.  The encoding of a list value without items is such a
    node. *)
Theorem containers_without_items_lose_declared_type :
  forall (T : Ydb_Type) (Ts : list Ydb_Type) (Fs : list (string * Ydb_Type))
         (pairs : list (Ydb_Value * Ydb_Value)) (idx hi : Z) (t : Type_),
    let v := mkValue Value_unset [] pairs idx hi in
    FromYDB (Type_ListType T) v = Ret (listValue EmptyList [])
    /\ FromYDB (Type_TupleType Ts) v = Ret (tupleValue (Tuple []) [])
    /\ FromYDB (Type_StructType Fs) v = Ret (structValue (Struct []) [])
    /\ toYDB (listValue t []) = mkValue Value_unset [] [] 0 0.
Proof.
  intros T Ts Fs pairs idx hi t v. subst v.
  split; [rewrite FromYDB_unfold; reflexivity|].
  split; [rewrite FromYDB_unfold; reflexivity|].
  split; [|reflexivity].
  rewrite FromYDB_unfold. unfold fromYDB_body. cbv zeta. cbn.
  unfold StructValue. now rewrite sort_Slice_nil.
Qed.

(** [DictValue] takes the type of a dict from its first pair, and without any
    pair it panics on the index; so a node without pairs cannot be decoded at
    a Dict type, the encoding of a dict value without pairs among them. *)
Theorem dict_without_pairs_panics :
  forall (K P : Ydb_Type) (items : list Ydb_Value) (idx hi : Z) (t : Type_),
    DictValue [] = Panic "index out of range [0] with length 0"
    /\ FromYDB (Type_DictType K P) (mkValue Value_unset items [] idx hi)
       = Panic "index out of range [0] with length 0"
    /\ toYDB (dictValue t []) = mkValue Value_unset [] [] 0 0.
Proof.
  intros K P items idx hi t.
  assert (Hd : DictValue [] = Panic "index out of range [0] with length 0").
  { unfold DictValue. cbn [bind]. now rewrite sort_Slice_nil. }
  split; [exact Hd|]. split; [|reflexivity].
  rewrite FromYDB_unfold. unfold fromYDB_body. cbv zeta.
  cbn [TypeFromYDB nullValueFromYDB Pairs mapM bind].
  exact (f_equal must Hd).
Qed.

(** At a primitive type other than YSON every node decodes, to a value of
    that type: a node that holds another leaf field, or none, gives the zero of
    the type, and the narrow integers are cut to their width. *)
Theorem primitive_decoding_always_returns :
  forall (p : PrimitiveType) (v : Ydb_Value),
    p <> TypeUnknown -> p <> TypeYSON ->
    exists x : Value,
      FromYDB (Type_TypeId p) v = Ret x
      /\ Value_Type x = Primitive p
      /\ match x with
         | int8Value n => Go.in_int 8 n
         | int16Value n => Go.in_int 16 n
         | uint8Value n => Go.in_uint 8 n
         | uint16Value n => Go.in_uint 16 n
         | _ => True
         end.
Proof.
  intros p v Hp Hy. rewrite FromYDB_unfold. unfold fromYDB_body. cbv zeta.
  cbn [TypeFromYDB].
  assert (Hn : nullValueFromYDB v (Primitive p) = None).
  { revert v. fix IH 1. intros [x items pairs idx hi]. destruct x; simpl; auto. }
  rewrite Hn.
  destruct p; try congruence; cbn -[Go.to_int Go.to_uint];
    eexists; (split; [reflexivity|]); (split; [reflexivity|]); try exact I.
  - unfold Go.in_int, Go.to_int. cbn.
    pose proof (Z.mod_pos_bound (GetInt32Value v + 128) 256). lia.
  - unfold Go.in_uint, Go.to_uint. cbn.
    pose proof (Z.mod_pos_bound (GetUint32Value v) 256). lia.
  - unfold Go.in_int, Go.to_int. cbn.
    pose proof (Z.mod_pos_bound (GetInt32Value v + 32768) 65536). lia.
  - unfold Go.in_uint, Go.to_uint. cbn.
    pose proof (Z.mod_pos_bound (GetUint32Value v) 65536). lia.
Qed.

End DecodingEdges.

Lemma primitive_decoding_always_returns_witness :
  exists x : Value,
    @FromYDB sample_externals (Type_TypeId TypeInt8) (leaf (Value_TextValue "300"))
    = Ret x
    /\ Value_Type x = Primitive TypeInt8
    /\ match x with
       | int8Value n => Go.in_int 8 n
       | int16Value n => Go.in_int 16 n
       | uint8Value n => Go.in_uint 8 n
       | uint16Value n => Go.in_uint 16 n
       | _ => True
       end.
Proof.
  apply (@primitive_decoding_always_returns sample_externals TypeInt8
           (leaf (Value_TextValue "300"))); discriminate.
Defined.

(** ** Round trips *)

(** A value comes back from the decoder as it went into the encoder. *)
Definition round_trips {ext : Externals} (v : Value) : Prop := round_trip v = Ret v.

Lemma round_trip_eq {ext : Externals} (v : Value) :
  round_trip v = FromYDB (Type_toYDB (Value_Type v)) (toYDB v).
Proof. reflexivity. Qed.

(** The leaf of a node, through nested nodes, is a null flag. *)
Fixpoint ends_in_null (x : Ydb_Value) : bool :=
  match x with
  | mkValue xx _ _ _ _ =>
      match xx with
      | Value_NestedValue nested => ends_in_null nested
      | Value_NullFlagValue => true
      | _ => false
      end
  end.

Lemma nullValueFromYDB_not_null :
  forall (x : Ydb_Value) (t : Type_),
    ends_in_null x = false -> nullValueFromYDB x t = None.
Proof.
  fix IH 1. intros [xx items pairs idx hi] t.
  destruct xx; simpl; try reflexivity; try discriminate. apply IH.
Qed.

Lemma scalar_toYDB_is_leaf (v : Value) :
  scalar_in_range v ->
  toYDB v = leaf (Value_of (toYDB v))
  /\ ends_in_null (toYDB v) = false
  /\ is_optional v = false
  /\ match Value_of (toYDB v) with Value_NestedValue _ => False | _ => True end.
Proof. destruct v; simpl; try tauto; intros _; repeat split. Qed.

Section RoundTrips.
Context {ext : Externals}.

Lemma round_trip_optional_of_scalar (v : Value) :
  scalar_in_range v -> round_trips (OptionalValue v).
Proof.
  intros Hs. destruct (scalar_toYDB_is_leaf v Hs) as [Hleaf [Hnull [Hopt Hnest]]].
  unfold round_trips. rewrite round_trip_eq.
  assert (Hy : toYDB (OptionalValue v) = toYDB v).
  { unfold OptionalValue. rewrite optional_toYDB_plain_payload by exact Hopt.
    now rewrite <- Hleaf. }
  rewrite Hy. cbn [OptionalValue Value_Type Optional Type_toYDB].
  rewrite FromYDB_unfold. unfold fromYDB_body. cbv zeta. cbn [TypeFromYDB].
  rewrite nullValueFromYDB_not_null by exact Hnull.
  pose proof (round_trip_scalar v Hs) as Hrt. rewrite round_trip_eq in Hrt.
  destruct (Value_of (toYDB v)); try contradiction; rewrite Hrt; reflexivity.
Qed.

Lemma round_trip_optional_of_optional (t : Type_) (p : Value) :
  let w := optionalValue t (Some p) in
  round_trips w -> ends_in_null (toYDB w) = false -> round_trips (OptionalValue w).
Proof.
  intros w Hrt Hnull. unfold round_trips in *. rewrite round_trip_eq in *.
  assert (Hy : toYDB (OptionalValue w) = leaf (Value_NestedValue (toYDB w)))
    by reflexivity.
  rewrite Hy. cbn [OptionalValue Value_Type Optional Type_toYDB].
  rewrite FromYDB_unfold. unfold fromYDB_body. cbv zeta. cbn [TypeFromYDB].
  rewrite nullValueFromYDB_not_null by exact Hnull.
  cbn [leaf Value_of]. cbn [Value_Type] in Hrt. rewrite Hrt. reflexivity.
Qed.

(** A scalar value of at most 64 bits whose payload fits its Go type comes
    back as it was under any number of Optional values around it. *)
Theorem round_trip_under_optionals :
  forall (k : nat) (v : Value),
    scalar_in_range v ->
    round_trip (optionals k v) = Ret (optionals k v).
Proof.
  intros k v Hs.
  assert (H : round_trips (optionals k v)
              /\ ends_in_null (toYDB (optionals k v)) = false).
  { induction k as [|k [IHr IHn]].
    - split; [exact (round_trip_scalar v Hs)|].
      apply (scalar_toYDB_is_leaf v Hs).
    - destruct k as [|k].
      + split; [exact (round_trip_optional_of_scalar v Hs)|].
        cbn [optionals]. destruct (scalar_toYDB_is_leaf v Hs) as [Hl [Hn [Ho _]]].
        unfold OptionalValue. rewrite optional_toYDB_plain_payload by exact Ho.
        now rewrite <- Hl.
      + split.
        * exact (round_trip_optional_of_optional _ _ IHr IHn).
        * exact IHn. }
  exact (proj1 H).
Qed.

End RoundTrips.

Lemma round_trip_under_optionals_witness :
  @round_trip sample_externals (optionals 3 (Int8Value (-128)))
  = Ret (optionals 3 (Int8Value (-128))).
Proof.
  apply (@round_trip_under_optionals sample_externals 3 (Int8Value (-128))).
  vm_compute. split; [discriminate|reflexivity].
Defined.

(** ** Values of 16 bytes *)

Lemma Z_of_byte_bound (b : byte) : 0 <= Go.Z_of_byte b < 256.
Proof.
  unfold Go.Z_of_byte. pose proof (Byte.to_N_bounded b). lia.
Qed.

Lemma byte_of_Z_of_byte (b : byte) : Go.byte_of_Z (Go.Z_of_byte b) = b.
Proof.
  unfold Go.byte_of_Z. rewrite Z.mod_small by apply Z_of_byte_bound.
  unfold Go.Z_of_byte. rewrite N2Z.id. now rewrite Byte.of_to_N.
Qed.

Lemma lor_shiftl_8 (acc x : Z) :
  0 <= acc -> 0 <= x < 256 -> Z.lor (Z.shiftl acc 8) x = acc * 256 + x.
Proof.
  intros Ha Hx.
  rewrite Z.shiftl_mul_pow2 by lia. change (2 ^ 8) with 256.
  rewrite <- Z.lxor_lor.
  - symmetry. apply Z.add_nocarry_lxor.
    apply Z.bits_inj'. intros n Hn. rewrite Z.land_spec, Z.bits_0.
    destruct (Z.ltb_spec n 8).
    + replace (acc * 256) with (acc * 2 ^ 8) by reflexivity.
      rewrite Z.mul_pow2_bits_low by lia. reflexivity.
    + rewrite (Z.bits_above_log2 x n); [apply andb_false_r|lia|].
      destruct (Z.eq_dec x 0) as [->|Hx0]; [simpl; lia|].
      apply Z.log2_lt_pow2; [lia|].
      apply Z.lt_le_trans with (2 ^ 8); [simpl; lia|].
      apply Z.pow_le_mono_r; lia.
  - apply Z.bits_inj'. intros n Hn. rewrite Z.land_spec, Z.bits_0.
    destruct (Z.ltb_spec n 8).
    + replace (acc * 256) with (acc * 2 ^ 8) by reflexivity.
      rewrite Z.mul_pow2_bits_low by lia. reflexivity.
    + rewrite (Z.bits_above_log2 x n); [apply andb_false_r|lia|].
      destruct (Z.eq_dec x 0) as [->|Hx0]; [simpl; lia|].
      apply Z.log2_lt_pow2; [lia|].
      apply Z.lt_le_trans with (2 ^ 8); [simpl; lia|].
      apply Z.pow_le_mono_r; lia.
Qed.

Lemma Uint64_8 (b0 b1 b2 b3 b4 b5 b6 b7 : byte) :
  Go.Uint64 [b0; b1; b2; b3; b4; b5; b6; b7]
  = ((((((Go.Z_of_byte b0 * 256 + Go.Z_of_byte b1) * 256 + Go.Z_of_byte b2) * 256
        + Go.Z_of_byte b3) * 256 + Go.Z_of_byte b4) * 256 + Go.Z_of_byte b5) * 256
     + Go.Z_of_byte b6) * 256 + Go.Z_of_byte b7.
Proof.
  unfold Go.Uint64. cbn [firstn fold_left].
  pose proof (Z_of_byte_bound b0). pose proof (Z_of_byte_bound b1).
  pose proof (Z_of_byte_bound b2). pose proof (Z_of_byte_bound b3).
  pose proof (Z_of_byte_bound b4). pose proof (Z_of_byte_bound b5).
  pose proof (Z_of_byte_bound b6). pose proof (Z_of_byte_bound b7).
  repeat match goal with
         | |- context [Z.lor (Z.shiftl ?a 8) ?x] =>
             lazymatch a with
             | context [Z.lor] => fail
             | _ => rewrite (lor_shiftl_8 a x) by lia
             end
         end.
  lia.
Qed.

Lemma byte_of_Z_eq (z : Z) (b : byte) :
  z mod 256 = Go.Z_of_byte b -> Go.byte_of_Z z = b.
Proof.
  intros H. unfold Go.byte_of_Z. rewrite H.
  unfold Go.Z_of_byte. rewrite N2Z.id. now rewrite Byte.of_to_N.
Qed.

Lemma PutUint64_Uint64 (b0 b1 b2 b3 b4 b5 b6 b7 : byte) :
  Go.PutUint64 (Go.Uint64 [b0; b1; b2; b3; b4; b5; b6; b7])
  = [b0; b1; b2; b3; b4; b5; b6; b7].
Proof.
  rewrite Uint64_8. unfold Go.PutUint64. cbn [map].
  pose proof (Z_of_byte_bound b0). pose proof (Z_of_byte_bound b1).
  pose proof (Z_of_byte_bound b2). pose proof (Z_of_byte_bound b3).
  pose proof (Z_of_byte_bound b4). pose proof (Z_of_byte_bound b5).
  pose proof (Z_of_byte_bound b6). pose proof (Z_of_byte_bound b7).
  assert (Hb : forall (z : Z) (e : Z) (b : byte),
             0 <= e -> (z / 2 ^ e) mod 256 = Go.Z_of_byte b ->
             Go.byte_of_Z (Z.shiftr z e) = b).
  { intros z e b He Hz. apply byte_of_Z_eq. now rewrite Z.shiftr_div_pow2. }
  repeat match goal with
         | |- _ :: _ = _ :: _ => f_equal
         | |- Go.byte_of_Z _ = _ =>
             apply Hb; [lia|];
             match goal with
             | |- context [2 ^ ?e] =>
                 let p := eval vm_compute in (2 ^ e) in change (2 ^ e) with p
             end;
             Z.div_mod_to_equations; lia
         end.
Qed.

Lemma BigEndianUint128_of_buffer (b : list byte) :
  List.length b = 16%nat ->
  BigEndianUint128 (Go.Uint64 (firstn 8 b)) (Go.Uint64 (skipn 8 b)) = b.
Proof.
  intros H.
  do 16 (destruct b as [|? b]; [discriminate|]).
  destruct b; [|discriminate].
  unfold BigEndianUint128. cbn [firstn skipn].
  now rewrite !PutUint64_Uint64.
Qed.

Section RoundTrip16.
Context {ext : Externals}.

(** A UUID and a Decimal of any precision and scale come back as they were:
    the two halves of the 16 bytes travel as [High_128] and [Low_128], in
    big-endian order, and are put together again. *)
Theorem round_trip_16_bytes :
  forall (b : list byte) (precision scale : Z),
    List.length b = 16%nat ->
    round_trip (UUIDValue b) = Ret (UUIDValue b)
    /\ round_trip (DecimalValue b precision scale)
       = Ret (DecimalValue b precision scale).
Proof.
  intros b precision scale Hb. split.
  - rewrite round_trip_eq, FromYDB_unfold. unfold fromYDB_body. cbv zeta.
    cbn [UUIDValue Value_Type Type_toYDB TypeFromYDB toYDB toYDB_128
         nullValueFromYDB primitiveValueFromYDB High_128 GetLow_128 Value_of must].
    now rewrite BigEndianUint128_of_buffer.
  - rewrite round_trip_eq, FromYDB_unfold. unfold fromYDB_body. cbv zeta.
    cbn [DecimalValue Value_Type Type_toYDB TypeFromYDB toYDB toYDB_128
         nullValueFromYDB High_128 GetLow_128 Value_of must].
    now rewrite BigEndianUint128_of_buffer.
Qed.

End RoundTrip16.

Lemma round_trip_16_bytes_witness :
  @round_trip sample_externals (UUIDValue minus_five) = Ret (UUIDValue minus_five)
  /\ @round_trip sample_externals (DecimalValue minus_five 22 9)
     = Ret (DecimalValue minus_five 22 9).
Proof.
  apply (@round_trip_16_bytes sample_externals minus_five 22 9). reflexivity.
Defined.

(** ** Constructors of containers *)

Lemma PrimitiveType_eqb_refl (p : PrimitiveType) : PrimitiveType_eqb p p = true.
Proof. destruct p; reflexivity. Qed.

Lemma equalsTo_refl : forall t : Type_, equalsTo t t = true.
Proof.
  fix IH 1. intros t. destruct t; cbn [equalsTo]; try reflexivity.
  - apply PrimitiveType_eqb_refl.
  - apply IH.
  - apply IH.
  - revert items. fix IHl 1. intros [|x r]; [reflexivity|].
    rewrite (IH x). simpl. apply IHl.
  - revert fields. fix IHl 1. intros [|[n x] r]; [reflexivity|].
    rewrite String.eqb_refl, (IH x). simpl. apply IHl.
  - now rewrite !IH.
  - now rewrite !Z.eqb_refl.
  - rewrite IH. now destruct kind.
Qed.

(** The type that [ListValue] gives to a list. *)
Definition list_type_of (items : list Value) : Type_ :=
  match items with
  | v :: _ => List_ (Value_Type v)
  | [] => EmptyList
  end.

(** [ListValue] compares the type of every item with itself, so it never
    panics: it takes any items, of one type or of several, and gives the list
    the type of its first item. *)
Theorem ListValue_takes_any_items :
  forall items : list Value,
    ListValue items = Ret (listValue (list_type_of items) items).
Proof.
  intros items. unfold ListValue.
  replace (forallb _ items) with true; [reflexivity|].
  symmetry. apply forallb_forall. intros x _. apply equalsTo_refl.
Qed.

Lemma ListValue_nonempty (v0 : Value) (rest : list Value) :
  ListValue (v0 :: rest) = Ret (listValue (List_ (Value_Type v0)) (v0 :: rest)).
Proof.
  unfold ListValue.
  replace (forallb _ (v0 :: rest)) with true; [reflexivity|].
  symmetry. apply forallb_forall. intros x _. apply equalsTo_refl.
Qed.

(** No field of two fields of one name comes before the other by name. *)
Definition names_not_descending (fields : list StructValueField) : Prop :=
  StronglySorted (fun a b => String.ltb (fst b) (fst a) = false) fields.

Section ContainerFacts.
Context {ext : Externals}.

(** [StructValue] keeps every field it is given, once each, also fields of
    one name; it stores them in an order in which no name goes down, and the
    struct type lists the name and the type of each stored field in that
    order. *)
Theorem StructValue_keeps_every_field :
  forall fields : list StructValueField,
    Permutation fields (struct_fields (StructValue fields))
    /\ names_not_descending (struct_fields (StructValue fields))
    /\ Value_Type (StructValue fields)
       = Struct (map (fun f => (fst f, Value_Type (snd f)))
                   (struct_fields (StructValue fields)))
    /\ List.length (Items (toYDB (StructValue fields))) = List.length fields.
Proof.
  intros fields. unfold StructValue. cbn [struct_fields Value_Type toYDB Items].
  split; [apply sort_Slice_Permutation|].
  split; [apply (sort_Slice_Sorted _ less_Name fields less_Name_swo)|].
  split; [reflexivity|].
  rewrite length_map. symmetry.
  apply Permutation_length, sort_Slice_Permutation.
Qed.

Lemma less_K_swo : StrictWeakOrder less_K.
Proof.
  split; unfold less_K.
  - intros x. apply string_ltb_irrefl.
  - intros x y z. apply string_ltb_trans.
  - intros x y z. apply string_ltb_neg_trans.
Qed.

Lemma mapM_all_Ret {A B : Type} (f : A -> outcome B) (l : list A) :
  Forall (fun a => exists b, f a = Ret b) l -> exists bs, mapM f l = Ret bs.
Proof.
  induction 1 as [|x l [b Hb] _ [bs Hbs]]; simpl; [now exists []|].
  rewrite Hb, Hbs. now eexists.
Qed.

(** The pairs of a dict value. *)
Definition dict_values (v : Value) : list DictValueField :=
  match v with
  | dictValue _ values => values
  | _ => []
  end.

(** [DictValue] on at least one pair, with keys that have a string: it
    returns a dict value that holds the given pairs, once each, in an order in
    which no key string goes down, and whose type is that of the key and the
    payload of the pair that is first in that order - not of the first
    argument. *)
Theorem DictValue_sorts_by_key_string :
  forall (v0 : DictValueField) (values : list DictValueField),
    Forall (fun f => exists s, toString (fst f) = Ret s) (v0 :: values) ->
    exists (w0 : DictValueField) (rest : list DictValueField),
      DictValue (v0 :: values)
      = Ret (dictValue (Dict (Value_Type (fst w0)) (Value_Type (snd w0)))
               (w0 :: rest))
      /\ Permutation (v0 :: values) (w0 :: rest)
      /\ StronglySorted
           (fun a b => String.ltb (dict_key b) (dict_key a) = false) (w0 :: rest).
Proof.
  intros v0 values Hk. unfold DictValue.
  assert (Hm : exists bs,
             match v0 :: values with
             | _ :: _ :: _ => mapM (fun f => toString (fst f)) (v0 :: values)
             | _ => Ret []
             end = Ret bs).
  { destruct values as [|v1 values]; [now exists []|].
    apply mapM_all_Ret. exact Hk. }
  destruct Hm as [bs Hbs]. rewrite Hbs. cbn [bind].
  pose proof (sort_Slice_Permutation _ less_K (v0 :: values)) as Hp.
  pose proof (sort_Slice_Sorted _ less_K (v0 :: values) less_K_swo) as Hs.
  destruct (sort_Slice less_K (v0 :: values)) as [|w0 rest].
  - apply Permutation_sym, Permutation_nil in Hp. discriminate.
  - exists w0, rest. split; [reflexivity|]. split; [exact Hp|exact Hs].
Qed.

End ContainerFacts.

Lemma DictValue_sorts_by_key_string_witness :
  exists (w0 : DictValueField) (rest : list DictValueField),
    @DictValue sample_externals
      [(TextValue "b", Int32Value 2); (TextValue "a", Int32Value 1)]
    = Ret (dictValue (Dict (Value_Type (fst w0)) (Value_Type (snd w0)))
             (w0 :: rest))
    /\ Permutation [(TextValue "b", Int32Value 2); (TextValue "a", Int32Value 1)]
                   (w0 :: rest)
    /\ StronglySorted
         (fun a b => String.ltb (@dict_key sample_externals b)
                                (@dict_key sample_externals a) = false)
         (w0 :: rest).
Proof.
  apply (@DictValue_sorts_by_key_string sample_externals
           (TextValue "b", Int32Value 2) [(TextValue "a", Int32Value 1)]).
  repeat constructor; simpl; eexists; reflexivity.
Defined.

(** ** Round trips of containers *)

Lemma names_ascending_NoDup (fields : list StructValueField) :
  names_ascending fields -> NoDup (map fst fields).
Proof.
  induction 1 as [|a l _ IH Ha]; simpl; constructor; [|exact IH].
  intros Hin. apply in_map_iff in Hin. destruct Hin as [b [Hb Hbl]].
  rewrite Forall_forall in Ha. specialize (Ha b Hbl).
  rewrite Hb, string_ltb_irrefl in Ha. discriminate.
Qed.

Lemma names_ascending_not_after (fields : list StructValueField) :
  names_ascending fields -> StronglySorted (not_after less_Name) fields.
Proof.
  induction 1 as [|a l _ IH Ha]; constructor; [exact IH|].
  eapply Forall_impl; [|exact Ha].
  intros b Hab. unfold not_after, less_Name.
  destruct (String.ltb (fst b) (fst a)) eqn:Hba; [|reflexivity].
  pose proof (string_ltb_trans _ _ _ Hab Hba) as H.
  now rewrite string_ltb_irrefl in H.
Qed.

(** The kind of the variant that a tuple value or a struct value can be
    the payload of. *)
Definition variant_payload_kind (w : Value) : option variantKind :=
  match w with
  | tupleValue (TupleType _) _ => Some variantTypeTuple
  | structValue (StructType _) _ => Some variantTypeStruct
  | _ => None
  end.

Section ContainerRoundTrips.
Context {ext : Externals}.

(** Fields whose names go strictly up are stored as they are given. *)
Lemma StructValue_of_ascending (fields : list StructValueField) :
  names_ascending fields ->
  StructValue fields
  = structValue (Struct (map (fun f => (fst f, Value_Type (snd f))) fields)) fields.
Proof.
  intros Ha. unfold StructValue.
  assert (Hs : sort_Slice less_Name fields = fields).
  { apply sorted_by_name_unique.
    - eapply Permutation_NoDup; [|apply names_ascending_NoDup; exact Ha].
      apply Permutation_map, sort_Slice_Permutation.
    - apply Permutation_sym, sort_Slice_Permutation.
    - apply sort_Slice_Sorted, less_Name_swo.
    - now apply names_ascending_not_after. }
  now rewrite Hs.
Qed.

(** Decoding the encoded items of a tuple, from the position [length pre]
    on, against the types of all its items. *)
Lemma decode_tuple_items (pre vs : list Value) :
  Forall round_trips vs ->
  mapM_i (fun i vvv =>
            bind (index (map TypeFromYDB
                           (map Type_toYDB (map Value_Type (pre ++ vs)))) i)
                 (fun ti => FromYDB (Type_toYDB ti) vvv))
         (List.length pre) (map toYDB vs)
  = Ret vs.
Proof.
  revert pre. induction vs as [|x vs IH]; intros pre Hrt; [reflexivity|].
  inversion Hrt as [|? ? Hx Hvs]; subst.
  cbn [map mapM_i]. unfold index at 1.
  rewrite !nth_error_map, nth_error_app2, Nat.sub_diag by lia.
  cbn [nth_error option_map bind].
  rewrite Type_toYDB_TypeFromYDB.
  unfold round_trips in Hx. rewrite round_trip_eq in Hx. rewrite Hx.
  specialize (IH (pre ++ [x])%list Hvs).
  rewrite length_app, Nat.add_1_r, <- app_assoc in IH. cbn [app] in IH.
  now rewrite IH.
Qed.

(** A tuple comes back as it was when each of its items does. *)
Theorem round_trip_tuple :
  forall items : list Value,
    Forall (fun v => round_trip v = Ret v) items ->
    round_trip (TupleValue items) = Ret (TupleValue items).
Proof.
  intros items Hrt. rewrite round_trip_eq, FromYDB_unfold.
  unfold fromYDB_body. cbv zeta.
  cbn [TupleValue Tuple Value_Type Type_toYDB TypeFromYDB toYDB
       nullValueFromYDB Items].
  pose proof (decode_tuple_items [] items Hrt) as H.
  cbn [app List.length] in H. rewrite H. reflexivity.
Qed.

Lemma decode_struct_items (pre fs : list StructValueField) :
  Forall (fun f => round_trips (snd f)) fs ->
  mapM_i (fun i vvv =>
            bind (index (map (fun f => (fst f, TypeFromYDB (snd f)))
                           (map (fun f => (fst f, Type_toYDB (snd f)))
                              (map (fun f => (fst f, Value_Type (snd f)))
                                 (pre ++ fs)))) i)
                 (fun fi =>
                    bind (FromYDB (Type_toYDB (snd fi)) vvv)
                         (fun x => Ret (fst fi, x))))
         (List.length pre) (map (fun f => toYDB (snd f)) fs)
  = Ret fs.
Proof.
  revert pre. induction fs as [|[n x] fs IH]; intros pre Hrt; [reflexivity|].
  inversion Hrt as [|? ? Hx Hfs]; subst.
  cbn [map mapM_i fst snd]. unfold index at 1.
  rewrite !nth_error_map, nth_error_app2, Nat.sub_diag by lia.
  cbn [nth_error option_map bind fst snd].
  rewrite Type_toYDB_TypeFromYDB.
  cbn [snd] in Hx. unfold round_trips in Hx. rewrite round_trip_eq in Hx.
  rewrite Hx. cbn [bind].
  specialize (IH (pre ++ [(n, x)])%list Hfs).
  rewrite length_app, Nat.add_1_r, <- app_assoc in IH. cbn [app] in IH.
  now rewrite IH.
Qed.

(** A struct of fields whose names go strictly up comes back as it was when
    the value of each field does. *)
Theorem round_trip_struct :
  forall fields : list StructValueField,
    names_ascending fields ->
    Forall (fun f => round_trip (snd f) = Ret (snd f)) fields ->
    round_trip (StructValue fields) = Ret (StructValue fields).
Proof.
  intros fields Ha Hrt.
  rewrite (StructValue_of_ascending fields Ha) at 1.
  rewrite round_trip_eq, FromYDB_unfold.
  unfold fromYDB_body. cbv zeta.
  cbn [Struct Value_Type Type_toYDB TypeFromYDB toYDB nullValueFromYDB Items].
  pose proof (decode_struct_items [] fields Hrt) as H.
  cbn [app List.length] in H.
  rewrite !map_map in *. cbn [fst snd] in *. rewrite H. reflexivity.
Qed.

(** A list of at least one item, typed by its first item, comes back as it
    was when every item has the type of the first and comes back as it was. *)
Theorem round_trip_list :
  forall (v0 : Value) (rest : list Value),
    Forall (fun v => Value_Type v = Value_Type v0) (v0 :: rest) ->
    Forall (fun v => round_trip v = Ret v) (v0 :: rest) ->
    round_trip (listValue (List_ (Value_Type v0)) (v0 :: rest))
    = Ret (listValue (List_ (Value_Type v0)) (v0 :: rest)).
Proof.
  intros v0 rest Hty Hrt. rewrite round_trip_eq, FromYDB_unfold.
  unfold fromYDB_body. cbv zeta.
  cbn [List_ Value_Type Type_toYDB TypeFromYDB toYDB nullValueFromYDB Items].
  rewrite Type_toYDB_TypeFromYDB.
  assert (H : mapM (fun vvv => FromYDB (Type_toYDB (Value_Type v0)) vvv)
                   (map toYDB (v0 :: rest)) = Ret (v0 :: rest)).
  { revert Hty Hrt. generalize (v0 :: rest) as l.
    induction l as [|x l IH]; intros Hty Hrt; [reflexivity|].
    inversion Hty as [|? ? Hx Hl]; subst. inversion Hrt as [|? ? Hx' Hl']; subst.
    cbn [map mapM]. rewrite <- Hx, <- round_trip_eq, Hx'.
    rewrite Hx. now rewrite (IH Hl Hl'). }
  rewrite H. cbn [bind]. rewrite ListValue_nonempty. reflexivity.
Qed.

(** A variant over a tuple or over a struct comes back as it was, with its
    index, when the tuple or the struct inside does. *)
Theorem round_trip_variant :
  forall (w : Value) (k : variantKind) (idx : Z),
    variant_payload_kind w = Some k ->
    round_trip w = Ret w ->
    round_trip (variantValue (variantType (Value_Type w) k) w idx)
    = Ret (variantValue (variantType (Value_Type w) k) w idx).
Proof.
  intros w k idx Hk Hw. rewrite round_trip_eq in *.
  destruct w as [| | | | | | | | | | | | | | | | |t fields| |t items
                 | | | | | | | | | | | | |];
    cbn [variant_payload_kind] in Hk; try discriminate;
    destruct t; try discriminate; injection Hk as <-.
  - rewrite FromYDB_unfold. unfold fromYDB_body. cbv zeta.
    cbn [Value_Type Type_toYDB TypeFromYDB toYDB nullValueFromYDB
         assert_NestedValue Value_of VariantIndex bind] in *.
    pose proof (Type_toYDB_TypeFromYDB (Type_toYDB (StructType fields0))) as E.
    cbn [Type_toYDB TypeFromYDB] in E. rewrite E, Hw. reflexivity.
  - rewrite FromYDB_unfold. unfold fromYDB_body. cbv zeta.
    cbn [Value_Type Type_toYDB TypeFromYDB toYDB nullValueFromYDB
         assert_NestedValue Value_of VariantIndex bind] in *.
    pose proof (Type_toYDB_TypeFromYDB (Type_toYDB (TupleType items0))) as E.
    cbn [Type_toYDB TypeFromYDB] in E. rewrite E, Hw. reflexivity.
Qed.

End ContainerRoundTrips.

Lemma round_trip_tuple_witness :
  @round_trip sample_externals
    (TupleValue [OptionalValue (Int32Value 1); NullValue (Primitive TypeText)])
  = Ret (TupleValue [OptionalValue (Int32Value 1); NullValue (Primitive TypeText)]).
Proof.
  apply (@round_trip_tuple sample_externals
           [OptionalValue (Int32Value 1); NullValue (Primitive TypeText)]).
  repeat constructor.
Defined.

Lemma round_trip_struct_witness :
  @round_trip sample_externals
    (@StructValue sample_externals [("a", Int32Value 1); ("b", TextValue "y")])
  = Ret (@StructValue sample_externals [("a", Int32Value 1); ("b", TextValue "y")]).
Proof.
  apply (@round_trip_struct sample_externals
           [("a", Int32Value 1); ("b", TextValue "y")]).
  - repeat constructor.
  - repeat constructor.
Defined.

Lemma round_trip_list_witness :
  @round_trip sample_externals
    (listValue (List_ (Primitive TypeInt32)) [Int32Value 1; Int32Value 2])
  = Ret (listValue (List_ (Primitive TypeInt32)) [Int32Value 1; Int32Value 2]).
Proof.
  apply (@round_trip_list sample_externals (Int32Value 1) [Int32Value 2]).
  - repeat constructor.
  - repeat constructor.
Defined.

Lemma round_trip_variant_witness :
  @round_trip sample_externals
    (variantValue
       (variantType (Tuple [Primitive TypeInt32]) variantTypeTuple)
       (TupleValue [Int32Value 1]) 0)
  = Ret (variantValue
           (variantType (Tuple [Primitive TypeInt32]) variantTypeTuple)
           (TupleValue [Int32Value 1]) 0).
Proof.
  apply (@round_trip_variant sample_externals (TupleValue [Int32Value 1])
           variantTypeTuple 0).
  - reflexivity.
  - reflexivity.
Defined.

(** ** Optional values around containers *)

Definition is_container (v : Value) : bool :=
  match v with
  | listValue _ _ | tupleValue _ _ | structValue _ _ | dictValue _ _ => true
  | _ => false
  end.

(** An Optional value copies the leaf field of its payload's node and
    nothing else of it: around a list, a tuple, a struct or a dict, whose
    nodes hold items or pairs and no leaf, its encoding is the zeroed node,
    whatever the items are; around a variant the index is lost. *)
Theorem optional_drops_items_of_its_payload :
  forall (v : Value),
    is_container v = true ->
    toYDB (OptionalValue v) = a_Value
    /\ (forall t w idx,
          VariantIndex (toYDB (OptionalValue (variantValue t w idx))) = 0).
Proof.
  intros v Hv. split; [|reflexivity].
  destruct v; try discriminate; reflexivity.
Qed.

Lemma optional_drops_items_of_its_payload_witness :
  toYDB (OptionalValue (TupleValue [Int32Value 1; Int32Value 2])) = a_Value
  /\ (forall t w idx,
        VariantIndex (toYDB (OptionalValue (variantValue t w idx))) = 0).
Proof.
  apply (optional_drops_items_of_its_payload
           (TupleValue [Int32Value 1; Int32Value 2])).
  reflexivity.
Defined.

(** ** Zero values that keep the type *)

(** The names of a list of named things go strictly up. *)
Definition ascending {A : Type} (l : list (string * A)) : Prop :=
  StronglySorted (fun a b => String.ltb (fst a) (fst b) = true) l.

Lemma ascending_by_names {A B : Type} (l1 : list (string * A)) (l2 : list (string * B)) :
  map fst l1 = map fst l2 -> ascending l1 -> ascending l2.
Proof.
  revert l2. induction l1 as [|a l1 IH]; intros [|b l2] Hn Ha;
    try discriminate; [constructor|].
  cbn [map] in Hn. injection Hn as Hab Hn.
  inversion Ha as [|? ? Hl Hf]; subst.
  constructor; [now apply IH|].
  rewrite Forall_forall in *. intros y Hy.
  assert (Hin : In (fst y) (map fst l1)) by (rewrite Hn; now apply in_map).
  apply in_map_iff in Hin. destruct Hin as [x [Hx Hxl]].
  rewrite <- Hab, <- Hx. now apply Hf.
Qed.

(** The types for which [ZeroValue] returns a value of the very type: the
    known primitive types; Optional, List and Dict of anything; Decimal(22,9);
    tuples of such types; structs of such types whose field names go strictly
    up; variants of the kind of their inner tuple or struct of such types. *)
Fixpoint zero_keeps (t : Type_) : Prop :=
  match t with
  | Primitive p => p <> TypeUnknown
  | optionalType _ | listType _ | dictType _ _ => True
  | TupleType items =>
      (fix go (l : list Type_) : Prop :=
         match l with
         | [] => True
         | x :: r => zero_keeps x /\ go r
         end) items
  | StructType fields =>
      ascending fields
      /\ (fix go (l : list (string * Type_)) : Prop :=
            match l with
            | [] => True
            | f :: r => zero_keeps (snd f) /\ go r
            end) fields
  | DecimalType p s => p = 22 /\ s = 9
  | variantType x k =>
      zero_keeps x /\ k = kind_of x /\ k <> variantTypeUnknown
  | _ => False
  end.

Section ZeroKeeps.
Context {ext : Externals}.

(** On the types of [zero_keeps], and so on every type without a Decimal
    other than Decimal(22,9), without Void, Null, EmptyList or EmptyDict
    outside an Optional, a List or a Dict, and without a struct whose fields
    are not in the order of their names, [ZeroValue] returns a value whose
    type is the type asked for. *)
Theorem ZeroValue_keeps_type :
  forall t : Type_,
    zero_keeps t -> exists v : Value, ZeroValue t = Ret v /\ Value_Type v = t.
Proof.
  fix IH 1. intros t. destruct t; cbn [zero_keeps]; intros Hk; try contradiction.
  - apply ZeroValue_primitive_type. exact Hk.
  - eexists. split; reflexivity.
  - eexists. split; reflexivity.
  - assert (Hm : exists vs, mapM ZeroValue items = Ret vs).
    { revert items Hk. fix IHl 1. intros [|x r]; [now exists []|].
      intros [Hx Hr]. destruct (IH x Hx) as [v [Hv _]].
      destruct (IHl r Hr) as [vs Hvs].
      exists (v :: vs). cbn [mapM]. now rewrite Hv, Hvs. }
    destruct Hm as [vs Hvs]. exists (tupleValue (TupleType items) vs).
    cbn [ZeroValue]. rewrite Hvs. split; reflexivity.
  - destruct Hk as [Ha Hk].
    assert (Hm : exists fs,
               mapM (fun tt => bind (ZeroValue (snd tt)) (fun v => Ret (fst tt, v)))
                    fields = Ret fs
               /\ map (fun f => (fst f, Value_Type (snd f))) fs = fields).
    { clear Ha. revert fields Hk. fix IHl 1. intros [|[n x] r]; [now exists []|].
      intros [Hx Hr]. cbn [snd] in Hx. destruct (IH x Hx) as [v [Hv Hty]].
      destruct (IHl r Hr) as [fs [Hfs Hmap]].
      exists ((n, v) :: fs). cbn [mapM fst snd map]. rewrite Hv. cbn [bind].
      rewrite Hfs. split; [reflexivity|]. now rewrite Hty, Hmap. }
    destruct Hm as [fs [Hfs Hmap]]. exists (StructValue fs).
    cbn [ZeroValue]. rewrite Hfs. cbn [bind]. split; [reflexivity|].
    rewrite StructValue_of_ascending.
    + cbn [Value_Type]. now rewrite Hmap.
    + apply (ascending_by_names fields fs); [|exact Ha].
      rewrite <- Hmap, map_map. reflexivity.
  - eexists. split; reflexivity.
  - destruct Hk as [-> ->]. eexists. split; reflexivity.
  - destruct Hk as [Hx [-> Hu]]. destruct (IH t Hx) as [z [Hz _]].
    cbn [ZeroValue]. rewrite Hz. cbn [bind]. unfold VariantValue.
    destruct t; cbn [kind_of] in Hu; try congruence;
      cbn [Variant bind kind_of]; eexists; split; reflexivity.
Qed.

End ZeroKeeps.

Lemma ZeroValue_keeps_type_witness :
  exists v : Value,
    @ZeroValue sample_externals
      (Struct [("a", Tuple [Primitive TypeInt32; DecimalType 22 9]);
               ("b", Optional Void)])
    = Ret v
    /\ Value_Type v
       = Struct [("a", Tuple [Primitive TypeInt32; DecimalType 22 9]);
                 ("b", Optional Void)].
Proof.
  apply (@ZeroValue_keeps_type sample_externals
           (Struct [("a", Tuple [Primitive TypeInt32; DecimalType 22 9]);
                    ("b", Optional Void)])).
  simpl. repeat split; try discriminate. repeat constructor.
Defined.

(** ** The point in the string of a Decimal value *)

Lemma substring_split (s : string) (n : nat) :
  (n <= String.length s)%nat ->
  (String.substring 0 n s ++ String.substring n (String.length s - n) s)%string = s.
Proof.
  revert n. induction s as [|a s IH]; intros [|n] Hn; simpl in *; try lia.
  - reflexivity.
  - f_equal. clear. induction s as [|b s IH]; simpl; [reflexivity|now rewrite IH].
  - f_equal. apply IH. lia.
Qed.

Lemma substring_length (s : string) (n m : nat) :
  (n + m <= String.length s)%nat -> String.length (String.substring n m s) = m.
Proof.
  revert n m. induction s as [|a s IH]; intros [|n] [|m] Hn; simpl in *;
    try lia; try reflexivity.
  - f_equal. apply (IH 0%nat). simpl. lia.
  - apply IH. lia.
  - apply IH. lia.
Qed.

Section DecimalPoint.
Context {ext : Externals}.

(** The string of a Decimal value, for a scale that is not negative.  When
    the digits of the number, with the minus sign of a negative number, are
    fewer than the scale, [toString] panics.  Otherwise it returns the digits
    cut in two with a point between, the right part of exactly [Scale]
    characters; no zero is put before or after the point. *)
Theorem decimal_toString_point :
  forall (value : list byte) (Precision Scale : Z),
    0 <= Scale ->
    let digits := Go.FormatInt (decimal_FromBytes value Precision Scale) in
    (Go.len digits < Scale
     /\ toString (DecimalValue value Precision Scale)
        = Panic "slice bounds out of range")
    \/ (Scale <= Go.len digits
        /\ exists l r : string,
             toString (DecimalValue value Precision Scale) = Ret (l ++ "." ++ r)%string
             /\ (l ++ r)%string = digits
             /\ Go.len r = Scale).
Proof.
  intros value Precision Scale Hs digits.
  destruct (Z.ltb_spec (Go.len digits) Scale) as [Hlt|Hge].
  - left. split; [exact Hlt|].
    apply decimalValue_toString_short_digits. exact Hlt.
  - right. split; [exact Hge|].
    cbn [DecimalValue toString].
    rewrite decimalValue_toString_inserts_point by (fold digits; lia).
    fold digits. unfold Go.len in *.
    set (n := Z.to_nat (Z.of_nat (String.length digits) - Scale)).
    assert (Hn : (n <= String.length digits)%nat) by (unfold n; lia).
    eexists. eexists. split; [reflexivity|]. split.
    + apply substring_split. exact Hn.
    + rewrite substring_length by lia. unfold n. lia.
Qed.

End DecimalPoint.

Lemma decimal_toString_point_witness :
  (Go.len (Go.FormatInt (decimal_FromBytes minus_five 22 1)) < 1
   /\ @toString sample_externals (DecimalValue minus_five 22 1)
      = Panic "slice bounds out of range")
  \/ (1 <= Go.len (Go.FormatInt (decimal_FromBytes minus_five 22 1))
      /\ exists l r : string,
           @toString sample_externals (DecimalValue minus_five 22 1)
           = Ret (l ++ "." ++ r)%string
           /\ (l ++ r)%string = Go.FormatInt (decimal_FromBytes minus_five 22 1)
           /\ Go.len r = 1).
Proof.
  apply (@decimal_toString_point sample_externals minus_five 22 1). lia.
Defined.

(** ** The string of an interval *)

Section IntervalString.
Context {ext : Externals}.

(** The string of a negative interval is a minus sign before the string of
    the interval of the same length, as long as the length in nanoseconds fits
    an [int64]. *)
Theorem interval_toString_of_negative :
  forall v : Z,
    0 < v -> v * 1000 < 2 ^ 63 ->
    intervalValue_toString (- v) = ("-" ++ intervalValue_toString v)%string.
Proof.
  intros v Hv Hr. unfold intervalValue_toString, IntervalToDuration.
  assert (H1 : Go.to_int 64 (- v) = - v)
    by (apply to_int_small; [lia|unfold Go.in_int; cbn in *; lia]).
  assert (H2 : Go.to_int 64 v = v)
    by (apply to_int_small; [lia|unfold Go.in_int; cbn in *; lia]).
  unfold Go.Microsecond. rewrite H1, H2.
  assert (H3 : Go.to_int 64 (- v * 1000) = - (v * 1000))
    by (rewrite to_int_small; [lia|lia|unfold Go.in_int; cbn in *; lia]).
  assert (H4 : Go.to_int 64 (v * 1000) = v * 1000)
    by (apply to_int_small; [lia|unfold Go.in_int; cbn in *; lia]).
  rewrite H3, H4.
  replace (- (v * 1000) <? 0) with true by (symmetry; apply Z.ltb_lt; lia).
  replace (v * 1000 <? 0) with false by (symmetry; apply Z.ltb_ge; lia).
  rewrite Z.opp_involutive, H4.
  generalize (v * 1000). intros d.
  cbv zeta.
  repeat match goal with
         | |- context [if ?c then _ else _] => destruct c
         end; reflexivity.
Qed.

(** An interval of [k] whole days is written [P<k>D], without a time part;
    the interval of length zero is written [P] alone. *)
Theorem interval_toString_whole_days :
  forall k : Z,
    0 <= k -> k * 86400000000000 < 2 ^ 63 ->
    intervalValue_toString (k * 86400000000)
    = if k =? 0 then "P" else ("P" ++ Go.FormatInt k ++ "D")%string.
Proof.
  intros k Hk Hr. unfold intervalValue_toString, IntervalToDuration.
  unfold Go.Microsecond, Go.Hour, Go.Minute, Go.Second.
  assert (Hi : forall z, - 2 ^ 63 <= z < 2 ^ 63 -> Go.to_int 64 z = z).
  { intros z Hz. apply to_int_small; [lia|]. unfold Go.in_int. cbn in *. lia. }
  cbn in Hr.
  rewrite (Hi (k * 86400000000)) by (cbn; lia).
  rewrite (Hi (k * 86400000000 * 1000)) by (cbn; lia).
  replace (k * 86400000000 * 1000 <? 0) with false by (symmetry; apply Z.ltb_ge; lia).
  cbv zeta.
  replace (60 * (60 * 1000000000)) with 3600000000000 by reflexivity.
  replace (Z.quot (Z.quot (k * 86400000000 * 1000) 3600000000000) 24) with k.
  2:{ replace (k * 86400000000 * 1000) with (k * 24 * 3600000000000) by lia.
      rewrite (Z.quot_div_nonneg (k * 24 * 3600000000000)) by lia.
      rewrite Z.div_mul by lia.
      rewrite Z.quot_div_nonneg by lia. now rewrite Z.div_mul by lia. }
  destruct (Z.eqb_spec k 0) as [->|Hne].
  - reflexivity.
  - replace (0 <? k) with true by (symmetry; apply Z.ltb_lt; lia).
    rewrite (Hi (k * 3600000000000)) by (cbn; lia).
    rewrite (Hi (k * 3600000000000 * 24)) by (cbn; lia).
    replace (k * 86400000000 * 1000 - k * 3600000000000 * 24) with 0 by lia.
    rewrite (Hi 0) by (cbn; lia). cbn.
    reflexivity.
Qed.
End IntervalString.

Lemma interval_toString_of_negative_witness :
  @intervalValue_toString sample_externals (- 90000000)
  = ("-" ++ @intervalValue_toString sample_externals 90000000)%string.
Proof.
  apply (@interval_toString_of_negative sample_externals 90000000); reflexivity.
Defined.

Lemma interval_toString_whole_days_witness :
  @intervalValue_toString sample_externals (2 * 86400000000) = "P2D".
Proof.
  apply (@interval_toString_whole_days sample_externals 2).
  - discriminate.
  - reflexivity.
Defined.

(** ** The checks of the balancer tests *)

Module BalancerTestFacts.
Import Balancer.

(** How many of the results are the connection of [addr]. *)
Fixpoint times_returned (addr : string) (results : list (option string)) : Z :=
  match results with
  | [] => 0
  | Some a :: r =>
      (if String.eqb a addr then 1 else 0) + times_returned addr r
  | None :: r => times_returned addr r
  end.

Lemma get_incr (m : mdist) (a b : string) :
  get (incr m a) b = (if String.eqb a b then 1 else 0) + get m b.
Proof.
  unfold get. induction m as [|[c n] m IH]; cbn [incr find fst snd].
  - destruct (String.eqb a b); reflexivity.
  - destruct (String.eqb_spec c a) as [->|Hca]; cbn [find fst snd].
    + destruct (String.eqb_spec a b) as [->|Hab]; [|reflexivity].
      cbn [snd]. lia.
    + destruct (String.eqb_spec c b) as [->|Hcb]; [|exact IH].
      destruct (String.eqb_spec a b) as [->|Hab]; [congruence|reflexivity].
Qed.

(** The loop of the tests counts what [Next] returned: when it ends without
    the fatal exit, the count of every address has grown by the number of
    times the connection of that address was returned, and a [nil] has changed
    no count. *)
Theorem observe_counts_returned :
  forall (t : test) (results : list (option string)) (m m' : mdist),
    observe t results m = Some m' ->
    forall addr : string, get m' addr = get m addr + times_returned addr results.
Proof.
  intros t results. induction results as [|[a|] r IH]; intros m m' H addr.
  - injection H as <-. cbn. lia.
  - cbn [observe] in H. rewrite (IH _ _ H addr), get_incr.
    cbn [times_returned]. lia.
  - cbn [observe] in H.
    destruct (Z.of_nat (List.length (del t)) <? Z.of_nat (List.length (add t)));
      [discriminate|].
    rewrite (IH _ _ H addr). reflexivity.
Qed.

Definition within_tenth (p : string * Z) : bool :=
  (lower (snd p) <=? snd p) && (snd p <=? upper (snd p)).

Lemma table_counts_within_tenth :
  forallb (fun t => forallb within_tenth (exp t)) testData = true.
Proof. vm_compute. reflexivity. Qed.

(** For every row of the table, a distribution that the exact check of the
    round-robin test accepts is accepted by the check within a tenth of the
    random-choice test: the two bounds that the latter computes in floating
    point lie on either side of each expected count. *)
Theorem exact_check_implies_tolerant_check :
  forall (t : test) (m : mdist),
    In t testData -> rr_accepts t m = true -> rc_accepts t m = true.
Proof.
  intros t m Hin Hrr.
  pose proof table_counts_within_tenth as Hb.
  rewrite forallb_forall in Hb. specialize (Hb t Hin).
  rewrite forallb_forall in Hb.
  unfold rr_accepts, rc_accepts in *.
  apply andb_true_iff in Hrr. destruct Hrr as [Hexp Hother].
  rewrite Hother, andb_true_r.
  rewrite forallb_forall in Hexp. apply forallb_forall. intros p Hp.
  specialize (Hexp p Hp). specialize (Hb p Hp).
  apply Z.eqb_eq in Hexp. unfold within_tenth in Hb.
  apply andb_true_iff in Hb. destruct Hb as [Hl Hu].
  apply Z.leb_le in Hl, Hu. cbv zeta. rewrite Hexp.
  apply negb_true_iff, orb_false_iff.
  split; apply Z.ltb_ge; assumption.
Qed.

End BalancerTestFacts.

Lemma observe_counts_returned_witness :
  Balancer.get [("foo", 2); ("bar", 1)] "foo"
  = Balancer.get [] "foo"
    + BalancerTestFacts.times_returned "foo" [Some "foo"; Some "bar"; Some "foo"].
Proof.
  apply (BalancerTestFacts.observe_counts_returned (Balancer.row 0)
           [Some "foo"; Some "bar"; Some "foo"] [] [("foo", 2); ("bar", 1)]).
  reflexivity.
Defined.

Lemma exact_check_implies_tolerant_check_witness :
  Balancer.rc_accepts (Balancer.row 1) BalancerFacts.table_600_200_200 = true.
Proof.
  apply (BalancerTestFacts.exact_check_implies_tolerant_check
           (Balancer.row 1) BalancerFacts.table_600_200_200).
  - right. left. reflexivity.
  - vm_compute. reflexivity.
Defined.

(** ** Optional values around values of 16 bytes *)

Lemma PutUint64_0 : Go.PutUint64 0 = repeat "000"%byte 8.
Proof. reflexivity. Qed.

Section Optional16.
Context {ext : Externals}.

(** Around a Decimal or a UUID an Optional value sends the lower 8 bytes
    only, since it copies the leaf field and leaves [High_128] of its node
    zero: the value that comes back has the upper 8 bytes zero and the lower 8
    bytes as they were. *)
Theorem optional_16_bytes_lose_upper_half :
  forall (b : list byte) (precision scale : Z),
    List.length b = 16%nat ->
    round_trip (OptionalValue (DecimalValue b precision scale))
    = Ret (OptionalValue
             (DecimalValue (repeat "000"%byte 8 ++ skipn 8 b)%list precision scale))
    /\ round_trip (OptionalValue (UUIDValue b))
       = Ret (OptionalValue (UUIDValue (repeat "000"%byte 8 ++ skipn 8 b)%list)).
Proof.
  intros b precision scale Hb.
  do 16 (destruct b as [|? b]; [discriminate|]).
  destruct b; [|discriminate].
  split.
  - rewrite round_trip_eq, FromYDB_unfold. unfold fromYDB_body. cbv zeta.
    cbn [OptionalValue DecimalValue Optional Value_Type Type_toYDB TypeFromYDB
         toYDB toYDB_128 leaf Value_of nullValueFromYDB skipn firstn].
    rewrite FromYDB_unfold. unfold fromYDB_body. cbv zeta.
    cbn [TypeFromYDB nullValueFromYDB High_128 GetLow_128 Value_of must bind
         leaf Value_Type].
    unfold BigEndianUint128. now rewrite PutUint64_Uint64, PutUint64_0.
  - rewrite round_trip_eq, FromYDB_unfold. unfold fromYDB_body. cbv zeta.
    cbn [OptionalValue UUIDValue Optional Value_Type Type_toYDB TypeFromYDB
         toYDB toYDB_128 leaf Value_of nullValueFromYDB skipn firstn].
    rewrite FromYDB_unfold. unfold fromYDB_body. cbv zeta.
    cbn [TypeFromYDB nullValueFromYDB High_128 GetLow_128 Value_of must bind
         primitiveValueFromYDB leaf Value_Type].
    unfold BigEndianUint128. now rewrite PutUint64_Uint64, PutUint64_0.
Qed.

End Optional16.

Lemma optional_16_bytes_lose_upper_half_witness :
  @round_trip sample_externals (OptionalValue (DecimalValue minus_five 22 9))
  = Ret (OptionalValue
           (DecimalValue (repeat "000"%byte 8 ++ skipn 8 minus_five)%list 22 9))
  /\ @round_trip sample_externals (OptionalValue (UUIDValue minus_five))
     = Ret (OptionalValue
              (UUIDValue (repeat "000"%byte 8 ++ skipn 8 minus_five)%list)).
Proof.
  apply (@optional_16_bytes_lose_upper_half sample_externals minus_five 22 9).
  reflexivity.
Defined.
